(** * HvacFanControl: the polling loop of [fan_controller.cpp]

    A shallow embedding of the thermostat tracker ([Thermostat]), the ceiling
    fan synchroniser ([CeilingFan]), the blower override ([FurnaceBlower]) and
    the loop of [main], followed by the properties proved about them.

    The program talks to the outside through three things only: the steady
    clock, the HTTP exchanges made by [doHttpRequest], and [syslog].  They are
    modelled by a [World] that is threaded through every function in the
    order in which the C++ code performs its calls. *)

From Stdlib Require Import ZArith List Bool Lia String.
From Stdlib Require Import Floats.SpecFloat.
Import ListNotations.
Open Scope Z_scope.

(** ** std::chrono

    [steady_clock::duration] counts nanoseconds in a signed 64-bit integer
    (libstdc++, the compiler named by the README).  Durations and time points
    are integers of that unit; comparing a [seconds] value with a
    [steady_clock::duration] converts the former to nanoseconds.  The
    counter lasts for 292 years and its overflow is undefined behaviour, so
    the arithmetic of time is that of [Z]. *)

Module Chrono.

Definition duration := Z.
Definition time_point := Z.

Definition seconds (n : Z) : duration := n * 1000000000.

(** [duration_cast<milliseconds>] truncates towards zero. *)
Definition to_milliseconds (d : duration) : Z := Z.quot d 1000000.

End Chrono.

(** ** The constants of the anonymous namespace *)

Definition k_thermostatPollFrequencySeconds : Chrono.duration := Chrono.seconds 15.
Definition k_runBlowerFanAfterHeatOff : Chrono.duration := Chrono.seconds (60 * 6).
Definition k_ceilingFanOnDelay : Chrono.duration := Chrono.seconds 60.
Definition k_ceilingFanOffDelay : Chrono.duration := Chrono.seconds 180.
Definition k_heatOnFanSpeed : Z := 2.
Definition k_heatOffFanSpeed : Z := 1.
Definition BLOWER_ON : Z := 2.

(** [unsigned long] on the LP64 targets the program is built for. *)
Definition ULONG_MODULUS : Z := 2 ^ 64.

(** ** rapidjson values

    The JSON parser is a library; a response body is represented by what
    [Document::Parse] makes of it.  An integer literal carries [kIntFlag]
    exactly when it fits a 32-bit [int]; literals with a fraction or an
    exponent are doubles. *)

Module Json.

Definition double := spec_float.
Definition float := spec_float.

#[local] Set Warnings "-register-all".
Inductive value :=
| Null
| Bool (b : bool)
| Int (z : Z)
| Double (d : double)
| String (s : string)
| Array (items : list value)
| Object (members : list (string * value)).

Definition IsInt (v : value) : bool :=
  match v with
  | Int z => (- 2 ^ 31 <=? z) && (z <? 2 ^ 31)
  | _ => false
  end.

(** Conversion of an integer to [double], round to nearest even. *)
Definition double_of_Z (z : Z) : double := binary_normalize 53 1024 z 0 false.

(** [static_cast<float>] of a [double]. *)
Definition float_of_double (d : double) : float :=
  match d with
  | S754_finite s m e => binary_round 24 128 s m e
  | _ => d
  end.

(** [FindMember] scans the members in document order and stops at the first
    whose name matches. *)
Fixpoint FindMember (members : list (string * value)) (name : string) : option value :=
  match members with
  | [] => None
  | (k, v) :: rest => if String.eqb k name then Some v else FindMember rest name
  end.

(** The accessors state their preconditions with [RAPIDJSON_ASSERT], which
    is [assert] under the README's build line: a call outside the
    precondition stops the process. *)
Inductive checked (A : Type) :=
| AssertFail
| Ok (a : A).
Arguments AssertFail {A}.
Arguments Ok {A} a.

Definition and_then {A B} (c : checked A) (f : A -> checked B) : checked B :=
  match c with
  | AssertFail => AssertFail
  | Ok a => f a
  end.

(** [Value::HasMember]: asserts [IsObject()]. *)
Definition HasMember (doc : value) (name : string) : checked bool :=
  match doc with
  | Object members =>
      Ok (match FindMember members name with Some _ => true | None => false end)
  | _ => AssertFail
  end.

(** [Value::operator[]] with a name: asserts [IsObject()] and that the
    member exists. *)
Definition member (doc : value) (name : string) : checked value :=
  match doc with
  | Object members =>
      match FindMember members name with
      | Some v => Ok v
      | None => AssertFail
      end
  | _ => AssertFail
  end.

(** [Value::GetInt]: asserts [kIntFlag]. *)
Definition GetInt (v : value) : checked Z :=
  match v with
  | Int z => if IsInt v then Ok z else AssertFail
  | _ => AssertFail
  end.

(** [Value::GetFloat] is [static_cast<float>(GetDouble())], and [GetDouble]
    asserts [IsNumber()]. *)
Definition GetFloat (v : value) : checked float :=
  match v with
  | Double d => Ok (float_of_double d)
  | Int z => Ok (float_of_double (double_of_Z z))
  | _ => AssertFail
  end.

End Json.

Declare Scope checked_scope.
Delimit Scope checked_scope with checked.
Notation "x <- c ;; k" := (Json.and_then c (fun x => k))
  (at level 61, c at next level, right associativity) : checked_scope.

(** ** The outside world *)

(** A CURL easy handle is identified by a number; [main] creates four. *)
Definition CURL := nat.

Inductive postfields :=
| FanSpeedFields (speed : Z)        (* {"fanSpeed": <speed>} *)
| FmodeFields (newState : Z)        (* {"fmode": <newState>} *)
| QueryDynamicShadowData            (* {"queryDynamicShadowData": 1} *)
| RebootFields.                     (* {"reboot": 1} *)

(** What the next [curl_easy_perform] on a handle sends: [CURLOPT_HTTPGET]
    selects a GET, [CURLOPT_POSTFIELDS] a POST of the given data.  The
    setting stays on the handle until it is overwritten. *)
Inductive request :=
| HttpGet
| HttpPost (data : postfields).

(** The string collected by [callback], seen through [std::string::empty]
    and [Document::Parse]. *)
Inductive body :=
| BodyEmpty
| BodyParseError
| BodyJson (doc : Json.value).

(** What [doHttpRequest] returns: the response code ([0] when the transfer
    produced none) and the body. *)
Definition response := (Z * body)%type.

Inductive priority := LOG_ERR | LOG_INFO.

Inductive message :=
| FailedToGetData (h : CURL) (failCount : Z) (code : Z) (b : body)
| FailedToParseData (h : CURL) (failCount : Z) (code : Z) (b : body)
| SettingFanSpeed (h : CURL) (speed : Z) (code : Z) (b : option body) (ms : Z)
| SettingBlower (h : CURL) (newState : Z) (b : body) (ms : Z).

Inductive event :=
| Sent (h : CURL) (r : request) (answer : response)
| Syslog (p : priority) (m : message)
| Slept (d : Chrono.duration).

(** The clock and the network are oracles: [clock w n] is what the [n]-th
    call of [steady_clock::now] returns, [wire w n] what the [n]-th call of
    [doHttpRequest] receives.  [reads] and [sent] count the calls made so
    far; [curl] holds the request currently configured on each handle. *)
Record World := mkWorld {
  clock : nat -> Chrono.time_point;
  reads : nat;
  wire : nat -> response;
  sent : nat;
  curl : CURL -> request
}.

(** A computation either stops the process (a failed [RAPIDJSON_ASSERT]) or
    yields a value, the next world and the events it produced, oldest
    first.  What the program prints on [std::cout] and [std::cerr] is not
    recorded. *)
Inductive outcome (A : Type) :=
| Abort
| Done (a : A) (w : World) (evs : list event).
Arguments Abort {A}.
Arguments Done {A} a w evs.

Definition M (A : Type) := World -> outcome A.

Definition ret {A} (a : A) : M A := fun w => Done a w [].

Definition bind {A B} (m : M A) (f : A -> M B) : M B :=
  fun w =>
    match m w with
    | Abort => Abort
    | Done a w1 e1 =>
        match f a w1 with
        | Abort => Abort
        | Done b w2 e2 => Done b w2 (e1 ++ e2)
        end
    end.

Declare Scope io_scope.
Delimit Scope io_scope with io.
Notation "x <- m ;; k" := (bind m (fun x => k))
  (at level 61, m at next level, right associativity) : io_scope.
Notation "m ;; k" := (bind m (fun _ => k))
  (at level 61, right associativity) : io_scope.
Open Scope io_scope.

(** A failed assertion stops the process. *)
Definition asserting {A} (c : Json.checked A) : M A :=
  fun w =>
    match c with
    | Json.AssertFail => Abort
    | Json.Ok a => Done a w []
    end.

Definition emit (e : event) : M unit := fun w => Done tt w [e].

(** [steady_clock::now()] *)
Definition now : M Chrono.time_point :=
  fun w =>
    Done (clock w (reads w))
         (mkWorld (clock w) (S (reads w)) (wire w) (sent w) (curl w)) [].

Definition curl_easy_setopt (h : CURL) (r : request) : M unit :=
  fun w =>
    Done tt
         (mkWorld (clock w) (reads w) (wire w) (sent w)
                  (fun h' => if Nat.eqb h' h then r else curl w h')) [].

Definition doHttpRequest (h : CURL) : M response :=
  fun w =>
    let answer := wire w (sent w) in
    Done answer
         (mkWorld (clock w) (reads w) (wire w) (S (sent w)) (curl w))
         [Sent h (curl w h) answer].

Definition syslog (p : priority) (m : message) : M unit := emit (Syslog p m).

(** [std::this_thread::sleep_for]: libstdc++ returns at once when the
    requested time is not positive, and blocks for it otherwise. *)
Definition sleep_for (d : Chrono.duration) : M unit :=
  if d <=? 0 then ret tt else emit (Slept d).

(** ** struct ThermostatState *)

Record ThermostatState := mkThermostatState {
  temp : Json.float;
  targetTemp : Json.float;
  isHeatOn : bool;
  blowerState : Z          (* 0 = AUTO, 1 = CIRCULATE, 2 = ON *)
}.

(** ** class Thermostat *)

Module Thermostat.

Record t := mk {
  curlInstance : CURL;
  previousState : option ThermostatState;
  lastTransitionTime : Chrono.time_point;
  stateChanged : bool;
  failCount : Z
}.

(** The constructor reads the clock once. *)
Definition new (curlInstance : CURL) : M t :=
  n <- now ;;
  ret (mk curlInstance None (n - k_runBlowerFanAfterHeatOff) false 0).

Definition GetTimeSinceTransition (tstat : t) : M Chrono.duration :=
  if lastTransitionTime tstat =? 0 then ret 0
  else n <- now ;; ret (n - lastTransitionTime tstat).

Definition ParseState (thermostatData : body) : Json.checked (option ThermostatState) :=
  match thermostatData with
  | BodyEmpty => Json.Ok None
  | BodyParseError => Json.Ok None
  | BodyJson jsonDoc =>
      (has_temp <- Json.HasMember jsonDoc "temp" ;;
       has_all <-
         (if negb has_temp then Json.Ok false else
          has_t_heat <- Json.HasMember jsonDoc "t_heat" ;;
          if negb has_t_heat then Json.Ok false else
          has_tstate <- Json.HasMember jsonDoc "tstate" ;;
          if negb has_tstate then Json.Ok false else
          Json.HasMember jsonDoc "fmode") ;;
       if negb has_all then Json.Ok None else
       v_temp <- Json.member jsonDoc "temp" ;;
       temp <- Json.GetFloat v_temp ;;
       v_t_heat <- Json.member jsonDoc "t_heat" ;;
       t_heat <- Json.GetFloat v_t_heat ;;
       v_tstate <- Json.member jsonDoc "tstate" ;;
       tstate <- Json.GetInt v_tstate ;;
       v_fmode <- Json.member jsonDoc "fmode" ;;
       fmode <- Json.GetInt v_fmode ;;
       Json.Ok (Some (mkThermostatState temp t_heat (tstate =? 1) fmode)))%checked
  end.

(** [++failCount % 6 == 0] followed by the early [return false]. *)
Definition fail (tstat : t) (msg : Z -> message) : M (bool * t) :=
  let failCount' := (failCount tstat + 1) mod ULONG_MODULUS in
  (if failCount' mod 6 =? 0 then syslog LOG_ERR (msg failCount') else ret tt) ;;
  ret (false,
       mk (curlInstance tstat) (previousState tstat) (lastTransitionTime tstat)
          false failCount').

Definition Update (tstat : t) : M (bool * t) :=
  curl_easy_setopt (curlInstance tstat) HttpGet ;;
  thermostatData <- doHttpRequest (curlInstance tstat) ;;
  if negb (fst thermostatData =? 200) then
    fail tstat (fun n => FailedToGetData (curlInstance tstat) n
                           (fst thermostatData) (snd thermostatData))
  else
    newState <- asserting (ParseState (snd thermostatData)) ;;
    match newState with
    | None =>
        fail tstat (fun n => FailedToParseData (curlInstance tstat) n
                               (fst thermostatData) (snd thermostatData))
    | Some s =>
        let changed :=
          match previousState tstat with
          | Some p => negb (Bool.eqb (isHeatOn s) (isHeatOn p))
          | None => false
          end in
        if changed then
          n <- now ;;
          ret (true, mk (curlInstance tstat) (Some s) n true 0)
        else
          ret (true, mk (curlInstance tstat) (Some s) (lastTransitionTime tstat) false 0)
    end.

Definition Debug (tstat : t) : M unit :=
  curl_easy_setopt (curlInstance tstat) HttpGet ;;
  _ <- doHttpRequest (curlInstance tstat) ;;
  ret tt.

Definition StateChanged (tstat : t) : bool := stateChanged tstat.

Definition isFurnaceOn (tstat : t) : bool :=
  match previousState tstat with
  | Some p => isHeatOn p
  | None => false
  end.

Definition GetBlowerState (tstat : t) : Z :=
  match previousState tstat with
  | Some p => blowerState p
  | None => -1
  end.

End Thermostat.

(** ** class CeilingFan *)

Module CeilingFan.

Record t := mk {
  curlInstance : CURL;
  fanStateUpdatedSinceLastTransition : bool
}.

Definition new (curlInstance : CURL) : t := mk curlInstance false.

Definition SetFanSpeed (fan : t) (speed : Z) : M bool :=
  startTime <- now ;;
  curl_easy_setopt (curlInstance fan) (HttpPost (FanSpeedFields speed)) ;;
  result <- doHttpRequest (curlInstance fan) ;;
  endTime <- now ;;
  let opTime := Chrono.to_milliseconds (endTime - startTime) in
  syslog (if fst result =? 200 then LOG_INFO else LOG_ERR)
         (SettingFanSpeed (curlInstance fan) speed (fst result)
            (if fst result =? 200 then None else Some (snd result)) opTime) ;;
  ret (fst result =? 200).

Definition Update (fan : t) (tstat : Thermostat.t) : M t :=
  if Thermostat.StateChanged tstat then
    ret (mk (curlInstance fan) false)
  else if negb (fanStateUpdatedSinceLastTransition fan) then
    since <- Thermostat.GetTimeSinceTransition tstat ;;
    if since >? (if Thermostat.isFurnaceOn tstat
                 then k_ceilingFanOnDelay else k_ceilingFanOffDelay) then
      ok <- SetFanSpeed fan (if Thermostat.isFurnaceOn tstat
                             then k_heatOnFanSpeed else k_heatOffFanSpeed) ;;
      ret (mk (curlInstance fan) ok)
    else ret fan
  else ret fan.

Definition Debug (fan : t) : M unit :=
  curl_easy_setopt (curlInstance fan) (HttpPost QueryDynamicShadowData) ;;
  _ <- doHttpRequest (curlInstance fan) ;;
  ret tt.

End CeilingFan.

(** ** class FurnaceBlower *)

Module FurnaceBlower.

Record t := mk {
  curlInstance : CURL;
  latchedState : option Z
}.

Definition new (curlInstance : CURL) : t := mk curlInstance None.

Definition SetBlowerState (fan : t) (newState : Z) : M bool :=
  startTime <- now ;;
  curl_easy_setopt (curlInstance fan) (HttpPost (FmodeFields newState)) ;;
  result <- doHttpRequest (curlInstance fan) ;;
  endTime <- now ;;
  let opTime := Chrono.to_milliseconds (endTime - startTime) in
  syslog (if fst result =? 200 then LOG_INFO else LOG_ERR)
         (SettingBlower (curlInstance fan) newState (snd result) opTime) ;;
  ret (fst result =? 200).

(** The condition of the first [if]; [&&] and [||] evaluate their right
    operand, and so read the clock, only when the left one does not decide. *)
Definition override_wanted (tstat : Thermostat.t) : M bool :=
  if Thermostat.isFurnaceOn tstat then ret false
  else if Thermostat.StateChanged tstat then ret true
  else
    since <- Thermostat.GetTimeSinceTransition tstat ;;
    ret (since <? k_runBlowerFanAfterHeatOff).

Definition Update (fan : t) (tstat : Thermostat.t) : M t :=
  let currentBlowerState := Thermostat.GetBlowerState tstat in
  wanted <- override_wanted tstat ;;
  if wanted then
    let fan' :=
      match latchedState fan with
      | None =>
          if negb (currentBlowerState =? -1)
          then mk (curlInstance fan) (Some currentBlowerState)
          else fan
      | Some _ => fan
      end in
    if negb (currentBlowerState =? BLOWER_ON) then
      _ <- SetBlowerState fan' BLOWER_ON ;;
      ret fan'
    else ret fan'
  else
    match latchedState fan with
    | Some latched =>
        if latched =? currentBlowerState then
          ret (mk (curlInstance fan) None)
        else
          _ <- SetBlowerState fan latched ;;
          ret fan
    | None => ret fan
    end.

Definition Debug (fan : t) : M unit :=
  tstat <- Thermostat.new (curlInstance fan) ;;
  Thermostat.Debug tstat.

End FurnaceBlower.

(** ** class Fan and main *)

Inductive Fan :=
| IsCeilingFan (fan : CeilingFan.t)
| IsFurnaceBlower (fan : FurnaceBlower.t).

Definition Fan_Update (fan : Fan) (tstat : Thermostat.t) : M Fan :=
  match fan with
  | IsCeilingFan f => f' <- CeilingFan.Update f tstat ;; ret (IsCeilingFan f')
  | IsFurnaceBlower f => f' <- FurnaceBlower.Update f tstat ;; ret (IsFurnaceBlower f')
  end.

Definition Fan_Debug (fan : Fan) : M unit :=
  match fan with
  | IsCeilingFan f => CeilingFan.Debug f
  | IsFurnaceBlower f => FurnaceBlower.Debug f
  end.

(** [for (auto& fan : fans) fan->Update(tstat);] *)
Fixpoint update_fans (fans : list Fan) (tstat : Thermostat.t) : M (list Fan) :=
  match fans with
  | [] => ret []
  | fan :: rest =>
      fan' <- Fan_Update fan tstat ;;
      rest' <- update_fans rest tstat ;;
      ret (fan' :: rest')
  end.

Fixpoint debug_fans (fans : list Fan) : M unit :=
  match fans with
  | [] => ret tt
  | fan :: rest => Fan_Debug fan ;; debug_fans rest
  end.

Definition tstatCurl : CURL := 0%nat.
Definition fan1Curl : CURL := 1%nat.
Definition fan2Curl : CURL := 2%nat.
Definition fan3Curl : CURL := 3%nat.

Definition fans_of_main : list Fan :=
  [ IsCeilingFan (CeilingFan.new fan1Curl);
    IsCeilingFan (CeilingFan.new fan2Curl);
    IsCeilingFan (CeilingFan.new fan3Curl);
    IsFurnaceBlower (FurnaceBlower.new tstatCurl) ].

(** One pass through the body of [while (true)].  Printing the thermostat
    on [std::cout] reads the clock through [GetTimeSinceTransition]. *)
Definition loop_body (st : Thermostat.t * list Fan) : M (Thermostat.t * list Fan) :=
  loopStartTime <- now ;;
  r <- Thermostat.Update (fst st) ;;
  fans' <-
    (if fst r then
       fans' <- update_fans (snd st) (snd r) ;;
       _ <- Thermostat.GetTimeSinceTransition (snd r) ;;
       ret fans'
     else ret (snd st)) ;;
  loopEnd <- now ;;
  let loopExecTime := loopEnd - loopStartTime in
  sleep_for (k_thermostatPollFrequencySeconds - loopExecTime) ;;
  ret (snd r, fans').

(** The first [n] passes of the loop, which has no exit. *)
Fixpoint loop (n : nat) (st : Thermostat.t * list Fan) : M (Thermostat.t * list Fan) :=
  match n with
  | O => ret st
  | S n' => st' <- loop_body st ;; loop n' st'
  end.

(** [main], with [debug] standing for a first argument that starts with
    [-d]; [None] is the [return 0] of the diagnostic mode. *)
Definition main (debug : bool) (n : nat) : M (option (Thermostat.t * list Fan)) :=
  tstat <- Thermostat.new tstatCurl ;;
  if debug then debug_fans fans_of_main ;; ret None
  else st <- loop n (tstat, fans_of_main) ;; ret (Some st).

(** ** Observations on a run *)

(** The value a computation returns in a world, if it returns. *)
Definition value_of {A} (m : M A) (w : World) : option A :=
  match m w with
  | Abort => None
  | Done a _ _ => Some a
  end.

Definition events_of {A} (m : M A) (w : World) : list event :=
  match m w with
  | Abort => []
  | Done _ _ evs => evs
  end.

(** The blower modes posted as [{"fmode": n}], in order. *)
Fixpoint blower_commands (evs : list event) : list Z :=
  match evs with
  | [] => []
  | Sent _ (HttpPost (FmodeFields n)) _ :: rest => n :: blower_commands rest
  | _ :: rest => blower_commands rest
  end.

(** The speeds posted as [{"fanSpeed": n}], each with the response code. *)
Fixpoint speed_commands (evs : list event) : list (Z * Z) :=
  match evs with
  | [] => []
  | Sent _ (HttpPost (FanSpeedFields n)) answer :: rest =>
      (n, fst answer) :: speed_commands rest
  | _ :: rest => speed_commands rest
  end.

Definition applied (cmds : list (Z * Z)) : list (Z * Z) :=
  filter (fun c => snd c =? 200) cmds.

(** The entries written to the system log at priority [LOG_ERR]. *)
Fixpoint error_reports (evs : list event) : list message :=
  match evs with
  | [] => []
  | Syslog LOG_ERR m :: rest => m :: error_reports rest
  | _ :: rest => error_reports rest
  end.

(** The times for which [sleep_for] blocked, and their total. *)
Fixpoint sleeps (evs : list event) : list Chrono.duration :=
  match evs with
  | [] => []
  | Slept d :: rest => d :: sleeps rest
  | _ :: rest => sleeps rest
  end.

Definition slept (evs : list event) : Chrono.duration :=
  fold_right Z.add 0 (sleeps evs).

(** The answer the next [doHttpRequest] will receive, and the reading
    [Thermostat::Update] makes of it: [None] when the poll fails. *)
Definition next_answer (w : World) : response := wire w (sent w).

Definition reading_of (answer : response) : option ThermostatState :=
  if fst answer =? 200 then
    match Thermostat.ParseState (snd answer) with
    | Json.Ok r => r
    | Json.AssertFail => None
    end
  else None.

(** The answers on which [Thermostat::Update] stops the process. *)
Definition faults (answer : response) : bool :=
  (fst answer =? 200) &&
  match Thermostat.ParseState (snd answer) with
  | Json.AssertFail => true
  | Json.Ok _ => false
  end.

(** A sequence of polls, each made in a world of its own: between two polls
    the fans use the clock and the network as well, so nothing ties the
    world of one poll to that of the next.  [None] when a poll stops the
    process; otherwise the tracker after the last poll and the events of
    all polls. *)
Fixpoint polls (tstat : Thermostat.t) (ws : list World) : option (Thermostat.t * list event) :=
  match ws with
  | [] => Some (tstat, [])
  | w :: rest =>
      match Thermostat.Update tstat w with
      | Abort => None
      | Done r _ evs =>
          match polls (snd r) rest with
          | Some (tstat', evs') => Some (tstat', evs ++ evs')
          | None => None
          end
      end
  end.

(** The reading made by the last poll of the sequence that succeeded. *)
Fixpoint last_reading (ws : list World) : option ThermostatState :=
  match ws with
  | [] => None
  | w :: rest =>
      match last_reading rest with
      | Some s => Some s
      | None => reading_of (next_answer w)
      end
  end.

(** A sequence of ticks of one ceiling fan, each with the tracker as the
    poll of that cycle left it. *)
Fixpoint fan_ticks (fan : CeilingFan.t) (ticks : list (Thermostat.t * World))
  : CeilingFan.t * list event :=
  match ticks with
  | [] => (fan, [])
  | (tstat, w) :: rest =>
      match CeilingFan.Update fan tstat w with
      | Abort => (fan, [])
      | Done fan' _ evs =>
          let r := fan_ticks fan' rest in (fst r, evs ++ snd r)
      end
  end.

(** The same for the furnace blower. *)
Fixpoint blower_ticks (fan : FurnaceBlower.t) (ticks : list (Thermostat.t * World))
  : FurnaceBlower.t * list event :=
  match ticks with
  | [] => (fan, [])
  | (tstat, w) :: rest =>
      match FurnaceBlower.Update fan tstat w with
      | Abort => (fan, [])
      | Done fan' _ evs =>
          let r := blower_ticks fan' rest in (fst r, evs ++ snd r)
      end
  end.

(** ** Concrete worlds, for the examples *)

Definition clock_of (readings : list Z) : nat -> Chrono.time_point :=
  fun n => nth n readings (last readings 0).

Definition wire_of (answers : list response) : nat -> response :=
  fun n => nth n answers (0, BodyEmpty).

Definition world_of (readings : list Z) (answers : list response) : World :=
  mkWorld (clock_of readings) 0 (wire_of answers) 0 (fun _ => HttpGet).

(** A well-formed thermostat answer: temperatures in whole degrees. *)
Definition tstat_json (temp t_heat tstate fmode : Z) : body :=
  BodyJson (Json.Object [ ("temp"%string, Json.Int temp);
                          ("t_heat"%string, Json.Int t_heat);
                          ("tstate"%string, Json.Int tstate);
                          ("fmode"%string, Json.Int fmode) ]).

Definition a_reading (heat : bool) (fmode : Z) : ThermostatState :=
  mkThermostatState (Json.float_of_double (Json.double_of_Z 70))
                    (Json.float_of_double (Json.double_of_Z 68)) heat fmode.

(** A tracker that has seen [s] and whose last transition was at [since]. *)
Definition tracking (s : ThermostatState) (changed : bool) (at_time : Z) : Thermostat.t :=
  Thermostat.mk tstatCurl (Some s) at_time changed 0.

(** ** Outcomes of a blower tick *)

(** The outcome of the first branch of [FurnaceBlower::Update]. *)
Definition overrides (fan : FurnaceBlower.t) (cur : Z)
                     (fan' : FurnaceBlower.t) (evs : list event) : Prop :=
  FurnaceBlower.latchedState fan' =
    match FurnaceBlower.latchedState fan with
    | Some latched => Some latched
    | None => if cur =? -1 then None else Some cur
    end
  /\ blower_commands evs = (if cur =? BLOWER_ON then [] else [BLOWER_ON]).

(** The outcome of the [else] branch. *)
Definition restores (fan : FurnaceBlower.t) (cur : Z)
                    (fan' : FurnaceBlower.t) (evs : list event) : Prop :=
  match FurnaceBlower.latchedState fan with
  | Some latched =>
      if latched =? cur
      then FurnaceBlower.latchedState fan' = None /\ blower_commands evs = []
      else FurnaceBlower.latchedState fan' = Some latched
           /\ blower_commands evs = [latched]
  | None => FurnaceBlower.latchedState fan' = None /\ blower_commands evs = []
  end.


(** What [GetTimeSinceTransition] returns in a world. *)
Definition since_at (tstat : Thermostat.t) (w : World) : Chrono.duration :=
  match value_of (Thermostat.GetTimeSinceTransition tstat) w with
  | Some since => since
  | None => 0
  end.

(** The override condition in the words of the specification: heat is
    inactive, and a transition occurred this poll or the time since the
    transition is below the tail window. *)
Definition engage_condition (tstat : Thermostat.t) (since : Chrono.duration) : bool :=
  negb (Thermostat.isFurnaceOn tstat)
  && (Thermostat.StateChanged tstat || (since <? k_runBlowerFanAfterHeatOff)).

(** A blower that holds [Some 2] while the thermostat, [since] after the
    heat went off, reports mode [2] as well. *)
Definition blower_latched_on : FurnaceBlower.t := FurnaceBlower.mk tstatCurl (Some 2).

Definition heat_off_blower_on : Thermostat.t :=
  tracking (a_reading false 2) false (Chrono.seconds 1000).

Definition world_at (time : Z) : World := world_of [time] [(200, BodyEmpty)].

(** ** Outcomes of a ceiling fan tick *)

(** The settle delay and the target speed chosen by [CeilingFan::Update]. *)
Definition settle_delay (tstat : Thermostat.t) : Chrono.duration :=
  if Thermostat.isFurnaceOn tstat then k_ceilingFanOnDelay else k_ceilingFanOffDelay.

Definition target_speed (tstat : Thermostat.t) : Z :=
  if Thermostat.isFurnaceOn tstat then k_heatOnFanSpeed else k_heatOffFanSpeed.

Definition updated : CeilingFan.t -> bool := CeilingFan.fanStateUpdatedSinceLastTransition.

(** Three cycles of a fresh ceiling fan, 200 s and more after the heat went
    off: the first command is refused, the second accepted. *)
Definition heat_off_auto : Thermostat.t :=
  tracking (a_reading false 0) false (Chrono.seconds 1000).

Definition retry_ticks : list (Thermostat.t * World) :=
  [ (heat_off_auto, world_of [Chrono.seconds 1200] [(500, BodyEmpty)]);
    (heat_off_auto, world_of [Chrono.seconds 1215] [(200, BodyEmpty)]);
    (heat_off_auto, world_of [Chrono.seconds 1230] [(200, BodyEmpty)]) ].


(** The poll that sees the heat go off at 1000 s, with the blower on AUTO. *)
Definition heat_just_off : Thermostat.t :=
  tracking (a_reading false 0) true (Chrono.seconds 1000).

(** A world whose next clock reading is [time] and whose next HTTP exchange
    is answered with [code]. *)
Definition world_answering (time : Z) (code : Z) : World :=
  world_of [time] [(code, BodyEmpty)].

(** ** Outcomes of a poll *)

(** The tracker after a failed poll. *)
Definition after_failure (tstat : Thermostat.t) : Thermostat.t :=
  Thermostat.mk (Thermostat.curlInstance tstat) (Thermostat.previousState tstat)
                (Thermostat.lastTransitionTime tstat) false
                ((Thermostat.failCount tstat + 1) mod ULONG_MODULUS).

(** Whether reading [s] differs in its heat call from the reading held. *)
Definition differs_from (previous : option ThermostatState) (s : ThermostatState) : bool :=
  match previous with
  | Some p => negb (Bool.eqb (isHeatOn s) (isHeatOn p))
  | None => false
  end.

(** The tracker after a poll that decoded [s] at clock reading [time]. *)
Definition after_reading (tstat : Thermostat.t) (s : ThermostatState)
                         (time : Chrono.time_point) : Thermostat.t :=
  Thermostat.mk (Thermostat.curlInstance tstat) (Some s)
                (if differs_from (Thermostat.previousState tstat) s
                 then time else Thermostat.lastTransitionTime tstat)
                (differs_from (Thermostat.previousState tstat) s) 0.

(** The [LOG_ERR] entry of a failed poll: the handle, the count, and the
    status and body last received. *)
Definition failure_report (tstat : Thermostat.t) (answer : response) : message :=
  (if fst answer =? 200 then FailedToParseData else FailedToGetData)
    (Thermostat.curlInstance tstat)
    ((Thermostat.failCount tstat + 1) mod ULONG_MODULUS)
    (fst answer) (snd answer).

(** Worlds for a sequence of polls: the heat is on, then a poll times out,
    then the heat is off. *)
Definition poll_answering (time : Z) (answer : response) : World :=
  world_of [time] [answer].

Definition polls_on_fail : list World :=
  [ poll_answering (Chrono.seconds 100) (200, tstat_json 70 68 1 0);
    poll_answering (Chrono.seconds 115) (0, BodyEmpty) ].

Definition poll_off : World :=
  poll_answering (Chrono.seconds 130) (200, tstat_json 70 68 0 0).

(** A poll fails, in the words of the specification, on a status other
    than 200 (a transport failure leaves the status at 0) or on a body from
    which no reading is decoded. *)
Definition poll_fails (answer : response) : Prop :=
  fst answer <> 200 \/ Thermostat.ParseState (snd answer) = Json.Ok None.

(** Six polls in a row answered with status 500. *)
Definition six_times_500 : list World :=
  map (fun k => poll_answering (Chrono.seconds (100 + 15 * k)) (500, BodyParseError))
      [0; 1; 2; 3; 4; 5].

(** ** How a computation may change the world *)

(** The oracles stay, the counters only grow. *)
Definition extends (w w' : World) : Prop :=
  clock w' = clock w /\ wire w' = wire w
  /\ (reads w <= reads w')%nat /\ (sent w <= sent w')%nat.

(** A computation that leaves the oracles alone and does not sleep. *)
Definition steady {A} (m : M A) : Prop :=
  forall w, match m w with
            | Abort => True
            | Done _ w' evs => extends w w' /\ sleeps evs = []
            end.

(** A computation that never stops the process. *)
Definition total {A} (m : M A) : Prop := forall w, m w <> Abort.

(** A pass that starts at 100 s, whose poll times out, and that ends at
    120 s: longer than the poll period. *)
Definition slow_pass : World :=
  world_of [Chrono.seconds 100; Chrono.seconds 120] [(0, BodyEmpty)].

Definition fresh_state : Thermostat.t * list Fan :=
  (Thermostat.mk tstatCurl None (Chrono.seconds (-260)) false 0, fans_of_main).

(** ** Before the first transition *)

(** The trackers reached from [tstat0] by polls none of which flagged a
    transition. *)
Inductive untransitioned (tstat0 : Thermostat.t) : Thermostat.t -> Prop :=
| untransitioned_start : untransitioned tstat0 tstat0
| untransitioned_poll (tstat : Thermostat.t) (w : World) (ok : bool)
    (tstat' : Thermostat.t) (w' : World) (evs : list event) :
    untransitioned tstat0 tstat ->
    Thermostat.Update tstat w = Done (ok, tstat') w' evs ->
    Thermostat.StateChanged tstat' = false ->
    untransitioned tstat0 tstat'.

(** The program starts when the clock shows 1000 s and asks for the time
    since the transition when it shows 1015 s. *)
Definition boot_world : World :=
  world_of [Chrono.seconds 1000; Chrono.seconds 1015] [(200, tstat_json 70 68 0 0)].

Definition booted : Thermostat.t :=
  Thermostat.mk tstatCurl None (Chrono.seconds 640) false 0.

(** ** Answers that are valid JSON but not what the decoder expects *)

(** [{"temp": 70, "t_heat": 68, "tstate": "heat", "fmode": 0}]: every
    required member is present, [tstate] is a string. *)
Definition tstate_as_string : body :=
  BodyJson (Json.Object [ ("temp"%string, Json.Int 70);
                          ("t_heat"%string, Json.Int 68);
                          ("tstate"%string, Json.String "heat");
                          ("fmode"%string, Json.Int 0) ]).

(** [[70, 68, 0, 0]]: valid JSON whose root is not an object. *)
Definition root_is_array : body :=
  BodyJson (Json.Array [Json.Int 70; Json.Int 68; Json.Int 0; Json.Int 0]).

(** A run of [main] in which the thermostat reports [fmode = -1]: heat on
    at the first poll, heat off at the second.  The three ceiling fans and
    the blower are answered with status 200. *)
Definition fmode_minus_one : World :=
  world_of [ Chrono.seconds 1000; Chrono.seconds 1001; Chrono.seconds 1002;
             Chrono.seconds 1003; Chrono.seconds 1004; Chrono.seconds 1005;
             Chrono.seconds 1006; Chrono.seconds 1007; Chrono.seconds 1008;
             Chrono.seconds 1009; Chrono.seconds 1010; Chrono.seconds 1016;
             Chrono.seconds 1017; Chrono.seconds 1018; Chrono.seconds 1019;
             Chrono.seconds 1020; Chrono.seconds 1021 ]
           [ (200, tstat_json 70 68 1 (-1));
             (200, BodyEmpty); (200, BodyEmpty); (200, BodyEmpty);
             (200, tstat_json 70 68 0 (-1));
             (200, BodyEmpty) ].
(** ** The rest of the transport and of the ceiling fan *)

(** [callback], the write function handed to libcurl.  [input] is the
    buffer at [in]; [out] is [None] for a null pointer and otherwise the
    string it points to.  [size_t] has 64 bits.  The result is the string
    afterwards and the value returned. *)
Definition callback (input : list Byte.byte) (size num : Z)
                    (out : option (list Byte.byte)) : option (list Byte.byte) * Z :=
  let totalBytes := (size * num) mod 2 ^ 64 in
  (match out with
   | Some _ => Some (firstn (Z.to_nat totalBytes) input)
   | None => None
   end,
   totalBytes).

(** libcurl hands a body over in one or more pieces, each by a call of the
    write function with [size = 1]; [doHttpRequest] starts from the empty
    [result]. *)
Definition deliver (out : option (list Byte.byte)) (piece : list Byte.byte)
  : option (list Byte.byte) :=
  fst (callback piece 1 (Z.of_nat (List.length piece)) out).

Definition collected (pieces : list (list Byte.byte)) : option (list Byte.byte) :=
  fold_left deliver pieces (Some []).

(** What a [rapidjson::Document] holds after [Parse]: it stays [Null] when
    the text does not parse. *)
Definition parsed (b : body) : Json.value :=
  match b with
  | BodyJson doc => doc
  | BodyEmpty | BodyParseError => Json.Null
  end.

(** [CeilingFan::GetFanSpeed] *)
Definition CeilingFan_GetFanSpeed (fan : CeilingFan.t) : M Z :=
  curl_easy_setopt (CeilingFan.curlInstance fan) (HttpPost QueryDynamicShadowData) ;;
  fanQuery <- doHttpRequest (CeilingFan.curlInstance fan) ;;
  if negb (fst fanQuery =? 200) then ret (-1)
  else
    asserting (v <- Json.member (parsed (snd fanQuery)) "fanSpeed" ;;
               Json.GetInt v)%checked.

(** [CeilingFan::Reboot] *)
Definition CeilingFan_Reboot (fan : CeilingFan.t) : M unit :=
  curl_easy_setopt (CeilingFan.curlInstance fan) (HttpPost RebootFields) ;;
  _ <- doHttpRequest (CeilingFan.curlInstance fan) ;;
  ret tt.

(** [main] from its argument vector: [argc > 1] and
    [std::string(argv[1]).rfind("-d", 0) == 0], which holds when [argv[1]]
    begins with [-d]. *)
Definition wants_debug (argv : list string) : bool :=
  match argv with
  | _ :: first :: _ => String.prefix "-d" first
  | _ => false
  end.

Definition main_argv (argv : list string) (n : nat)
  : M (option (Thermostat.t * list Fan)) :=
  main (wants_debug argv) n.

(** ** More observations *)

(** The requests sent, in order: the handle and what was sent on it. *)
Fixpoint requests (evs : list event) : list (CURL * request) :=
  match evs with
  | [] => []
  | Sent h r _ :: rest => (h, r) :: requests rest
  | _ :: rest => requests rest
  end.

(** A request that changes the state of a device. *)
Definition is_command (r : CURL * request) : bool :=
  match snd r with
  | HttpPost (FanSpeedFields _) | HttpPost (FmodeFields _)
  | HttpPost RebootFields => true
  | _ => false
  end.

Definition handle_of (fan : Fan) : CURL :=
  match fan with
  | IsCeilingFan f => CeilingFan.curlInstance f
  | IsFurnaceBlower f => FurnaceBlower.curlInstance f
  end.

(** The command a fan sends from [Update]: on its own handle, a [fanSpeed]
    command from a ceiling fan ([SetFanSpeed]) and an [fmode] command from
    the furnace blower ([SetBlowerState]). *)
Definition command_of (fan : Fan) (req : CURL * request) : Prop :=
  fst req = handle_of fan
  /\ match fan with
     | IsCeilingFan _ => exists speed, snd req = HttpPost (FanSpeedFields speed)
     | IsFurnaceBlower _ => exists newState, snd req = HttpPost (FmodeFields newState)
     end.

(** The query each kind of fan sends in the diagnostic mode. *)
Definition debug_request (fan : Fan) : CURL * request :=
  match fan with
  | IsCeilingFan f => (CeilingFan.curlInstance f, HttpPost QueryDynamicShadowData)
  | IsFurnaceBlower f => (FurnaceBlower.curlInstance f, HttpGet)
  end.

(** A JSON number: what [GetFloat] accepts. *)
Definition is_number (v : Json.value) : bool :=
  match v with
  | Json.Int _ | Json.Double _ => true
  | _ => false
  end.

(** The four members are present and of the types the accessors assert. *)
Definition well_typed (members : list (string * Json.value)) : bool :=
  match Json.FindMember members "temp", Json.FindMember members "t_heat",
        Json.FindMember members "tstate", Json.FindMember members "fmode" with
  | Some temp, Some t_heat, Some tstate, Some fmode =>
      is_number temp && is_number t_heat && Json.IsInt tstate && Json.IsInt fmode
  | _, _, _, _ => false
  end.

Definition has_all_members (members : list (string * Json.value)) : bool :=
  match Json.FindMember members "temp", Json.FindMember members "t_heat",
        Json.FindMember members "tstate", Json.FindMember members "fmode" with
  | Some _, Some _, Some _, Some _ => true
  | _, _, _, _ => false
  end.

(** A tick of a fan or of the blower sends nothing, or one command followed
    by the log entry of that command. *)
Definition one_command (h : CURL) (data : postfields) (evs : list event) : Prop :=
  exists answer entry,
    evs = [ Sent h (HttpPost data) answer;
            Syslog (if fst answer =? 200 then LOG_INFO else LOG_ERR) entry ].

(** ** Concrete cases for the further properties *)

(** The heat has been on since 40 s. *)
Definition heat_on_since_40 : Thermostat.t :=
  tracking (a_reading true 0) false (Chrono.seconds 40).

(** The program starts when the clock shows exactly the tail window. *)
Definition boot_at_tail_window : World :=
  world_of [Chrono.seconds 360; Chrono.seconds 100000] [(200, tstat_json 70 68 0 0)].

Definition booted_at_epoch : Thermostat.t :=
  Thermostat.mk tstatCurl None 0 false 0.

(** The heat comes on at 1000 s. *)
Definition heat_just_on : Thermostat.t :=
  tracking (a_reading true 0) true (Chrono.seconds 1000).

Definition heat_on_auto : Thermostat.t :=
  tracking (a_reading true 0) false (Chrono.seconds 1000).

(** Whether the override condition of the blower holds on a tick. *)
Definition engaged (tick : Thermostat.t * World) : bool :=
  engage_condition (fst tick) (since_at (fst tick) (snd tick)).

(** What a blower that holds the latch [mode] posts on a tick: in the
    override branch ON unless ON is reported, otherwise the latched mode. *)
Definition posted_while_latched (mode : Z) (tick : Thermostat.t * World) : list Z :=
  if engaged tick then
    if Thermostat.GetBlowerState (fst tick) =? BLOWER_ON then [] else [BLOWER_ON]
  else [mode].

(** An override started on CIRCULATE at 1000 s: ON is posted, the heat
    comes back at 1100 s, goes off again at 1200 s, and the window runs out
    at 1560 s; the thermostat shows CIRCULATE again at 1575 s. *)
Definition heat_just_off_circulate : Thermostat.t :=
  tracking (a_reading false 1) true (Chrono.seconds 1000).

Definition episode_middle : list (Thermostat.t * World) :=
  [ (tracking (a_reading false 2) false (Chrono.seconds 1000), world_at (Chrono.seconds 1015));
    (tracking (a_reading true 2) true (Chrono.seconds 1100), world_at (Chrono.seconds 1100));
    (tracking (a_reading false 2) true (Chrono.seconds 1200), world_at (Chrono.seconds 1200));
    (tracking (a_reading false 2) false (Chrono.seconds 1200), world_at (Chrono.seconds 1560)) ].

Definition episode_confirm : Thermostat.t * World :=
  (tracking (a_reading false 1) false (Chrono.seconds 1200), world_at (Chrono.seconds 1575)).

(** The commands that were answered with another status than 200. *)
Fixpoint refusals (evs : list event) : list (CURL * request) :=
  match evs with
  | [] => []
  | Sent h r answer :: rest =>
      if is_command (h, r) && negb (fst answer =? 200)
      then (h, r) :: refusals rest else refusals rest
  | _ :: rest => refusals rest
  end.

(** Three ceiling fans and the blower at the tick that sees the heat go
    off after the first fan missed a command: fan 1 is still owed its
    speed, and the blower is sent ON, which is refused. *)
Definition refusing_world : World :=
  world_of [Chrono.seconds 1000] [(503, BodyEmpty)].

Definition is_get (req : CURL * request) : bool :=
  match snd req with
  | HttpGet => true
  | HttpPost _ => false
  end.

(** A network on which the thermostat is up only now and then: every
    second answer is a time-out. *)
Definition patchy_world : World :=
  mkWorld (fun n => Chrono.seconds (Z.of_nat n)) 0
          (fun n => if Nat.even n then (200, tstat_json 70 68 0 0) else (0, BodyEmpty))
          0 (fun _ => HttpGet).

(** * Properties *)

(** ** The clock and the commands *)

Lemma GetTimeSinceTransition_run (tstat : Thermostat.t) (w : World) :
  exists w',
    Thermostat.GetTimeSinceTransition tstat w =
      Done (if Thermostat.lastTransitionTime tstat =? 0 then 0
            else clock w (reads w) - Thermostat.lastTransitionTime tstat) w' []
    /\ wire w' = wire w /\ sent w' = sent w /\ clock w' = clock w
    /\ curl w' = curl w /\ (reads w <= reads w')%nat.
Proof.
  unfold Thermostat.GetTimeSinceTransition.
  destruct (Thermostat.lastTransitionTime tstat =? 0).
  - exists w. cbn. repeat split. lia.
  - eexists. cbn. repeat split. cbn. lia.
Qed.

Lemma SetBlowerState_run (fan : FurnaceBlower.t) (newState : Z) (w : World) :
  exists w' entry,
    FurnaceBlower.SetBlowerState fan newState w =
      Done (fst (next_answer w) =? 200) w'
           [ Sent (FurnaceBlower.curlInstance fan) (HttpPost (FmodeFields newState))
                  (next_answer w);
             Syslog (if fst (next_answer w) =? 200 then LOG_INFO else LOG_ERR) entry ].
Proof.
  unfold FurnaceBlower.SetBlowerState, next_answer, bind, now, curl_easy_setopt,
    doHttpRequest, syslog, emit, ret.
  cbn. rewrite Nat.eqb_refl. eexists. eexists. reflexivity.
Qed.

Lemma SetFanSpeed_run (fan : CeilingFan.t) (speed : Z) (w : World) :
  exists w' entry,
    CeilingFan.SetFanSpeed fan speed w =
      Done (fst (next_answer w) =? 200) w'
           [ Sent (CeilingFan.curlInstance fan) (HttpPost (FanSpeedFields speed))
                  (next_answer w);
             Syslog (if fst (next_answer w) =? 200 then LOG_INFO else LOG_ERR) entry ]
    /\ (reads w <= reads w')%nat /\ clock w' = clock w.
Proof.
  unfold CeilingFan.SetFanSpeed, next_answer, bind, now, curl_easy_setopt,
    doHttpRequest, syslog, emit, ret.
  cbn. rewrite Nat.eqb_refl. eexists. eexists. split; [reflexivity|]. cbn. split; [lia|reflexivity].
Qed.

Lemma bind_run {A B} (m : M A) (f : A -> M B) (w : World) a w1 e1 :
  m w = Done a w1 e1 ->
  bind m f w = match f a w1 with
               | Abort => Abort
               | Done b w2 e2 => Done b w2 (e1 ++ e2)
               end.
Proof. intros H. unfold bind. rewrite H. reflexivity. Qed.

Lemma value_of_GetTimeSinceTransition (tstat : Thermostat.t) (w : World) :
  value_of (Thermostat.GetTimeSinceTransition tstat) w =
    Some (if Thermostat.lastTransitionTime tstat =? 0 then 0
          else clock w (reads w) - Thermostat.lastTransitionTime tstat).
Proof.
  destruct (GetTimeSinceTransition_run tstat w) as (w' & H & _).
  unfold value_of. rewrite H. reflexivity.
Qed.

Lemma FurnaceBlower_Update_run (fan : FurnaceBlower.t) (tstat : Thermostat.t)
      (w : World) (since : Z) :
  value_of (Thermostat.GetTimeSinceTransition tstat) w = Some since ->
  let cur := Thermostat.GetBlowerState tstat in
  let wanted := negb (Thermostat.isFurnaceOn tstat)
                && (Thermostat.StateChanged tstat || (since <? k_runBlowerFanAfterHeatOff)) in
  value_of (FurnaceBlower.override_wanted tstat) w = Some wanted
  /\ exists fan' w' evs,
       FurnaceBlower.Update fan tstat w = Done fan' w' evs
       /\ FurnaceBlower.curlInstance fan' = FurnaceBlower.curlInstance fan
       /\ if wanted then overrides fan cur fan' evs else restores fan cur fan' evs.
Proof.
  intros Hsince cur wanted.
  destruct (GetTimeSinceTransition_run tstat w) as (w1 & Hrun & _).
  rewrite value_of_GetTimeSinceTransition in Hsince. injection Hsince as Hsince.
  rewrite Hsince in Hrun. clear Hsince.
  assert (Hw : exists w2, FurnaceBlower.override_wanted tstat w = Done wanted w2 []).
  { unfold FurnaceBlower.override_wanted, wanted.
    destruct (Thermostat.isFurnaceOn tstat); [eexists; reflexivity|].
    destruct (Thermostat.StateChanged tstat); [eexists; reflexivity|].
    rewrite (bind_run _ _ _ _ _ _ Hrun). cbn. eexists; reflexivity. }
  destruct Hw as (w2 & Hw). split.
  { unfold value_of. rewrite Hw. reflexivity. }
  unfold FurnaceBlower.Update. fold cur.
  rewrite (bind_run _ _ _ _ _ _ Hw).
  destruct wanted; unfold overrides, restores.
  - destruct (cur =? BLOWER_ON) eqn:Hon; cbn [negb].
    + cbn. do 3 eexists. split; [reflexivity|]. 
      destruct (FurnaceBlower.latchedState fan) eqn:Hl; cbn; rewrite ?Hl; [auto|].
      destruct (cur =? -1); cbn; auto.
    + match goal with |- context [FurnaceBlower.SetBlowerState ?f ?n] =>
        destruct (SetBlowerState_run f n w2) as (w3 & entry & Hset) end.
      rewrite (bind_run _ _ _ _ _ _ Hset). cbn.
      do 3 eexists. split; [reflexivity|].
      destruct (FurnaceBlower.latchedState fan) eqn:Hl; cbn; rewrite ?Hl; [auto|].
      destruct (cur =? -1); cbn; auto.
  - destruct (FurnaceBlower.latchedState fan) as [latched|] eqn:Hl.
    + destruct (latched =? cur).
      * cbn. do 3 eexists. split; [reflexivity|]. cbn. auto.
      * destruct (SetBlowerState_run fan latched w2) as (w3 & entry & Hset).
        rewrite (bind_run _ _ _ _ _ _ Hset). cbn.
        do 3 eexists. split; [reflexivity|]. auto.
    + cbn. do 3 eexists. split; [reflexivity|]. auto.
Qed.

Lemma since_at_eq (tstat : Thermostat.t) (w : World) :
  since_at tstat w =
    if Thermostat.lastTransitionTime tstat =? 0 then 0
    else clock w (reads w) - Thermostat.lastTransitionTime tstat.
Proof.
  unfold since_at. rewrite value_of_GetTimeSinceTransition. reflexivity.
Qed.

Lemma value_of_since_at (tstat : Thermostat.t) (w : World) :
  value_of (Thermostat.GetTimeSinceTransition tstat) w = Some (since_at tstat w).
Proof.
  rewrite since_at_eq. apply value_of_GetTimeSinceTransition.
Qed.

Lemma FurnaceBlower_tick (fan : FurnaceBlower.t) (tstat : Thermostat.t) (w : World) :
  value_of (FurnaceBlower.override_wanted tstat) w
    = Some (engage_condition tstat (since_at tstat w))
  /\ exists fan' w' evs,
       FurnaceBlower.Update fan tstat w = Done fan' w' evs
       /\ FurnaceBlower.curlInstance fan' = FurnaceBlower.curlInstance fan
       /\ if engage_condition tstat (since_at tstat w)
          then overrides fan (Thermostat.GetBlowerState tstat) fan' evs
          else restores fan (Thermostat.GetBlowerState tstat) fan' evs.
Proof.
  exact (FurnaceBlower_Update_run fan tstat w _ (value_of_since_at tstat w)).
Qed.

(** ** The blower override *)

(** C1.  On every tick of the blower the first branch of
    [FurnaceBlower::Update] is taken exactly when heat is inactive and a
    transition occurred this poll or the time since the transition is below
    the tail window: then a latch is captured if none is held and the
    reported mode is valid, and mode ON is posted unless the blower reports
    ON already.  Otherwise the tick restores.  The comparison is strict: at
    exactly the tail window, with no transition this poll, the tick
    restores; and it restores whenever heat is active, whatever the time. *)
Theorem C1_override_branch (fan : FurnaceBlower.t) (tstat : Thermostat.t) (w : World) :
  value_of (Thermostat.GetTimeSinceTransition tstat) w = Some (since_at tstat w)
  /\ value_of (FurnaceBlower.override_wanted tstat) w
       = Some (engage_condition tstat (since_at tstat w))
  /\ exists fan' w' evs,
       FurnaceBlower.Update fan tstat w = Done fan' w' evs
       /\ (if engage_condition tstat (since_at tstat w)
           then overrides fan (Thermostat.GetBlowerState tstat) fan' evs
           else restores fan (Thermostat.GetBlowerState tstat) fan' evs)
       /\ (Thermostat.StateChanged tstat = false ->
           since_at tstat w = k_runBlowerFanAfterHeatOff ->
           restores fan (Thermostat.GetBlowerState tstat) fan' evs)
       /\ (Thermostat.isFurnaceOn tstat = true ->
           restores fan (Thermostat.GetBlowerState tstat) fan' evs).
Proof.
  split; [apply value_of_since_at|].
  destruct (FurnaceBlower_tick fan tstat w) as (Hwanted & fan' & w' & evs & Hrun & _ & Hout).
  split; [exact Hwanted|].
  exists fan', w', evs. split; [exact Hrun|]. split; [exact Hout|].
  unfold engage_condition in Hout. split.
  - intros Hchanged Hsince. rewrite Hchanged, Hsince, Z.ltb_irrefl in Hout.
    rewrite andb_false_r in Hout. exact Hout.
  - intros Hon. rewrite Hon in Hout. exact Hout.
Qed.

(** At exactly 360 s after the transition a blower that latched AUTO and
    now reports ON is sent back to AUTO. *)
Lemma C1_witness :
  blower_commands
    (events_of (FurnaceBlower.Update (FurnaceBlower.mk tstatCurl (Some 0))
                                     heat_off_blower_on)
               (world_at (Chrono.seconds 1360))) = [0].
Proof.
  destruct (C1_override_branch (FurnaceBlower.mk tstatCurl (Some 0)) heat_off_blower_on
              (world_at (Chrono.seconds 1360)))
    as (_ & _ & fan' & w' & evs & Hrun & _ & Hedge & _).
  unfold events_of. rewrite Hrun.
  assert (Hr := Hedge eq_refl eq_refl).
  unfold restores in Hr. cbn in Hr. exact (proj2 Hr).
Defined.

(** While the thermostat keeps the blower out of the override branch and
    reports a mode other than the latched one, every tick posts the latched
    mode again and keeps the latch. *)
Lemma restore_repeats (latched : Z) (h : CURL) (ticks : list (Thermostat.t * World)) :
  Forall (fun tick =>
            engage_condition (fst tick) (since_at (fst tick) (snd tick)) = false
            /\ Thermostat.GetBlowerState (fst tick) <> latched) ticks ->
  FurnaceBlower.latchedState (fst (blower_ticks (FurnaceBlower.mk h (Some latched)) ticks))
    = Some latched
  /\ blower_commands (snd (blower_ticks (FurnaceBlower.mk h (Some latched)) ticks))
     = repeat latched (List.length ticks).
Proof.
  induction 1 as [|[tstat w] ticks [Hcond Hcur] _ IH]; [split; reflexivity|].
  cbn [blower_ticks].
  destruct (FurnaceBlower_tick (FurnaceBlower.mk h (Some latched)) tstat w)
    as (_ & fan' & w' & evs & Hrun & Hh & Hout).
  cbn [fst snd] in Hcond, Hcur. rewrite Hcond in Hout. rewrite Hrun.
  unfold restores in Hout. cbn [FurnaceBlower.latchedState] in Hout.
  destruct (Z.eqb_spec latched (Thermostat.GetBlowerState tstat)) as [E|_];
    [congruence|].
  destruct Hout as [Hl Hc].
  assert (Hfan : fan' = FurnaceBlower.mk h (Some latched)).
  { destruct fan'. cbn in Hh, Hl. congruence. }
  rewrite Hfan. cbn [fst snd List.length repeat]. split; [apply IH|].
  assert (Happ : forall a b, blower_commands (a ++ b) = blower_commands a ++ blower_commands b).
  { induction a as [|[? [|[]] ?| |] a IHa]; intros; cbn; rewrite ?IHa; reflexivity. }
  rewrite Happ, Hc, (proj2 IH). reflexivity.
Qed.

Ltac latch_cases :=
  repeat split; intros;
  try solve
    [ congruence
    | intuition congruence
    | match goal with
      | H : _ \/ _ |- _ => destruct H as [[? ?]|[? (? & ? & ?)]]; congruence
      end
    | right; split; [reflexivity|]; eexists; split; [reflexivity|congruence]
    | left; split; [reflexivity|]; (left + right); congruence ].

(** C4 (amended).  A latch is captured only in the override branch, only
    when none is held and the reported mode is valid, and a held latch is
    never replaced by another value.  It is cleared exactly on a tick that
    is outside the override branch and on which the reported mode equals
    the latched one; on a tick outside the override branch on which they
    differ the latched mode is posted, and so on every such cycle.  Hence a
    latch is present after a tick exactly when the override condition held
    on it (with a latch held before or a valid mode reported) or a latch
    held before is not yet confirmed by the thermostat. *)
Theorem C4_latch :
  (forall (fan : FurnaceBlower.t) (tstat : Thermostat.t) (w : World),
     exists fan' w' evs,
       FurnaceBlower.Update fan tstat w = Done fan' w' evs
       /\ (forall m, FurnaceBlower.latchedState fan = None ->
                     FurnaceBlower.latchedState fan' = Some m ->
                     engage_condition tstat (since_at tstat w) = true
                     /\ m = Thermostat.GetBlowerState tstat /\ m <> -1)
       /\ (forall l, FurnaceBlower.latchedState fan = Some l ->
                     FurnaceBlower.latchedState fan' = Some l
                     \/ FurnaceBlower.latchedState fan' = None)
       /\ (forall l, FurnaceBlower.latchedState fan = Some l ->
                     (FurnaceBlower.latchedState fan' = None <->
                      engage_condition tstat (since_at tstat w) = false
                      /\ Thermostat.GetBlowerState tstat = l))
       /\ (forall l, FurnaceBlower.latchedState fan = Some l ->
                     engage_condition tstat (since_at tstat w) = false ->
                     Thermostat.GetBlowerState tstat <> l ->
                     blower_commands evs = [l])
       /\ (FurnaceBlower.latchedState fan' <> None <->
           (engage_condition tstat (since_at tstat w) = true
            /\ (FurnaceBlower.latchedState fan <> None
                \/ Thermostat.GetBlowerState tstat <> -1))
           \/ (engage_condition tstat (since_at tstat w) = false
               /\ exists l, FurnaceBlower.latchedState fan = Some l
                            /\ Thermostat.GetBlowerState tstat <> l)))
  /\ (forall (latched : Z) (h : CURL) (ticks : list (Thermostat.t * World)),
        Forall (fun tick =>
                  engage_condition (fst tick) (since_at (fst tick) (snd tick)) = false
                  /\ Thermostat.GetBlowerState (fst tick) <> latched) ticks ->
        FurnaceBlower.latchedState
          (fst (blower_ticks (FurnaceBlower.mk h (Some latched)) ticks)) = Some latched
        /\ blower_commands (snd (blower_ticks (FurnaceBlower.mk h (Some latched)) ticks))
           = repeat latched (List.length ticks)).
Proof.
  split; [|exact restore_repeats].
  intros fan tstat w.
  destruct (FurnaceBlower_tick fan tstat w) as (_ & fan' & w' & evs & Hrun & _ & Hout).
  exists fan', w', evs. split; [exact Hrun|].
  set (cur := Thermostat.GetBlowerState tstat) in *.
  destruct (engage_condition tstat (since_at tstat w));
    [unfold overrides in Hout | unfold restores in Hout];
    destruct (FurnaceBlower.latchedState fan) as [l0|] eqn:Hl.
  - destruct Hout as [Hl' _]. rewrite Hl'. latch_cases.
  - destruct Hout as [Hl' _]. rewrite Hl'.
    destruct (Z.eqb_spec cur (-1)) as [E|E]; latch_cases.
  - destruct (Z.eqb_spec l0 cur) as [E|E]; destruct Hout as [Hl' Hc];
      rewrite Hl', ?Hc; latch_cases.
  - destruct Hout as [Hl' Hc]. rewrite Hl'. latch_cases.
Qed.

(** A blower that latched AUTO is sent back to AUTO on two cycles in a row
    while the thermostat still reports ON, and drops the latch on the cycle
    that reports AUTO. *)
Lemma C4_witness :
  blower_commands
    (snd (blower_ticks (FurnaceBlower.mk tstatCurl (Some 0))
            [ (heat_off_blower_on, world_at (Chrono.seconds 1400));
              (heat_off_blower_on, world_at (Chrono.seconds 1415)) ])) = [0; 0]
  /\ option_map FurnaceBlower.latchedState
       (value_of (FurnaceBlower.Update (FurnaceBlower.mk tstatCurl (Some 0))
                    (tracking (a_reading false 0) false (Chrono.seconds 1000)))
                 (world_at (Chrono.seconds 1430))) = Some None.
Proof.
  split.
  - refine (proj2 (proj2 C4_latch 0 tstatCurl
                     [ (heat_off_blower_on, world_at (Chrono.seconds 1400));
                       (heat_off_blower_on, world_at (Chrono.seconds 1415)) ] _)).
    repeat constructor; cbn; discriminate.
  - destruct (proj1 C4_latch (FurnaceBlower.mk tstatCurl (Some 0))
                (tracking (a_reading false 0) false (Chrono.seconds 1000))
                (world_at (Chrono.seconds 1430)))
      as (fan' & w' & evs & Hrun & _ & _ & Hclear & _).
    unfold value_of. rewrite Hrun. cbn [option_map]. f_equal.
    apply (Hclear 0 eq_refl). split; reflexivity.
Defined.

(** C4, as stated, fails: the heat has been off for 30 s, the blower
    holds the latch [Some 2] and the thermostat reports mode 2, the latched
    value.  The tick is in the override branch: the latch stays, and no
    command is sent, so nothing is being overridden either. *)
Lemma C4_counterexample :
  FurnaceBlower.latchedState blower_latched_on = Some 2
  /\ Thermostat.GetBlowerState heat_off_blower_on = 2
  /\ exists fan' w' evs,
       FurnaceBlower.Update blower_latched_on heat_off_blower_on
                            (world_at (Chrono.seconds 1030)) = Done fan' w' evs
       /\ FurnaceBlower.latchedState fan' = Some 2
       /\ evs = [].
Proof.
  split; [reflexivity|]. split; [reflexivity|].
  do 3 eexists. split; [vm_compute; reflexivity|]. split; reflexivity.
Qed.

(** ** The ceiling fan *)

Lemma speed_commands_app (a b : list event) :
  speed_commands (a ++ b) = speed_commands a ++ speed_commands b.
Proof.
  induction a as [|[? [|[]] ?| |] a IHa]; cbn; rewrite ?IHa; reflexivity.
Qed.

Lemma blower_commands_app (a b : list event) :
  blower_commands (a ++ b) = blower_commands a ++ blower_commands b.
Proof.
  induction a as [|[? [|[]] ?| |] a IHa]; cbn; rewrite ?IHa; reflexivity.
Qed.

(** A tick of a ceiling fan always completes; it sends at most one command,
    and only when no transition occurred this poll, the flag is unset and
    the settle delay is exceeded. *)
Lemma CeilingFan_tick (fan : CeilingFan.t) (tstat : Thermostat.t) (w : World) :
  exists fan' w' evs,
    CeilingFan.Update fan tstat w = Done fan' w' evs
    /\ CeilingFan.curlInstance fan' = CeilingFan.curlInstance fan
    /\ if Thermostat.StateChanged tstat then updated fan' = false /\ evs = []
       else if updated fan then fan' = fan /\ evs = []
       else if since_at tstat w >? settle_delay tstat then
         speed_commands evs = [(target_speed tstat, fst (next_answer w))]
         /\ blower_commands evs = []
         /\ updated fan' = (fst (next_answer w) =? 200)
       else fan' = fan /\ evs = [].
Proof.
  unfold CeilingFan.Update, updated.
  destruct (Thermostat.StateChanged tstat).
  { do 3 eexists. split; [reflexivity|]. split; [reflexivity|]. split; reflexivity. }
  destruct (CeilingFan.fanStateUpdatedSinceLastTransition fan) eqn:Hflag; cbn [negb].
  { do 3 eexists. split; [reflexivity|]. repeat split. }
  destruct (GetTimeSinceTransition_run tstat w) as (w1 & Hrun & Hwire & Hsent & _).
  rewrite (bind_run _ _ _ _ _ _ Hrun). rewrite <- since_at_eq.
  unfold settle_delay, target_speed.
  destruct (since_at tstat w >? _).
  - match goal with |- context [CeilingFan.SetFanSpeed fan ?speed] =>
      destruct (SetFanSpeed_run fan speed w1) as (w2 & entry & Hset & _) end.
    rewrite (bind_run _ _ _ _ _ _ Hset).
    assert (Hans : next_answer w1 = next_answer w).
    { unfold next_answer. rewrite Hwire, Hsent. reflexivity. }
    rewrite Hans. cbn.
    do 3 eexists. split; [reflexivity|]. repeat split.
  - cbn. do 3 eexists. split; [reflexivity|]. repeat split.
Qed.

Lemma fan_ticks_cons (fan : CeilingFan.t) (tstat : Thermostat.t) (w : World)
      (rest : list (Thermostat.t * World)) fan' w' evs :
  CeilingFan.Update fan tstat w = Done fan' w' evs ->
  fan_ticks fan ((tstat, w) :: rest)
    = (fst (fan_ticks fan' rest), evs ++ snd (fan_ticks fan' rest)).
Proof. intros H. cbn [fan_ticks]. rewrite H. reflexivity. Qed.

(** Over a run without transition a fan whose flag is set sends nothing;
    one whose flag is unset ends either with the flag unset and no accepted
    command, or with the flag set and one accepted command. *)
Lemma fan_ticks_stable (ticks : list (Thermostat.t * World)) :
  Forall (fun tick => Thermostat.StateChanged (fst tick) = false) ticks ->
  forall fan : CeilingFan.t,
    if updated fan
    then speed_commands (snd (fan_ticks fan ticks)) = []
         /\ updated (fst (fan_ticks fan ticks)) = true
    else (applied (speed_commands (snd (fan_ticks fan ticks))) = []
          /\ updated (fst (fan_ticks fan ticks)) = false)
         \/ (List.length (applied (speed_commands (snd (fan_ticks fan ticks)))) = 1%nat
             /\ updated (fst (fan_ticks fan ticks)) = true).
Proof.
  induction 1 as [|[tstat w] ticks Hsame _ IH]; intros fan.
  { cbn. destruct (updated fan) eqn:E; auto. }
  cbn [fst] in Hsame.
  destruct (CeilingFan_tick fan tstat w) as (fan' & w' & evs & Hrun & _ & Hout).
  rewrite (fan_ticks_cons _ _ _ _ _ _ _ Hrun). cbn [fst snd].
  rewrite speed_commands_app. unfold applied. rewrite filter_app. fold applied.
  rewrite Hsame in Hout. specialize (IH fan').
  destruct (updated fan) eqn:Hflag.
  - destruct Hout as [-> ->]. rewrite Hflag in IH. exact IH.
  - destruct (since_at tstat w >? settle_delay tstat).
    + destruct Hout as (Hcmd & _ & Hflag'). rewrite Hcmd. cbn [applied filter snd].
      rewrite Hflag' in IH.
      destruct (fst (next_answer w) =? 200).
      * destruct IH as [IHc IHf]. rewrite IHc. right. split; [reflexivity|exact IHf].
      * exact IH.
    + destruct Hout as [-> ->]. rewrite Hflag in IH. exact IH.
Qed.

(** C2.  Over a run of ticks without transition a ceiling fan has at most
    one speed command accepted: once a command is accepted the flag is set
    and nothing more is sent for the rest of the run.  A refused command
    leaves the flag unset, and while the flag is unset every tick past the
    settle delay sends the command again.  Only a tick that sees a
    transition unsets the flag, and it sends nothing. *)
Theorem C2_one_applied_command :
  (forall (fan : CeilingFan.t) (ticks : list (Thermostat.t * World)),
     Forall (fun tick => Thermostat.StateChanged (fst tick) = false) ticks ->
     (List.length (applied (speed_commands (snd (fan_ticks fan ticks)))) <= 1)%nat
     /\ (updated fan = true ->
         speed_commands (snd (fan_ticks fan ticks)) = []
         /\ updated (fst (fan_ticks fan ticks)) = true)
     /\ (forall pre post, ticks = pre ++ post ->
         applied (speed_commands (snd (fan_ticks fan pre))) <> [] ->
         speed_commands (snd (fan_ticks (fst (fan_ticks fan pre)) post)) = []))
  /\ (forall (fan : CeilingFan.t) (tstat : Thermostat.t) (w : World),
        Thermostat.StateChanged tstat = false ->
        updated fan = false ->
        since_at tstat w > settle_delay tstat ->
        exists fan' w' evs,
          CeilingFan.Update fan tstat w = Done fan' w' evs
          /\ speed_commands evs = [(target_speed tstat, fst (next_answer w))]
          /\ updated fan' = (fst (next_answer w) =? 200))
  /\ (forall (fan : CeilingFan.t) (tstat : Thermostat.t) (w : World),
        Thermostat.StateChanged tstat = true ->
        exists fan' w',
          CeilingFan.Update fan tstat w = Done fan' w' [] /\ updated fan' = false).
Proof.
  split; [|split].
  - intros fan ticks Hsame. split; [|split].
    + pose proof (fan_ticks_stable ticks Hsame fan) as H.
      destruct (updated fan).
      * destruct H as [-> _]. cbn. lia.
      * destruct H as [[-> _]|[-> _]]; cbn; lia.
    + intros Hflag. pose proof (fan_ticks_stable ticks Hsame fan) as H.
      rewrite Hflag in H. exact H.
    + intros pre post -> Happlied.
      apply Forall_app in Hsame. destruct Hsame as [Hpre Hpost].
      pose proof (fan_ticks_stable pre Hpre fan) as H.
      assert (Hset : updated (fst (fan_ticks fan pre)) = true).
      { destruct (updated fan).
        - destruct H as [Hc _]. rewrite Hc in Happlied. cbn in Happlied. congruence.
        - destruct H as [[Hc _]|[_ Hf]]; [congruence|exact Hf]. }
      pose proof (fan_ticks_stable post Hpost (fst (fan_ticks fan pre))) as H'.
      rewrite Hset in H'. exact (proj1 H').
  - intros fan tstat w Hsame Hflag Hsince.
    destruct (CeilingFan_tick fan tstat w) as (fan' & w' & evs & Hrun & _ & Hout).
    rewrite Hsame, Hflag in Hout.
    destruct (Z.gtb_spec (since_at tstat w) (settle_delay tstat)) as [_|Hle]; [|lia].
    exists fan', w', evs. split; [exact Hrun|].
    destruct Hout as (Hc & _ & Hf). split; assumption.
  - intros fan tstat w Hchg.
    destruct (CeilingFan_tick fan tstat w) as (fan' & w' & evs & Hrun & _ & Hout).
    rewrite Hchg in Hout. destruct Hout as [Hflag ->].
    exists fan', w'. split; assumption.
Qed.

(** On [retry_ticks] the refused command is followed by an accepted one,
    after which the third cycle sends nothing. *)
Lemma C2_witness :
  (List.length (applied (speed_commands
                          (snd (fan_ticks (CeilingFan.new fan1Curl) retry_ticks)))) <= 1)%nat
  /\ speed_commands
       (snd (fan_ticks (fst (fan_ticks (CeilingFan.new fan1Curl) (firstn 2 retry_ticks)))
                       (skipn 2 retry_ticks))) = []
  /\ exists fan' w' evs,
       CeilingFan.Update (CeilingFan.new fan1Curl) heat_off_auto
                         (world_of [Chrono.seconds 1200] [(500, BodyEmpty)])
         = Done fan' w' evs
       /\ speed_commands evs = [(1, 500)] /\ updated fan' = false.
Proof.
  assert (Hsame : Forall (fun tick => Thermostat.StateChanged (fst tick) = false) retry_ticks).
  { repeat constructor. }
  destruct (proj1 C2_one_applied_command (CeilingFan.new fan1Curl) retry_ticks Hsame)
    as (Hone & _ & Hafter).
  split; [exact Hone|]. split.
  - apply Hafter; [reflexivity|]. vm_compute. discriminate.
  - apply (proj1 (proj2 C2_one_applied_command) (CeilingFan.new fan1Curl) heat_off_auto
             (world_of [Chrono.seconds 1200] [(500, BodyEmpty)]));
      [reflexivity | reflexivity | vm_compute; reflexivity].
Defined.

(** ** The scenario of a heat call that ends *)

Lemma fan_ticks_app (fan : CeilingFan.t) (a b : list (Thermostat.t * World)) :
  fan_ticks fan (a ++ b)
    = (fst (fan_ticks (fst (fan_ticks fan a)) b),
       snd (fan_ticks fan a) ++ snd (fan_ticks (fst (fan_ticks fan a)) b)).
Proof.
  revert fan. induction a as [|[tstat w] a IH]; intros fan.
  { cbn. destruct (fan_ticks fan b); reflexivity. }
  destruct (CeilingFan_tick fan tstat w) as (fan' & w' & evs & Hrun & _).
  cbn [app]. rewrite !(fan_ticks_cons _ _ _ _ _ _ _ Hrun), IH.
  cbn [fst snd]. rewrite app_assoc. reflexivity.
Qed.

Lemma blower_ticks_cons (fan : FurnaceBlower.t) (tstat : Thermostat.t) (w : World)
      (rest : list (Thermostat.t * World)) fan' w' evs :
  FurnaceBlower.Update fan tstat w = Done fan' w' evs ->
  blower_ticks fan ((tstat, w) :: rest)
    = (fst (blower_ticks fan' rest), evs ++ snd (blower_ticks fan' rest)).
Proof. intros H. cbn [blower_ticks]. rewrite H. reflexivity. Qed.






(** ** The thermostat tracker *)

Lemma Update_faults (tstat : Thermostat.t) (w : World) :
  faults (next_answer w) = true -> Thermostat.Update tstat w = Abort.
Proof.
  unfold faults, next_answer, Thermostat.Update, bind, curl_easy_setopt, doHttpRequest.
  cbn. intros H. apply andb_true_iff in H. destruct H as [-> H]. cbn.
  destruct (Thermostat.ParseState (snd (wire w (sent w)))); [reflexivity|discriminate].
Qed.

Lemma Update_failed (tstat : Thermostat.t) (w : World) :
  faults (next_answer w) = false ->
  reading_of (next_answer w) = None ->
  exists w',
    Thermostat.Update tstat w =
      Done (false, after_failure tstat) w'
           (Sent (Thermostat.curlInstance tstat) HttpGet (next_answer w)
            :: if Thermostat.failCount (after_failure tstat) mod 6 =? 0
               then [Syslog LOG_ERR (failure_report tstat (next_answer w))]
               else [])
    /\ sent w' = S (sent w) /\ reads w' = reads w
    /\ wire w' = wire w /\ clock w' = clock w.
Proof.
  unfold faults, reading_of, next_answer, failure_report, Thermostat.Update,
    Thermostat.fail, bind, curl_easy_setopt, doHttpRequest, syslog, emit, ret.
  cbn. rewrite Nat.eqb_refl. intros Hf Hr.
  destruct (fst (wire w (sent w)) =? 200); cbn in *.
  - destruct (Thermostat.ParseState (snd (wire w (sent w)))) as [|[s|]];
      [discriminate|discriminate|]. cbn.
    destruct (_ mod 6 =? 0);
      eexists; (split; [reflexivity|]); cbn; auto.
  - destruct (_ mod 6 =? 0);
      eexists; (split; [reflexivity|]); cbn; auto.
Qed.

Lemma Update_decoded (tstat : Thermostat.t) (w : World) (s : ThermostatState) :
  reading_of (next_answer w) = Some s ->
  exists w',
    Thermostat.Update tstat w =
      Done (true, after_reading tstat s (clock w (reads w))) w'
           [Sent (Thermostat.curlInstance tstat) HttpGet (next_answer w)]
    /\ sent w' = S (sent w) /\ (reads w <= reads w')%nat
    /\ wire w' = wire w /\ clock w' = clock w.
Proof.
  unfold reading_of, next_answer, after_reading, differs_from, Thermostat.Update,
    bind, curl_easy_setopt, doHttpRequest, asserting, now, ret.
  cbn. rewrite Nat.eqb_refl. intros Hr.
  destruct (fst (wire w (sent w)) =? 200); cbn in *; [|discriminate].
  destruct (Thermostat.ParseState (snd (wire w (sent w)))) as [|[s'|]];
    [discriminate| |discriminate]. injection Hr as ->. cbn.
  destruct (Thermostat.previousState tstat) as [p|]; cbn.
  - destruct (negb (Bool.eqb (isHeatOn s) (isHeatOn p))); cbn;
      eexists; (split; [reflexivity|]); cbn; auto.
  - eexists; (split; [reflexivity|]); cbn; auto.
Qed.

Lemma polls_cons (tstat : Thermostat.t) (w : World) (rest : list World) r w' evs :
  Thermostat.Update tstat w = Done r w' evs ->
  polls tstat (w :: rest)
    = match polls (snd r) rest with
      | Some (tstat', evs') => Some (tstat', evs ++ evs')
      | None => None
      end.
Proof. intros H. cbn [polls]. rewrite H. reflexivity. Qed.

(** A sequence of polls none of which stops the process completes, and the
    tracker then holds the reading of the last poll that succeeded. *)
Lemma polls_previousState (ws : list World) :
  Forall (fun w => faults (next_answer w) = false) ws ->
  forall tstat : Thermostat.t,
  exists tstat' evs,
    polls tstat ws = Some (tstat', evs)
    /\ Thermostat.previousState tstat'
       = match last_reading ws with
         | Some s => Some s
         | None => Thermostat.previousState tstat
         end.
Proof.
  induction 1 as [|w ws Hok _ IH]; intros tstat.
  { exists tstat, []. split; reflexivity. }
  cbn [last_reading].
  destruct (reading_of (next_answer w)) as [s|] eqn:Hr.
  - destruct (Update_decoded tstat w s Hr) as (w' & Hrun & _).
    destruct (IH (after_reading tstat s (clock w (reads w)))) as (t' & evs & Hp & Hprev).
    rewrite (polls_cons _ _ _ _ _ _ Hrun). cbn [snd]. rewrite Hp.
    do 2 eexists. split; [reflexivity|]. rewrite Hprev.
    destruct (last_reading ws); reflexivity.
  - destruct (Update_failed tstat w Hok Hr) as (w' & Hrun & _).
    destruct (IH (after_failure tstat)) as (t' & evs & Hp & Hprev).
    rewrite (polls_cons _ _ _ _ _ _ Hrun). cbn [snd]. rewrite Hp.
    do 2 eexists. split; [reflexivity|]. rewrite Hprev.
    destruct (last_reading ws); reflexivity.
Qed.

(** C3.  Whatever polls a freshly constructed tracker has made, the next
    poll flags a transition exactly when it decodes a reading whose heat
    call differs from that of the last reading decoded before it.  The flag
    is false when no reading was decoded before, and false after a poll
    that fails: it is computed anew by every poll. *)
Theorem C3_transition_flag (h : CURL) (w0 : World) (tstat0 : Thermostat.t)
        (ws : list World) (w : World) :
  value_of (Thermostat.new h) w0 = Some tstat0 ->
  Forall (fun w => faults (next_answer w) = false) (ws ++ [w]) ->
  exists tstat evs,
    polls tstat0 ws = Some (tstat, evs)
    /\ exists ok tstat' w' evs',
         Thermostat.Update tstat w = Done (ok, tstat') w' evs'
         /\ ok = match reading_of (next_answer w) with Some _ => true | None => false end
         /\ Thermostat.StateChanged tstat'
            = match reading_of (next_answer w), last_reading ws with
              | Some s, Some p => negb (Bool.eqb (isHeatOn s) (isHeatOn p))
              | _, _ => false
              end
         /\ (Thermostat.StateChanged tstat' = true <->
             exists s p, reading_of (next_answer w) = Some s
                         /\ last_reading ws = Some p
                         /\ isHeatOn s <> isHeatOn p).
Proof.
  intros Hnew Hok. apply Forall_app in Hok. destruct Hok as [Hws Hw].
  apply Forall_inv in Hw.
  assert (Hfresh : Thermostat.previousState tstat0 = None).
  { unfold value_of, Thermostat.new, bind, now, ret in Hnew. cbn in Hnew.
    injection Hnew as <-. reflexivity. }
  destruct (polls_previousState ws Hws tstat0) as (tstat & evs & Hp & Hprev).
  rewrite Hfresh in Hprev.
  assert (Hprev' : Thermostat.previousState tstat = last_reading ws).
  { rewrite Hprev. destruct (last_reading ws); reflexivity. }
  exists tstat, evs. split; [exact Hp|].
  destruct (reading_of (next_answer w)) as [s|] eqn:Hr.
  - destruct (Update_decoded tstat w s Hr) as (w' & Hrun & _).
    do 4 eexists. split; [exact Hrun|]. split; [reflexivity|].
    unfold Thermostat.StateChanged, after_reading, differs_from.
    cbn [Thermostat.stateChanged]. rewrite Hprev'.
    split; [destruct (last_reading ws); reflexivity|].
    destruct (last_reading ws) as [p|].
    + split.
      * intros Hd. exists s, p. repeat split.
        destruct (isHeatOn s), (isHeatOn p); cbn in Hd; congruence.
      * intros (s' & p' & Hs & Hp' & Hne). injection Hs as <-. injection Hp' as <-.
        destruct (isHeatOn s), (isHeatOn p); cbn; congruence.
    + split; [discriminate|]. intros (s' & p' & _ & Hp' & _). discriminate.
  - destruct (Update_failed tstat w Hw Hr) as (w' & Hrun & _).
    do 4 eexists. split; [exact Hrun|]. split; [reflexivity|].
    split; [reflexivity|]. cbn.
    split; [discriminate|]. intros (s' & p' & Hs & _). discriminate.
Qed.

(** Heat on, a poll that times out, then heat off: the third poll flags the
    transition against the reading of the first. *)
Lemma C3_witness :
  exists tstat evs,
    polls (Thermostat.mk tstatCurl None (Chrono.seconds (-260)) false 0) polls_on_fail
      = Some (tstat, evs)
    /\ exists ok tstat' w' evs',
         Thermostat.Update tstat poll_off = Done (ok, tstat') w' evs'
         /\ ok = true
         /\ Thermostat.StateChanged tstat' = true
         /\ (Thermostat.StateChanged tstat' = true <->
             exists s p, reading_of (next_answer poll_off) = Some s
                         /\ last_reading polls_on_fail = Some p
                         /\ isHeatOn s <> isHeatOn p).
Proof.
  refine (C3_transition_flag tstatCurl (world_at (Chrono.seconds 100))
            (Thermostat.mk tstatCurl None (Chrono.seconds (-260)) false 0)
            polls_on_fail poll_off _ _).
  - reflexivity.
  - repeat constructor.
Defined.

Lemma poll_fails_spec (answer : response) :
  poll_fails answer -> faults answer = false /\ reading_of answer = None.
Proof.
  unfold poll_fails, faults, reading_of. intros [Hcode|Hparse].
  - destruct (Z.eqb_spec (fst answer) 200); [contradiction|]. split; reflexivity.
  - rewrite Hparse. destruct (fst answer =? 200); split; reflexivity.
Qed.

Lemma error_reports_app (a b : list event) :
  error_reports (a ++ b) = error_reports a ++ error_reports b.
Proof.
  induction a as [|[? ? ?|[] ?|] a IHa]; cbn; rewrite ?IHa; reflexivity.
Qed.

Lemma error_reports_failure (tstat : Thermostat.t) (answer : response) :
  error_reports [Syslog LOG_ERR (failure_report tstat answer)]
    = [failure_report tstat answer].
Proof. reflexivity. Qed.

(** What a failed poll does. *)
Lemma failed_poll (tstat : Thermostat.t) (w : World) :
  poll_fails (next_answer w) ->
  exists w' evs,
    Thermostat.Update tstat w = Done (false, after_failure tstat) w' evs
    /\ error_reports evs
       = (if Thermostat.failCount (after_failure tstat) mod 6 =? 0
          then [failure_report tstat (next_answer w)] else [])
    /\ blower_commands evs = [] /\ speed_commands evs = []
    /\ sent w' = S (sent w) /\ reads w' = reads w
    /\ wire w' = wire w /\ clock w' = clock w.
Proof.
  intros Hfail. apply poll_fails_spec in Hfail. destruct Hfail as [Hf Hr].
  destruct (Update_failed tstat w Hf Hr) as (w' & Hrun & Hw').
  do 2 eexists. split; [exact Hrun|].
  destruct (Thermostat.failCount (after_failure tstat) mod 6 =? 0).
  - split; [|split; [reflexivity|split; [reflexivity|exact Hw']]].
    change (error_reports [Syslog LOG_ERR (failure_report tstat (next_answer w))]
            = [failure_report tstat (next_answer w)]).
    apply error_reports_failure.
  - split; [reflexivity|]. split; [reflexivity|]. split; [reflexivity|exact Hw'].
Qed.

Lemma sixth_step (c : Z) :
  0 <= c -> (c + 1) / 6 - c / 6 = if (c + 1) mod 6 =? 0 then 1 else 0.
Proof.
  intros Hc. destruct (Z.eqb_spec ((c + 1) mod 6) 0) as [E|E];
    Z.div_mod_to_equations; lia.
Qed.

(** A run of failed polls counts them, keeps the reading, and has written
    as many reports as multiples of six were passed. *)
Lemma polls_failing (ws : list World) :
  Forall (fun w => poll_fails (next_answer w)) ws ->
  forall tstat : Thermostat.t,
    0 <= Thermostat.failCount tstat ->
    Thermostat.failCount tstat + Z.of_nat (List.length ws) < ULONG_MODULUS ->
    exists tstat' evs,
      polls tstat ws = Some (tstat', evs)
      /\ Thermostat.failCount tstat' = Thermostat.failCount tstat + Z.of_nat (List.length ws)
      /\ Thermostat.previousState tstat' = Thermostat.previousState tstat
      /\ Z.of_nat (List.length (error_reports evs))
         = (Thermostat.failCount tstat + Z.of_nat (List.length ws)) / 6
           - Thermostat.failCount tstat / 6.
Proof.
  induction 1 as [|w ws Hfail _ IH]; intros tstat Hpos Hbound.
  { exists tstat, []. cbn. rewrite Z.add_0_r, Z.sub_diag. repeat split. }
  cbn [List.length] in Hbound. rewrite Nat2Z.inj_succ in Hbound.
  destruct (failed_poll tstat w Hfail) as (w' & evs & Hrun & Hrep & _).
  assert (Hcount : Thermostat.failCount (after_failure tstat)
                   = Thermostat.failCount tstat + 1).
  { cbn [after_failure Thermostat.failCount]. apply Z.mod_small.
    unfold ULONG_MODULUS in *. lia. }
  destruct (IH (after_failure tstat)) as (t' & evs' & Hp & Hc & Hprev & Hn).
  { lia. } { lia. }
  rewrite (polls_cons _ _ _ _ _ _ Hrun). cbn [snd]. rewrite Hp.
  do 2 eexists. split; [reflexivity|].
  cbn [List.length]. rewrite Nat2Z.inj_succ.
  split; [lia|]. split; [exact Hprev|].
  rewrite error_reports_app, length_app, Nat2Z.inj_add, Hn, Hrep, Hcount.
  pose proof (sixth_step (Thermostat.failCount tstat) Hpos) as Hstep.
  replace (Thermostat.failCount tstat + 1 + Z.of_nat (List.length ws))
    with (Thermostat.failCount tstat + Z.succ (Z.of_nat (List.length ws))) by lia.
  destruct ((Thermostat.failCount tstat + 1) mod 6 =? 0); cbn [List.length]; lia.
Qed.

(** ** World bookkeeping *)

Lemma extends_refl (w : World) : extends w w.
Proof. unfold extends. repeat split; lia. Qed.

Lemma extends_trans (w1 w2 w3 : World) :
  extends w1 w2 -> extends w2 w3 -> extends w1 w3.
Proof.
  unfold extends. intros (Hc & Hw & Hr & Hs) (Hc' & Hw' & Hr' & Hs').
  repeat split; try congruence; lia.
Qed.

Lemma sleeps_app (a b : list event) : sleeps (a ++ b) = sleeps a ++ sleeps b.
Proof.
  induction a as [|[] a IHa]; cbn; rewrite ?IHa; reflexivity.
Qed.

Lemma steady_ret {A} (a : A) : steady (ret a).
Proof. intros w. cbn. split; [apply extends_refl|reflexivity]. Qed.

Lemma steady_bind {A B} (m : M A) (f : A -> M B) :
  steady m -> (forall a, steady (f a)) -> steady (bind m f).
Proof.
  intros Hm Hf w. unfold bind. specialize (Hm w).
  destruct (m w) as [|a w1 e1]; [exact I|].
  specialize (Hf a w1). destruct (f a w1) as [|b w2 e2]; [exact I|].
  destruct Hm as [Hx Hs], Hf as [Hx' Hs'].
  split; [exact (extends_trans _ _ _ Hx Hx')|]. rewrite sleeps_app, Hs, Hs'. reflexivity.
Qed.

Lemma steady_now : steady now.
Proof. intros w. cbn. unfold extends. cbn. repeat split; lia. Qed.

Lemma steady_setopt (h : CURL) (r : request) : steady (curl_easy_setopt h r).
Proof. intros w. cbn. unfold extends. cbn. repeat split; lia. Qed.

Lemma steady_doHttpRequest (h : CURL) : steady (doHttpRequest h).
Proof. intros w. cbn. unfold extends. cbn. repeat split; lia. Qed.

Lemma steady_syslog (p : priority) (m : message) : steady (syslog p m).
Proof. intros w. cbn. split; [apply extends_refl|reflexivity]. Qed.

Lemma steady_asserting {A} (c : Json.checked A) : steady (asserting c).
Proof.
  intros w. unfold asserting. destruct c; [exact I|].
  split; [apply extends_refl|reflexivity].
Qed.

Ltac steady_step :=
  first [ apply steady_ret | apply steady_now | apply steady_setopt
        | apply steady_doHttpRequest | apply steady_syslog | apply steady_asserting
        | apply steady_bind; [|intros ?] ].

Lemma steady_GetTimeSinceTransition (tstat : Thermostat.t) :
  steady (Thermostat.GetTimeSinceTransition tstat).
Proof.
  unfold Thermostat.GetTimeSinceTransition.
  destruct (Thermostat.lastTransitionTime tstat =? 0); repeat steady_step.
Qed.

Lemma steady_fail (tstat : Thermostat.t) (msg : Z -> message) :
  steady (Thermostat.fail tstat msg).
Proof.
  unfold Thermostat.fail. apply steady_bind; [|intros _; apply steady_ret].
  destruct (_ =? 0); [apply steady_syslog|apply steady_ret].
Qed.

Lemma steady_Thermostat_Update (tstat : Thermostat.t) : steady (Thermostat.Update tstat).
Proof.
  unfold Thermostat.Update.
  apply steady_bind; [apply steady_setopt|intros _].
  apply steady_bind; [apply steady_doHttpRequest|intros thermostatData].
  destruct (negb (fst thermostatData =? 200)); [apply steady_fail|].
  apply steady_bind; [apply steady_asserting|intros [s|]]; [|apply steady_fail].
  destruct (match Thermostat.previousState tstat with Some _ => _ | None => _ end);
    repeat steady_step.
Qed.

Lemma steady_SetFanSpeed (fan : CeilingFan.t) (speed : Z) :
  steady (CeilingFan.SetFanSpeed fan speed).
Proof. unfold CeilingFan.SetFanSpeed. repeat steady_step. Qed.

Lemma steady_SetBlowerState (fan : FurnaceBlower.t) (newState : Z) :
  steady (FurnaceBlower.SetBlowerState fan newState).
Proof. unfold FurnaceBlower.SetBlowerState. repeat steady_step. Qed.

Lemma steady_CeilingFan_Update (fan : CeilingFan.t) (tstat : Thermostat.t) :
  steady (CeilingFan.Update fan tstat).
Proof.
  unfold CeilingFan.Update.
  destruct (Thermostat.StateChanged tstat); [steady_step|].
  destruct (negb _); [|steady_step].
  steady_step; [apply steady_GetTimeSinceTransition|].
  destruct (_ >? _); [|steady_step].
  steady_step; [apply steady_SetFanSpeed|steady_step].
Qed.

Lemma steady_override_wanted (tstat : Thermostat.t) :
  steady (FurnaceBlower.override_wanted tstat).
Proof.
  unfold FurnaceBlower.override_wanted.
  destruct (Thermostat.isFurnaceOn tstat); [steady_step|].
  destruct (Thermostat.StateChanged tstat); [steady_step|].
  steady_step; [apply steady_GetTimeSinceTransition|steady_step].
Qed.

Lemma steady_FurnaceBlower_Update (fan : FurnaceBlower.t) (tstat : Thermostat.t) :
  steady (FurnaceBlower.Update fan tstat).
Proof.
  unfold FurnaceBlower.Update.
  apply steady_bind; [apply steady_override_wanted|intros wanted].
  destruct wanted.
  - destruct (negb _); [|steady_step].
    steady_step; [apply steady_SetBlowerState|steady_step].
  - destruct (FurnaceBlower.latchedState fan) as [latched|]; [|steady_step].
    destruct (latched =? _); [steady_step|].
    steady_step; [apply steady_SetBlowerState|steady_step].
Qed.

Lemma steady_update_fans (fans : list Fan) (tstat : Thermostat.t) :
  steady (update_fans fans tstat).
Proof.
  induction fans as [|fan fans IH]; cbn [update_fans]; [steady_step|].
  steady_step.
  - destruct fan; cbn [Fan_Update]; steady_step;
      [apply steady_CeilingFan_Update|steady_step
      |apply steady_FurnaceBlower_Update|steady_step].
  - steady_step; [exact IH|steady_step].
Qed.

Lemma total_update_fans (fans : list Fan) (tstat : Thermostat.t) :
  total (update_fans fans tstat).
Proof.
  induction fans as [|fan fans IH]; intros w; cbn [update_fans]; [discriminate|].
  unfold bind at 1.
  assert (Hfan : exists fan' w1 e1, Fan_Update fan tstat w = Done fan' w1 e1).
  { destruct fan as [f|f]; cbn [Fan_Update].
    - destruct (CeilingFan_tick f tstat w) as (f' & w1 & e1 & Hrun & _).
      rewrite (bind_run _ _ _ _ _ _ Hrun). cbn. eauto.
    - destruct (FurnaceBlower_tick f tstat w) as (_ & f' & w1 & e1 & Hrun & _).
      rewrite (bind_run _ _ _ _ _ _ Hrun). cbn. eauto. }
  destruct Hfan as (fan' & w1 & e1 & ->).
  unfold bind. specialize (IH w1).
  destruct (update_fans fans tstat w1); [contradiction|discriminate].
Qed.

(** ** The loop of main *)

Lemma sleep_for_run (d : Chrono.duration) (w : World) :
  exists evs, sleep_for d w = Done tt w evs
              /\ sleeps evs = (if d <=? 0 then [] else [d])
              /\ blower_commands evs = [] /\ speed_commands evs = []
              /\ error_reports evs = []
              /\ evs = (if d <=? 0 then [] else [Slept d]).
Proof.
  unfold sleep_for. destruct (Z.leb_spec d 0).
  - exists []. cbn. repeat split.
  - exists [Slept d]. cbn. repeat split.
Qed.

Lemma now_run (w : World) :
  now w = Done (clock w (reads w))
               (mkWorld (clock w) (S (reads w)) (wire w) (sent w) (curl w)) [].
Proof. reflexivity. Qed.

(** One pass of the loop whose poll does not stop the process: the pass
    completes; it sleeps once, for the poll period less the time between
    the first and the last clock reading of the pass, or not at all when
    that is not positive; after a failed poll the fans are left alone, after a decoded
    one they are updated against the tracker that holds the new reading. *)
Lemma loop_body_run (tstat : Thermostat.t) (fans : list Fan) (w : World) :
  faults (next_answer w) = false ->
  exists st' w' evs,
    loop_body (tstat, fans) w = Done st' w' evs
    /\ extends w w' /\ (reads w < reads w')%nat
    /\ sleeps evs
       = (let loopExecTime := clock w (Nat.pred (reads w')) - clock w (reads w) in
          if k_thermostatPollFrequencySeconds - loopExecTime <=? 0 then []
          else [k_thermostatPollFrequencySeconds - loopExecTime])
    /\ match reading_of (next_answer w) with
       | None =>
           st' = (after_failure tstat, fans) /\ sent w' = S (sent w)
           /\ blower_commands evs = [] /\ speed_commands evs = []
           /\ error_reports evs
              = (if Thermostat.failCount (after_failure tstat) mod 6 =? 0
                 then [failure_report tstat (next_answer w)] else [])
       | Some s =>
           fst st' = after_reading tstat s (clock w (S (reads w)))
           /\ exists w1 w2 evs_fans,
                update_fans fans (fst st') w1 = Done (snd st') w2 evs_fans
                /\ blower_commands evs = blower_commands evs_fans
                /\ speed_commands evs = speed_commands evs_fans
       end.
Proof.
  intros Hok. unfold loop_body. cbn [fst snd].
  rewrite (bind_run _ _ _ _ _ _ (now_run w)).
  set (w1 := mkWorld (clock w) (S (reads w)) (wire w) (sent w) (curl w)).
  assert (Hans : next_answer w1 = next_answer w) by reflexivity.
  assert (Hc1 : clock w1 = clock w) by reflexivity.
  assert (Hr1 : reads w1 = S (reads w)) by reflexivity.
  assert (Hw1 : wire w1 = wire w) by reflexivity.
  assert (Hs1 : sent w1 = sent w) by reflexivity.
  clearbody w1.
  destruct (reading_of (next_answer w)) as [s|] eqn:Hr.
  - rewrite <- Hans in Hr.
    destruct (Update_decoded tstat w1 s Hr) as (w2 & Hrun & Hs2 & Hr2 & Hw2 & Hc2).
    rewrite (bind_run _ _ _ _ _ _ Hrun). cbn [fst snd].
    rewrite Hc1, Hr1 in Hrun |- *.
    set (tstat' := after_reading tstat s (clock w (S (reads w)))) in *.
    pose proof (total_update_fans fans tstat' w2) as Htot.
    pose proof (steady_update_fans fans tstat' w2) as Hst.
    destruct (update_fans fans tstat' w2) as [|fans' w3 evs_f] eqn:Hfans; [contradiction|].
    destruct Hst as [(Hc3 & Hw3 & Hr3 & Hs3) Hsl3]. clear Htot.
    destruct (GetTimeSinceTransition_run tstat' w3)
      as (w4 & Hts & Hw4 & Hs4 & Hc4 & _ & Hr4).
    assert (Hblock :
              (fans' <- update_fans fans tstat' ;;
               _ <- Thermostat.GetTimeSinceTransition tstat' ;;
               ret fans') w2 = Done fans' w4 (evs_f ++ [])).
    { rewrite (bind_run _ _ _ _ _ _ Hfans), (bind_run _ _ _ _ _ _ Hts). reflexivity. }
    rewrite (bind_run _ _ _ _ _ _ Hblock).
    rewrite (bind_run _ _ _ _ _ _ (now_run w4)).
    match goal with |- context [bind (sleep_for ?d) _ ?w'] =>
      destruct (sleep_for_run d w') as (evs_s & Hsleep & Hslept & Hb & Hsp & _) end.
    rewrite (bind_run _ _ _ _ _ _ Hsleep). unfold ret.
    do 3 eexists. split; [reflexivity|].
    split; [|split; [|split; [|split]]].
    + unfold extends. cbn [clock wire reads sent].
      repeat split; try congruence; lia.
    + cbn [reads]. lia.
    + rewrite !app_nil_l, !app_nil_r. cbn [app sleeps]. rewrite !sleeps_app, Hsl3, Hslept.
      cbn [reads Nat.pred app]. rewrite Hc4, Hc3, Hc2, Hc1. reflexivity.
    + reflexivity.
    + exists w2, w3, evs_f. cbn [fst snd]. split; [exact Hfans|].
      rewrite !app_nil_l, !app_nil_r. cbn [app blower_commands speed_commands].
      rewrite !blower_commands_app, !speed_commands_app, Hb, Hsp, !app_nil_r.
      split; reflexivity.
  - rewrite <- Hans in Hr, Hok.
    destruct (Update_failed tstat w1 Hok Hr) as (w2 & Hrun & Hs2 & Hr2 & Hw2 & Hc2).
    rewrite (bind_run _ _ _ _ _ _ Hrun). cbn [fst snd].
    rewrite (bind_run (ret fans) _ w2 fans w2 [] eq_refl).
    rewrite (bind_run _ _ _ _ _ _ (now_run w2)).
    match goal with |- context [bind (sleep_for ?d) _ ?w'] =>
      destruct (sleep_for_run d w') as (evs_s & Hsleep & Hslept & Hb & Hsp & Hpe & _) end.
    rewrite (bind_run _ _ _ _ _ _ Hsleep). unfold ret.
    do 3 eexists. split; [reflexivity|].
    rewrite !app_nil_l, !app_nil_r, Hans.
    assert (Hquiet : forall tail : list event,
               tail = [] \/ (exists m, tail = [Syslog LOG_ERR m]) ->
               sleeps tail = [] /\ blower_commands tail = [] /\ speed_commands tail = []).
    { intros tail [->|[m ->]]; repeat split. }
    match goal with |- context [Sent _ _ _ :: ?tail] =>
      destruct (Hquiet tail) as (Hq1 & Hq2 & Hq3);
        [destruct (_ mod 6 =? 0); [right; eexists; reflexivity|left; reflexivity]|]
    end.
    split; [|split; [|split; [|split; [|split; [|split; [|split]]]]]].
    + unfold extends. cbn [clock wire reads sent].
      repeat split; try congruence; lia.
    + cbn [reads]. lia.
    + cbn [app sleeps]. rewrite !sleeps_app, Hq1, Hslept.
      cbn [reads Nat.pred app]. rewrite Hc2, Hr2, Hc1, Hr1. reflexivity.
    + reflexivity.
    + cbn [sent]. lia.
    + cbn [app blower_commands]. rewrite !blower_commands_app, Hq2, Hb. reflexivity.
    + cbn [app speed_commands]. rewrite !speed_commands_app, Hq3, Hsp. reflexivity.
    + cbn [app error_reports]. rewrite !error_reports_app, Hpe, app_nil_r.
      destruct (_ mod 6 =? 0); [|reflexivity].
      apply error_reports_failure.
Qed.


(** While every poll fails the loop goes on: [n] passes make [n] polls,
    leave the fans alone and keep the reading. *)
Lemma loop_failing (n : nat) :
  forall (st : Thermostat.t * list Fan) (w : World),
    (forall i, (i < n)%nat -> poll_fails (wire w (sent w + i))) ->
    exists tstat' w' evs,
      loop n st w = Done (tstat', snd st) w' evs
      /\ sent w' = (sent w + n)%nat
      /\ wire w' = wire w
      /\ Thermostat.previousState tstat' = Thermostat.previousState (fst st)
      /\ blower_commands evs = [] /\ speed_commands evs = [].
Proof.
  induction n as [|n IH]; intros [tstat fans] w Hfail.
  { exists tstat, w, []. cbn. repeat split. lia. }
  assert (Hfirst : poll_fails (next_answer w)).
  { unfold next_answer. rewrite <- (Nat.add_0_r (sent w)). apply Hfail. lia. }
  destruct (poll_fails_spec _ Hfirst) as [Hok Hr].
  destruct (loop_body_run tstat fans w Hok)
    as (st' & w1 & evs1 & Hrun & (_ & Hw1 & _ & _) & _ & _ & Hout).
  rewrite Hr in Hout. destruct Hout as (-> & Hs1 & Hb1 & Hsp1 & _).
  destruct (IH (after_failure tstat, fans) w1) as (t' & w' & evs & Hloop & Hs & Hw & Hp & Hb & Hsp).
  { intros i Hi. rewrite Hw1, Hs1.
    replace (S (sent w) + i)%nat with (sent w + S i)%nat by lia.
    apply Hfail. lia. }
  cbn [loop]. rewrite (bind_run _ _ _ _ _ _ Hrun), Hloop.
  exists t', w', (evs1 ++ evs). split; [reflexivity|].
  split; [lia|]. split; [congruence|]. split; [exact Hp|].
  rewrite blower_commands_app, speed_commands_app, Hb1, Hsp1, Hb, Hsp.
  split; reflexivity.
Qed.

(** Failed polls, for the answers that [poll_fails] covers: a status other
    than 200, which includes a transport failure, or a body that
    [ParseState] turns down (empty, not JSON, a required member missing).
    Such a poll returns false, adds one to the failure count and keeps the
    reading; it writes one [LOG_ERR] entry with the status and the body
    exactly when the new count is a multiple of six.  A decoded poll sets
    the count to zero.  So [n] such failures in a row after a success have
    written [n / 6] entries, one on the 6th, the 12th and so on; and the
    loop keeps polling.  A body on which the decoder asserts is not among
    them. *)
Theorem C8_failed_polls :
  (forall (tstat : Thermostat.t) (w : World),
     poll_fails (next_answer w) ->
     exists tstat' w' evs,
       Thermostat.Update tstat w = Done (false, tstat') w' evs
       /\ Thermostat.failCount tstat'
          = (Thermostat.failCount tstat + 1) mod ULONG_MODULUS
       /\ (0 <= Thermostat.failCount tstat ->
           Thermostat.failCount tstat + 1 < ULONG_MODULUS ->
           Thermostat.failCount tstat' = Thermostat.failCount tstat + 1)
       /\ Thermostat.previousState tstat' = Thermostat.previousState tstat
       /\ error_reports evs
          = (if Thermostat.failCount tstat' mod 6 =? 0
             then [failure_report tstat (next_answer w)] else []))
  /\ (forall (tstat : Thermostat.t) (w : World) (s : ThermostatState),
        reading_of (next_answer w) = Some s ->
        exists tstat' w' evs,
          Thermostat.Update tstat w = Done (true, tstat') w' evs
          /\ Thermostat.failCount tstat' = 0
          /\ error_reports evs = [])
  /\ (forall (tstat : Thermostat.t) (ws : list World),
        Thermostat.failCount tstat = 0 ->
        Forall (fun w => poll_fails (next_answer w)) ws ->
        Z.of_nat (List.length ws) < ULONG_MODULUS ->
        exists tstat' evs,
          polls tstat ws = Some (tstat', evs)
          /\ Thermostat.failCount tstat' = Z.of_nat (List.length ws)
          /\ Thermostat.previousState tstat' = Thermostat.previousState tstat
          /\ Z.of_nat (List.length (error_reports evs))
             = Z.of_nat (List.length ws) / 6)
  /\ (forall (n : nat) (st : Thermostat.t * list Fan) (w : World),
        (forall i, (i < n)%nat -> poll_fails (wire w (sent w + i))) ->
        exists tstat' w' evs,
          loop n st w = Done (tstat', snd st) w' evs
          /\ sent w' = (sent w + n)%nat
          /\ Thermostat.previousState tstat' = Thermostat.previousState (fst st)).
Proof.
  split; [|split; [|split]].
  - intros tstat w Hfail.
    destruct (failed_poll tstat w Hfail) as (w' & evs & Hrun & Hrep & _).
    exists (after_failure tstat), w', evs. split; [exact Hrun|].
    split; [reflexivity|]. split; [|split; [reflexivity|exact Hrep]].
    intros Hpos Hbound. cbn [after_failure Thermostat.failCount].
    apply Z.mod_small. lia.
  - intros tstat w s Hr.
    destruct (Update_decoded tstat w s Hr) as (w' & Hrun & _).
    do 3 eexists. split; [exact Hrun|]. split; reflexivity.
  - intros tstat ws Hzero Hfail Hbound.
    destruct (polls_failing ws Hfail tstat) as (t' & evs & Hp & Hc & Hprev & Hn).
    { lia. } { lia. }
    exists t', evs. rewrite Hzero in Hc, Hn. cbn in Hc, Hn.
    split; [exact Hp|]. split; [exact Hc|]. split; [exact Hprev|]. lia.
  - intros n st w Hfail.
    destruct (loop_failing n st w Hfail) as (t' & w' & evs & Hloop & Hs & _ & Hp & _).
    exists t', w', evs. split; [exact Hloop|]. split; assumption.
Qed.

(** Six answers in a row with status 500: the sixth poll writes the only
    entry, and the reading is the one held before.  The poll after five
    failures is the one that writes it.  With a network that is down the
    loop makes its three polls in three passes. *)
Lemma C8_witness :
  (exists tstat' evs,
     polls (tracking (a_reading true 0) false (Chrono.seconds 40)) six_times_500
       = Some (tstat', evs)
     /\ Thermostat.failCount tstat' = 6
     /\ Thermostat.previousState tstat' = Some (a_reading true 0)
     /\ Z.of_nat (List.length (error_reports evs)) = 1)
  /\ (exists tstat' w' evs,
        Thermostat.Update (Thermostat.mk tstatCurl None 0 false 5)
                          (poll_answering (Chrono.seconds 175) (500, BodyParseError))
          = Done (false, tstat') w' evs
        /\ Thermostat.failCount tstat' = 6
        /\ error_reports evs = [FailedToGetData tstatCurl 6 500 BodyParseError])
  /\ (exists tstat' w' evs,
        loop 3 fresh_state (world_of [Chrono.seconds 100] []) = Done (tstat', fans_of_main) w' evs
        /\ sent w' = 3%nat).
Proof.
  split; [|split].
  - refine (proj1 (proj2 (proj2 C8_failed_polls))
              (tracking (a_reading true 0) false (Chrono.seconds 40)) six_times_500 _ _ _).
    + reflexivity.
    + repeat constructor; left; cbn; discriminate.
    + reflexivity.
  - destruct (proj1 C8_failed_polls (Thermostat.mk tstatCurl None 0 false 5)
                (poll_answering (Chrono.seconds 175) (500, BodyParseError)))
      as (tstat' & w' & evs & Hrun & _ & Hcount & _ & Hrep).
    + left. cbn. discriminate.
    + exists tstat', w', evs. split; [exact Hrun|].
      assert (Hsix : Thermostat.failCount tstat' = 6).
      { apply Hcount; [cbn; lia | reflexivity]. }
      split; [exact Hsix|]. rewrite Hrep, Hsix. reflexivity.
  - destruct (proj2 (proj2 (proj2 C8_failed_polls)) 3%nat fresh_state
                (world_of [Chrono.seconds 100] []))
      as (tstat' & w' & evs & Hrun & Hsent & _).
    + intros i _. left. cbn [world_of wire sent wire_of Nat.add].
      destruct i as [|i]; cbn; discriminate.
    + exists tstat', w', evs. split; [exact Hrun|exact Hsent].
Defined.

(** A poll that stops the process stops the pass. *)
Lemma loop_body_faults (st : Thermostat.t * list Fan) (w : World) :
  faults (next_answer w) = true -> loop_body st w = Abort.
Proof.
  intros Hf. unfold loop_body.
  rewrite (bind_run _ _ _ _ _ _ (now_run w)).
  unfold bind at 1. rewrite Update_faults; [reflexivity|exact Hf].
Qed.

(** C8 (the code departs from it).  A body that cannot be decoded because
    its root is not an object, or because a required member has the wrong
    type, is not handled as a failed poll.  On status 200 with the body
    [[70, 68, 0, 0]] [Update] does not return false: the assertion in
    [HasMember] stops it, whatever the tracker and the clock, so no count
    is kept and nothing is written; and the loop, however many passes it
    has left, stops with it.  When that answer is the sixth bad one in a
    row, after five failed polls, the report due on the sixth is not
    written; the same with [tstate] a string.  A loop whose first poll
    fails with status 500 and whose second is answered in that way makes
    no third poll. *)
Theorem C8_undecodable_body_ends_polling :
  (forall (tstat : Thermostat.t) (time : Z),
     Thermostat.Update tstat (poll_answering time (200, root_is_array)) = Abort)
  /\ (forall (st : Thermostat.t * list Fan) (time : Z) (n : nat),
        loop (S n) st (poll_answering time (200, root_is_array)) = Abort)
  /\ polls (Thermostat.mk tstatCurl None 0 false 0)
           (map (fun k => poll_answering (Chrono.seconds (100 + 15 * k)) (500, BodyParseError))
                [0; 1; 2; 3; 4]
            ++ [poll_answering (Chrono.seconds 175) (200, root_is_array)])
     = None
  /\ polls (Thermostat.mk tstatCurl None 0 false 0)
           (map (fun k => poll_answering (Chrono.seconds (100 + 15 * k)) (500, BodyParseError))
                [0; 1; 2; 3; 4]
            ++ [poll_answering (Chrono.seconds 175) (200, tstate_as_string)])
     = None
  /\ (forall n : nat,
        loop (S (S n)) fresh_state
             (world_of [Chrono.seconds 100] [(500, BodyParseError); (200, root_is_array)])
        = Abort).
Proof.
  split; [|split; [|split; [|split]]].
  - intros tstat time. apply Update_faults. reflexivity.
  - intros st time n. cbn [loop]. unfold bind.
    rewrite loop_body_faults; reflexivity.
  - vm_compute. reflexivity.
  - vm_compute. reflexivity.
  - intros n.
    destruct (loop_body fresh_state
                (world_of [Chrono.seconds 100] [(500, BodyParseError); (200, root_is_array)]))
      as [|st1 w1 evs1] eqn:Hfirst; [vm_compute in Hfirst; discriminate|].
    assert (Hnext : faults (next_answer w1) = true).
    { vm_compute in Hfirst. injection Hfirst as _ <- _. reflexivity. }
    change (loop (S (S n)) fresh_state
              (world_of [Chrono.seconds 100] [(500, BodyParseError); (200, root_is_array)]))
      with (bind (loop_body fresh_state)
                 (fun st' => bind (loop_body st') (fun st'' => loop n st''))
                 (world_of [Chrono.seconds 100] [(500, BodyParseError); (200, root_is_array)])).
    unfold bind at 1. rewrite Hfirst.
    unfold bind at 1. rewrite (loop_body_faults st1 w1 Hnext). reflexivity.
Qed.

(** C7.  A pass of the loop that takes [e] from its first to its last clock
    reading sleeps for [max 0 (p - e)], [p] being the poll period: it asks
    [sleep_for] for [p - e], which blocks for that time when it is positive
    and returns at once otherwise.  The time of a pass is measured from the
    start of that pass, whatever the pass before it took: nothing is caught
    up. *)
Theorem C7_sleep_duration :
  (forall (st : Thermostat.t * list Fan) (w : World),
     faults (next_answer w) = false ->
     exists st' w' evs,
       loop_body st w = Done st' w' evs
       /\ slept evs
          = Z.max 0 (k_thermostatPollFrequencySeconds
                     - (clock w (Nat.pred (reads w')) - clock w (reads w)))
       /\ Forall (fun d => 0 < d) (sleeps evs)
       /\ (List.length (sleeps evs) <= 1)%nat)
  /\ (forall (st st1 : Thermostat.t * list Fan) (w w1 : World) (evs1 : list event),
        loop_body st w = Done st1 w1 evs1 ->
        faults (next_answer w1) = false ->
        exists st2 w2 evs2,
          loop_body st1 w1 = Done st2 w2 evs2
          /\ slept evs2
             = Z.max 0 (k_thermostatPollFrequencySeconds
                        - (clock w (Nat.pred (reads w2)) - clock w (reads w1)))).
Proof.
  assert (Hpass : forall (st : Thermostat.t * list Fan) (w : World),
             faults (next_answer w) = false ->
             exists st' w' evs,
               loop_body st w = Done st' w' evs
               /\ extends w w'
               /\ slept evs
                  = Z.max 0 (k_thermostatPollFrequencySeconds
                             - (clock w (Nat.pred (reads w')) - clock w (reads w)))
               /\ Forall (fun d => 0 < d) (sleeps evs)
               /\ (List.length (sleeps evs) <= 1)%nat).
  { intros [tstat fans] w Hok.
    destruct (loop_body_run tstat fans w Hok)
      as (st' & w' & evs & Hrun & Hx & _ & Hsleeps & _).
    exists st', w', evs. split; [exact Hrun|]. split; [exact Hx|].
    unfold slept. rewrite Hsleeps. cbv zeta.
    destruct (Z.leb_spec (k_thermostatPollFrequencySeconds
                          - (clock w (Nat.pred (reads w')) - clock w (reads w))) 0).
    - cbn [fold_right List.length]. repeat split; [lia|constructor|lia].
    - cbn [fold_right List.length]. repeat split; [lia|repeat constructor; lia|lia]. }
  split.
  - intros st w Hok.
    destruct (Hpass st w Hok) as (st' & w' & evs & Hrun & _ & Hrest).
    exists st', w', evs. split; assumption.
  - intros st st1 w w1 evs1 Hrun1 Hok.
    destruct (Hpass st1 w1 Hok) as (st2 & w2 & evs2 & Hrun2 & _ & Hslept & _).
    exists st2, w2, evs2. split; [exact Hrun2|].
    assert (Hclock : clock w1 = clock w).
    { destruct (faults (next_answer w)) eqn:Hfirst.
      - rewrite (loop_body_faults st w Hfirst) in Hrun1. discriminate.
      - destruct (Hpass st w Hfirst) as (st' & w' & evs & Hrun & Hx & _).
        rewrite Hrun1 in Hrun. injection Hrun as _ <- _. exact (proj1 Hx). }
    rewrite Hslept, Hclock. reflexivity.
Qed.


(** A pass that takes 20 s does not sleep, and the pass after it is
    measured from its own start. *)
Lemma C7_witness :
  (exists st' w' evs,
     loop_body fresh_state slow_pass = Done st' w' evs
     /\ slept evs
        = Z.max 0 (k_thermostatPollFrequencySeconds
                   - (clock slow_pass (Nat.pred (reads w'))
                      - clock slow_pass (reads slow_pass)))
     /\ Forall (fun d => 0 < d) (sleeps evs)
     /\ (List.length (sleeps evs) <= 1)%nat)
  /\ (exists st1 w1 evs1 st2 w2 evs2,
        loop_body fresh_state slow_pass = Done st1 w1 evs1
        /\ loop_body st1 w1 = Done st2 w2 evs2
        /\ slept evs2
           = Z.max 0 (k_thermostatPollFrequencySeconds
                      - (clock slow_pass (Nat.pred (reads w2))
                         - clock slow_pass (reads w1)))).
Proof.
  split.
  - apply (proj1 C7_sleep_duration fresh_state slow_pass). reflexivity.
  - destruct (loop_body fresh_state slow_pass) as [|st1 w1 evs1] eqn:Hrun1;
      [vm_compute in Hrun1; discriminate|].
    assert (Hok : faults (next_answer w1) = false).
    { vm_compute in Hrun1. injection Hrun1 as _ <- _. reflexivity. }
    destruct (proj2 C7_sleep_duration fresh_state st1 slow_pass w1 evs1 Hrun1 Hok)
      as (st2 & w2 & evs2 & Hrun2 & Hslept).
    exists st1, w1, evs1, st2, w2, evs2. split; [reflexivity|].
    split; [exact Hrun2|exact Hslept].
Defined.

Example slow_pass_does_not_sleep :
  sleeps (events_of (loop_body fresh_state) slow_pass) = [].
Proof. vm_compute. reflexivity. Qed.

Example quick_pass_sleeps_the_rest :
  sleeps (events_of (loop_body fresh_state)
                    (world_of [Chrono.seconds 100; Chrono.seconds 102] [(0, BodyEmpty)]))
    = [Chrono.seconds 13].
Proof. vm_compute. reflexivity. Qed.

(** ** Start-up *)

Lemma new_run (h : CURL) (w : World) :
  value_of (Thermostat.new h) w
    = Some (Thermostat.mk h None (clock w (reads w) - k_runBlowerFanAfterHeatOff) false 0).
Proof. reflexivity. Qed.

(** Polls that flag no transition leave the time of the last transition
    where it was. *)
Lemma untransitioned_keeps (tstat0 tstat : Thermostat.t) :
  untransitioned tstat0 tstat ->
  Thermostat.lastTransitionTime tstat = Thermostat.lastTransitionTime tstat0
  /\ (Thermostat.StateChanged tstat0 = false -> Thermostat.StateChanged tstat = false).
Proof.
  induction 1 as [|tstat w ok tstat' w' evs _ [IHtime IHflag] Hrun Hquiet].
  { split; [reflexivity|auto]. }
  split; [|intros _; exact Hquiet].
  rewrite <- IHtime.
  destruct (faults (next_answer w)) eqn:Hf.
  { rewrite (Update_faults tstat w Hf) in Hrun. discriminate. }
  destruct (reading_of (next_answer w)) as [s|] eqn:Hr.
  - destruct (Update_decoded tstat w s Hr) as (w2 & Hrun' & _).
    rewrite Hrun in Hrun'. injection Hrun' as _ -> _ _.
    unfold Thermostat.StateChanged, after_reading in Hquiet |- *.
    cbn [Thermostat.stateChanged Thermostat.lastTransitionTime] in Hquiet |- *.
    rewrite Hquiet. reflexivity.
  - destruct (Update_failed tstat w Hf Hr) as (w2 & Hrun' & _).
    rewrite Hrun in Hrun'. injection Hrun' as _ -> _ _. reflexivity.
Qed.

(** What the code does before the first transition.  Until a transition is
    observed, [GetTimeSinceTransition] returns the tail window plus the
    time elapsed since the tracker was constructed (provided the clock did
    not show exactly the tail window at that moment).  On a clock that does
    not run backwards this is at least the tail window, so the override
    condition is false and a blower without latch does nothing. *)
Theorem C6_before_first_transition (h : CURL) (w0 : World)
        (tstat0 tstat : Thermostat.t) (w : World) :
  value_of (Thermostat.new h) w0 = Some tstat0 ->
  clock w0 (reads w0) <> k_runBlowerFanAfterHeatOff ->
  untransitioned tstat0 tstat ->
  value_of (Thermostat.GetTimeSinceTransition tstat) w
    = Some (k_runBlowerFanAfterHeatOff + (clock w (reads w) - clock w0 (reads w0)))
  /\ (clock w0 (reads w0) <= clock w (reads w) ->
      since_at tstat w >= k_runBlowerFanAfterHeatOff
      /\ value_of (FurnaceBlower.override_wanted tstat) w = Some false
      /\ forall fan : FurnaceBlower.t,
           FurnaceBlower.latchedState fan = None ->
           exists fan' w' evs,
             FurnaceBlower.Update fan tstat w = Done fan' w' evs
             /\ FurnaceBlower.latchedState fan' = None
             /\ blower_commands evs = []).
Proof.
  intros Hnew Hepoch Hreach.
  rewrite new_run in Hnew. injection Hnew as <-.
  destruct (untransitioned_keeps _ _ Hreach) as [Htime Hflag].
  cbn [Thermostat.lastTransitionTime Thermostat.StateChanged Thermostat.stateChanged]
    in Htime, Hflag.
  specialize (Hflag eq_refl).
  assert (Hsince : since_at tstat w
                   = k_runBlowerFanAfterHeatOff + (clock w (reads w) - clock w0 (reads w0))).
  { rewrite since_at_eq, Htime.
    destruct (Z.eqb_spec (clock w0 (reads w0) - k_runBlowerFanAfterHeatOff) 0); lia. }
  split; [rewrite value_of_since_at, Hsince; reflexivity|].
  intros Hmono.
  assert (Hcond : engage_condition tstat (since_at tstat w) = false).
  { unfold engage_condition. rewrite Hflag.
    destruct (Z.ltb_spec (since_at tstat w) k_runBlowerFanAfterHeatOff); [lia|].
    apply andb_false_r. }
  split; [lia|].
  split; [rewrite <- Hcond; apply FurnaceBlower_tick; exact (FurnaceBlower.new h)|].
  intros fan Hnone.
  destruct (FurnaceBlower_tick fan tstat w) as (_ & fan' & w' & evs & Hrun & _ & Hout).
  rewrite Hcond in Hout. unfold restores in Hout. rewrite Hnone in Hout.
  exists fan', w', evs. split; [exact Hrun|exact Hout].
Qed.

(** Constructed at 1000 s and asked at 1015 s, after one poll: 375 s. *)
Lemma C6_witness :
  value_of (Thermostat.GetTimeSinceTransition
              (after_reading booted (a_reading false 0) (Chrono.seconds 1001)))
           (world_at (Chrono.seconds 1015))
    = Some (Chrono.seconds 375).
Proof.
  refine (proj1 (C6_before_first_transition tstatCurl boot_world booted
                   (after_reading booted (a_reading false 0) (Chrono.seconds 1001))
                   (world_at (Chrono.seconds 1015)) _ _ _)).
  - reflexivity.
  - vm_compute. discriminate.
  - refine (untransitioned_poll booted booted
              (poll_answering (Chrono.seconds 1001) (200, tstat_json 70 68 0 0))
              true _ _ _ (untransitioned_start booted) _ _).
    + vm_compute. reflexivity.
    + reflexivity.
Defined.

(** C6 (the code departs from it, and from its own comment).  Before any
    transition has been seen, [GetTimeSinceTransition] answers neither the
    tail window of 360 s nor the zero that the comment on the function
    promises for that case: a tracker constructed when the clock shows
    1000 s and asked when it shows 1015 s answers 375 s, the tail window
    plus the 15 s that have passed, and so does the tracker after a poll at
    1001 s that saw no transition.  The constructor sets
    [lastTransitionTime] to the clock reading less the tail window, here
    640 s, so the test for the epoch in [GetTimeSinceTransition] does not
    recognise that no transition has happened. *)
Theorem C6_time_before_first_transition :
  value_of (tstat <- Thermostat.new tstatCurl ;;
            Thermostat.GetTimeSinceTransition tstat) boot_world
    = Some (Chrono.seconds 375)
  /\ value_of (Thermostat.new tstatCurl) boot_world = Some booted
  /\ Thermostat.lastTransitionTime booted = Chrono.seconds 640
  /\ value_of (Thermostat.Update booted)
              (poll_answering (Chrono.seconds 1001) (200, tstat_json 70 68 0 0))
     = Some (true, after_reading booted (a_reading false 0) (Chrono.seconds 1001))
  /\ Thermostat.StateChanged
       (after_reading booted (a_reading false 0) (Chrono.seconds 1001)) = false
  /\ value_of (Thermostat.GetTimeSinceTransition
                 (after_reading booted (a_reading false 0) (Chrono.seconds 1001)))
              (world_at (Chrono.seconds 1015))
     = Some (Chrono.seconds 375)
  /\ Chrono.seconds 375 <> k_runBlowerFanAfterHeatOff
  /\ Chrono.seconds 375 <> 0.
Proof.
  repeat split; try (vm_compute; reflexivity); vm_compute; discriminate.
Qed.

(** ** Decoding *)

Example decodes_heat_on :
  Thermostat.ParseState (tstat_json 70 68 1 0) = Json.Ok (Some (a_reading true 0)).
Proof. reflexivity. Qed.

Example decodes_cooling_as_heat_off :
  Thermostat.ParseState (tstat_json 70 68 2 1) = Json.Ok (Some (a_reading false 1)).
Proof. reflexivity. Qed.

Example rejects_missing_member :
  Thermostat.ParseState
    (BodyJson (Json.Object [ ("temp"%string, Json.Int 70);
                             ("tstate"%string, Json.Int 0);
                             ("fmode"%string, Json.Int 0) ])) = Json.Ok None.
Proof. reflexivity. Qed.

(** An object that lacks one of the four members is rejected, whatever the
    types of the others. *)
Lemma ParseState_missing (members : list (string * Json.value)) :
  Json.FindMember members "temp" = None
  \/ Json.FindMember members "t_heat" = None
  \/ Json.FindMember members "tstate" = None
  \/ Json.FindMember members "fmode" = None ->
  Thermostat.ParseState (BodyJson (Json.Object members)) = Json.Ok None.
Proof.
  intros H. unfold Thermostat.ParseState, Json.HasMember, Json.and_then.
  destruct (Json.FindMember members "temp"); cbn [negb];
    [|reflexivity].
  destruct (Json.FindMember members "t_heat"); cbn [negb];
    [|reflexivity].
  destruct (Json.FindMember members "tstate"); cbn [negb];
    [|reflexivity].
  destruct (Json.FindMember members "fmode"); cbn [negb];
    [|reflexivity].
  destruct H as [H|[H|[H|H]]]; discriminate.
Qed.

(** An object whose four members are integers, [tstate] and [fmode]
    fitting an [int], is decoded. *)
Lemma ParseState_integers (members : list (string * Json.value))
      (temp t_heat tstate fmode : Z) :
  Json.FindMember members "temp" = Some (Json.Int temp) ->
  Json.FindMember members "t_heat" = Some (Json.Int t_heat) ->
  Json.FindMember members "tstate" = Some (Json.Int tstate) ->
  Json.FindMember members "fmode" = Some (Json.Int fmode) ->
  Json.IsInt (Json.Int tstate) = true ->
  Json.IsInt (Json.Int fmode) = true ->
  Thermostat.ParseState (BodyJson (Json.Object members))
    = Json.Ok (Some (mkThermostatState
                       (Json.float_of_double (Json.double_of_Z temp))
                       (Json.float_of_double (Json.double_of_Z t_heat))
                       (tstate =? 1) fmode)).
Proof.
  intros H1 H2 H3 H4 I3 I4.
  unfold Thermostat.ParseState, Json.HasMember, Json.member, Json.GetInt,
    Json.GetFloat, Json.and_then.
  rewrite H1, H2, H3, H4, I3, I4. reflexivity.
Qed.

(** C9 (the code departs from it).  An answer with status 200 in which
    every required member is present but [tstate] is not an integer is not
    treated as a failed poll: [GetInt] is called on it without a type
    check, its assertion fails, and the poll, the pass and the process stop
    there.  The same happens in [HasMember] when the root of the document
    is not an object. *)
Theorem C9_wrong_type_stops_the_process :
  Thermostat.ParseState tstate_as_string = Json.AssertFail
  /\ Thermostat.ParseState root_is_array = Json.AssertFail
  /\ (forall (tstat : Thermostat.t) (time : Z),
        Thermostat.Update tstat (poll_answering time (200, tstate_as_string)) = Abort)
  /\ (forall (st : Thermostat.t * list Fan) (time : Z),
        loop_body st (poll_answering time (200, tstate_as_string)) = Abort)
  /\ (forall (st : Thermostat.t * list Fan) (time : Z) (n : nat),
        loop (S n) st (poll_answering time (200, tstate_as_string)) = Abort).
Proof.
  split; [reflexivity|]. split; [reflexivity|].
  assert (Hbody : forall st time,
             loop_body st (poll_answering time (200, tstate_as_string)) = Abort).
  { intros st time. apply loop_body_faults. reflexivity. }
  split; [|split].
  - intros tstat time. apply Update_faults. reflexivity.
  - exact Hbody.
  - intros st time n. cbn [loop]. unfold bind. rewrite Hbody. reflexivity.
Qed.

(** ** The sentinel of GetBlowerState *)

Lemma last_reading_none (ws : list World) :
  last_reading ws = None <-> Forall (fun w => reading_of (next_answer w) = None) ws.
Proof.
  induction ws as [|w ws IH]; cbn [last_reading].
  { split; [constructor|reflexivity]. }
  destruct (last_reading ws) as [s|].
  - split; [discriminate|]. intros H. apply Forall_inv_tail in H.
    apply IH in H. discriminate.
  - split.
    + intros H. constructor; [exact H|apply IH; reflexivity].
    + intros H. exact (Forall_inv H).
Qed.

Lemma last_reading_some (ws : list World) (s : ThermostatState) :
  last_reading ws = Some s -> exists w, In w ws /\ reading_of (next_answer w) = Some s.
Proof.
  induction ws as [|w ws IH]; cbn [last_reading]; [discriminate|].
  destruct (last_reading ws) as [s'|].
  - intros H. destruct (IH H) as (w' & Hin & Hr). exists w'. split; [right|]; assumption.
  - intros H. exists w. split; [left; reflexivity|exact H].
Qed.

(** C10 (amended).  After any polls of a freshly constructed tracker,
    [GetBlowerState] returns the [fmode] of the last reading decoded, and
    [-1] when none was.  So it returns [-1] when no poll was ever decoded;
    and when no decoded reading carries [fmode = -1], only then.  A pass of
    the loop updates the fans only after a decoded poll, against the
    tracker that holds the reading just decoded, so the blower is ticked
    with the [fmode] of that reading; when this is not [-1], a blower
    without latch in the override branch captures it. *)
Theorem C10_sentinel :
  (forall (h : CURL) (w0 : World) (tstat0 : Thermostat.t) (ws : list World),
     value_of (Thermostat.new h) w0 = Some tstat0 ->
     Forall (fun w => faults (next_answer w) = false) ws ->
     exists tstat evs,
       polls tstat0 ws = Some (tstat, evs)
       /\ Thermostat.GetBlowerState tstat
          = match last_reading ws with Some s => blowerState s | None => -1 end
       /\ (Forall (fun w => reading_of (next_answer w) = None) ws ->
           Thermostat.GetBlowerState tstat = -1)
       /\ (Forall (fun w => forall s, reading_of (next_answer w) = Some s ->
                                      blowerState s <> -1) ws ->
           Thermostat.GetBlowerState tstat = -1 ->
           Forall (fun w => reading_of (next_answer w) = None) ws))
  /\ (forall (tstat : Thermostat.t) (fans : list Fan) (w : World),
        faults (next_answer w) = false ->
        exists st' w' evs,
          loop_body (tstat, fans) w = Done st' w' evs
          /\ match reading_of (next_answer w) with
             | None => snd st' = fans /\ blower_commands evs = []
                       /\ speed_commands evs = []
             | Some s =>
                 (exists w1 w2 evs_fans,
                    update_fans fans (fst st') w1 = Done (snd st') w2 evs_fans)
                 /\ Thermostat.GetBlowerState (fst st') = blowerState s
             end)
  /\ (forall (fan : FurnaceBlower.t) (tstat : Thermostat.t) (w : World),
        Thermostat.GetBlowerState tstat <> -1 ->
        engage_condition tstat (since_at tstat w) = true ->
        FurnaceBlower.latchedState fan = None ->
        exists fan' w' evs,
          FurnaceBlower.Update fan tstat w = Done fan' w' evs
          /\ FurnaceBlower.latchedState fan' = Some (Thermostat.GetBlowerState tstat)).
Proof.
  split; [|split].
  - intros h w0 tstat0 ws Hnew Hok.
    rewrite new_run in Hnew. injection Hnew as <-.
    destruct (polls_previousState ws Hok
                (Thermostat.mk h None (clock w0 (reads w0) - k_runBlowerFanAfterHeatOff)
                               false 0))
      as (tstat & evs & Hp & Hprev).
    cbn [Thermostat.previousState] in Hprev.
    assert (Hmode : Thermostat.GetBlowerState tstat
                    = match last_reading ws with Some s => blowerState s | None => -1 end).
    { unfold Thermostat.GetBlowerState. rewrite Hprev.
      destruct (last_reading ws); reflexivity. }
    exists tstat, evs. split; [exact Hp|]. split; [exact Hmode|]. split.
    + intros Hnone. apply last_reading_none in Hnone. rewrite Hmode, Hnone. reflexivity.
    + intros Hvalid Hminus. apply last_reading_none.
      destruct (last_reading ws) as [s|] eqn:Hlast; [|reflexivity].
      destruct (last_reading_some ws s Hlast) as (w & Hin & Hr).
      rewrite Forall_forall in Hvalid. specialize (Hvalid w Hin s Hr).
      rewrite Hmode in Hminus. contradiction.
  - intros tstat fans w Hok.
    destruct (loop_body_run tstat fans w Hok)
      as (st' & w' & evs & Hrun & _ & _ & _ & Hout).
    exists st', w', evs. split; [exact Hrun|].
    destruct (reading_of (next_answer w)) as [s|].
    + destruct Hout as (Hfst & w1 & w2 & evs_f & Hfans & _).
      split; [exists w1, w2, evs_f; exact Hfans|]. rewrite Hfst. reflexivity.
    + destruct Hout as (-> & _ & Hb & Hsp & _). repeat split; assumption.
  - intros fan tstat w Hvalid Hcond Hnone.
    destruct (FurnaceBlower_tick fan tstat w) as (_ & fan' & w' & evs & Hrun & _ & Hout).
    rewrite Hcond in Hout. unfold overrides in Hout. rewrite Hnone in Hout.
    destruct (Z.eqb_spec (Thermostat.GetBlowerState tstat) (-1)) as [E|_]; [contradiction|].
    exists fan', w', evs. split; [exact Hrun|exact (proj1 Hout)].
Qed.

(** After a decoded poll and a failed one the blower state is the decoded
    [fmode]; a pass whose poll times out leaves the fans alone; and a blower
    without latch ticked just after the heat went off captures the mode
    AUTO that the thermostat reports. *)
Lemma C10_witness :
  (exists tstat evs,
     polls booted polls_on_fail = Some (tstat, evs)
     /\ Thermostat.GetBlowerState tstat = 0)
  /\ (exists st' w' evs,
        loop_body fresh_state slow_pass = Done st' w' evs
        /\ snd st' = fans_of_main /\ blower_commands evs = [] /\ speed_commands evs = [])
  /\ (exists fan' w' evs,
        FurnaceBlower.Update (FurnaceBlower.new tstatCurl) heat_just_off
                             (world_at (Chrono.seconds 1000)) = Done fan' w' evs
        /\ FurnaceBlower.latchedState fan' = Some 0).
Proof.
  split; [|split].
  - destruct (proj1 C10_sentinel tstatCurl boot_world booted polls_on_fail)
      as (tstat & evs & Hp & Hmode & _).
    + reflexivity.
    + repeat constructor.
    + exists tstat, evs. split; [exact Hp|exact Hmode].
  - apply (proj1 (proj2 C10_sentinel) (fst fresh_state) (snd fresh_state) slow_pass).
    reflexivity.
  - apply (proj2 (proj2 C10_sentinel) (FurnaceBlower.new tstatCurl) heat_just_off
             (world_at (Chrono.seconds 1000))).
    + discriminate.
    + reflexivity.
    + reflexivity.
Defined.

(** C10, as stated, fails: the thermostat answers [fmode = -1], first
    with the heat on, then with the heat off.  Both polls are decoded, yet
    [GetBlowerState] returns [-1]; the second pass ticks the blower in the
    override branch with that value, so no latch is captured while mode ON
    is posted. *)
Lemma C10_counterexample :
  exists tstat fans w' evs,
    main false 2 fmode_minus_one = Done (Some (tstat, fans)) w' evs
    /\ Thermostat.previousState tstat = Some (a_reading false (-1))
    /\ Thermostat.GetBlowerState tstat = -1
    /\ blower_commands evs = [BLOWER_ON]
    /\ nth_error fans 3 = Some (IsFurnaceBlower (FurnaceBlower.mk tstatCurl None)).
Proof.
  do 4 eexists. split; [vm_compute; reflexivity|].
  repeat split.
Qed.

(** * Further properties of the code *)

(** ** What the decoder accepts *)

(** [ParseState] on an object, case by case: without all four members it
    rejects; with them it decodes when their types are the asserted ones and
    stops the process otherwise. *)
Lemma ParseState_object (members : list (string * Json.value)) :
  if has_all_members members then
    if well_typed members
    then exists temp t_heat tstate fmode,
           Json.FindMember members "tstate" = Some (Json.Int tstate)
           /\ Json.FindMember members "fmode" = Some (Json.Int fmode)
           /\ Thermostat.ParseState (BodyJson (Json.Object members))
              = Json.Ok (Some (mkThermostatState temp t_heat (tstate =? 1) fmode))
    else Thermostat.ParseState (BodyJson (Json.Object members)) = Json.AssertFail
  else Thermostat.ParseState (BodyJson (Json.Object members)) = Json.Ok None.
Proof.
  unfold has_all_members, well_typed, Thermostat.ParseState, Json.HasMember,
    Json.member, Json.and_then.
  destruct (Json.FindMember members "temp") as [temp|]; [|reflexivity].
  destruct (Json.FindMember members "t_heat") as [t_heat|]; [|reflexivity].
  destruct (Json.FindMember members "tstate") as [tstate|]; [|reflexivity].
  destruct (Json.FindMember members "fmode") as [fmode|]; [|reflexivity].
  cbn [negb].
  destruct temp; cbn [is_number Json.GetFloat andb]; try reflexivity;
    (destruct t_heat; cbn [is_number Json.GetFloat andb]; try reflexivity;
     (destruct tstate; cbn [Json.IsInt Json.GetInt andb]; try reflexivity;
      match goal with
      | |- context [if (- 2 ^ 31 <=? ?f) && (?f <? 2 ^ 31) then Json.Ok ?f else _] =>
          destruct ((- 2 ^ 31 <=? f) && (f <? 2 ^ 31)) eqn:Hts
      end;
      cbn [andb]; try reflexivity;
      (destruct fmode; cbn [Json.IsInt Json.GetInt]; try reflexivity;
       match goal with
       | |- context [(- 2 ^ 31 <=? ?f) && (?f <? 2 ^ 31)] =>
           destruct ((- 2 ^ 31 <=? f) && (f <? 2 ^ 31)) eqn:Hfm
       end; try reflexivity;
       do 4 eexists; repeat split))).
Qed.

(** X1.  The answers that stop the process are those with status 200 whose
    document is not an object, or is an object that has the four members
    but not all of the asserted types.  Every other answer is either
    decoded or counted as a failed poll. *)
Theorem Update_aborts_iff (tstat : Thermostat.t) (w : World) :
  Thermostat.Update tstat w = Abort <->
  fst (next_answer w) = 200
  /\ match snd (next_answer w) with
     | BodyJson (Json.Object members) =>
         has_all_members members = true /\ well_typed members = false
     | BodyJson _ => True
     | BodyEmpty | BodyParseError => False
     end.
Proof.
  assert (Hfaults : faults (next_answer w) = true <->
                    fst (next_answer w) = 200
                    /\ match snd (next_answer w) with
                       | BodyJson (Json.Object members) =>
                           has_all_members members = true /\ well_typed members = false
                       | BodyJson _ => True
                       | BodyEmpty | BodyParseError => False
                       end).
  { unfold faults. destruct (Z.eqb_spec (fst (next_answer w)) 200) as [E|E];
      [|split; [discriminate|intros [H _]; contradiction]].
    cbn [andb]. destruct (snd (next_answer w)) as [| |doc].
    - split; [discriminate|intros [_ []]].
    - split; [discriminate|intros [_ []]].
    - destruct doc; try (split; [intros _; split; [exact E|exact I]|reflexivity]).
      pose proof (ParseState_object members) as H.
      destruct (has_all_members members).
      + destruct (well_typed members).
        * destruct H as (? & ? & ? & ? & _ & _ & ->).
          split; [discriminate|intros [_ [_ H]]; discriminate].
        * rewrite H. split; [intros _; repeat split; exact E|reflexivity].
      + rewrite H. split; [discriminate|intros [_ [H' _]]; discriminate]. }
  rewrite <- Hfaults. split.
  - intros Habort. destruct (faults (next_answer w)) eqn:Hf; [reflexivity|].
    destruct (reading_of (next_answer w)) as [s|] eqn:Hr.
    + destruct (Update_decoded tstat w s Hr) as (w' & Hrun & _). congruence.
    + destruct (Update_failed tstat w Hf Hr) as (w' & Hrun & _). congruence.
  - apply Update_faults.
Qed.

(** X2.  A reading is decoded from an object whose [temp] and [t_heat] are
    numbers and whose [tstate] and [fmode] are integers of 32 bits, whatever
    else the object holds and in whatever order.  Heat is active exactly
    when [tstate] is 1, and [fmode] is taken as it is. *)
Theorem ParseState_decodes (members : list (string * Json.value))
        (temp t_heat : Json.value) (tstate fmode : Z) :
  Json.FindMember members "temp" = Some temp ->
  Json.FindMember members "t_heat" = Some t_heat ->
  Json.FindMember members "tstate" = Some (Json.Int tstate) ->
  Json.FindMember members "fmode" = Some (Json.Int fmode) ->
  is_number temp = true ->
  is_number t_heat = true ->
  - 2 ^ 31 <= tstate < 2 ^ 31 ->
  - 2 ^ 31 <= fmode < 2 ^ 31 ->
  exists s,
    Thermostat.ParseState (BodyJson (Json.Object members)) = Json.Ok (Some s)
    /\ (isHeatOn s = true <-> tstate = 1)
    /\ blowerState s = fmode.
Proof.
  intros H1 H2 H3 H4 N1 N2 I3 I4.
  pose proof (ParseState_object members) as H.
  unfold has_all_members, well_typed in H. rewrite H1, H2, H3, H4, N1, N2 in H.
  cbn [Json.IsInt andb] in H.
  replace ((- 2 ^ 31 <=? tstate) && (tstate <? 2 ^ 31)) with true in H by lia.
  replace ((- 2 ^ 31 <=? fmode) && (fmode <? 2 ^ 31)) with true in H by lia.
  cbn [andb] in H. destruct H as (t & th & ts & fm & Hts & Hfm & Hparse).
  injection Hts as <-. injection Hfm as <-.
  eexists. split; [exact Hparse|]. cbn [isHeatOn blowerState].
  split; [|reflexivity]. apply Z.eqb_eq.
Qed.

(** A thermostat that is cooling ([tstate = 2]) with the fan on circulate,
    in an answer that carries more members than the four. *)
Lemma ParseState_decodes_witness :
  exists s,
    Thermostat.ParseState
      (BodyJson (Json.Object [ ("tmode"%string, Json.Int 2);
                               ("fmode"%string, Json.Int 1);
                               ("tstate"%string, Json.Int 2);
                               ("t_heat"%string, Json.Double (S754_finite false 17 2));
                               ("temp"%string, Json.Int 70) ]))
      = Json.Ok (Some s)
    /\ (isHeatOn s = true <-> 2 = 1)
    /\ blowerState s = 1.
Proof.
  apply (ParseState_decodes _ (Json.Int 70) (Json.Double (S754_finite false 17 2)) 2 1);
    try reflexivity; lia.
Defined.

(** ** What a tick sends *)

Lemma CeilingFan_events (fan : CeilingFan.t) (tstat : Thermostat.t) (w : World) :
  exists fan' w' evs,
    CeilingFan.Update fan tstat w = Done fan' w' evs
    /\ CeilingFan.curlInstance fan' = CeilingFan.curlInstance fan
    /\ (evs = []
        \/ (one_command (CeilingFan.curlInstance fan)
                        (FanSpeedFields (target_speed tstat)) evs
            /\ Thermostat.StateChanged tstat = false
            /\ updated fan = false
            /\ since_at tstat w > settle_delay tstat)).
Proof.
  unfold CeilingFan.Update, updated.
  destruct (Thermostat.StateChanged tstat).
  { do 3 eexists. split; [reflexivity|]. split; [reflexivity|]. left. reflexivity. }
  destruct (CeilingFan.fanStateUpdatedSinceLastTransition fan); cbn [negb].
  { do 3 eexists. split; [reflexivity|]. split; [reflexivity|]. left. reflexivity. }
  destruct (GetTimeSinceTransition_run tstat w) as (w1 & Hrun & _).
  rewrite (bind_run _ _ _ _ _ _ Hrun). rewrite <- since_at_eq.
  unfold settle_delay, target_speed.
  destruct (Z.gtb_spec (since_at tstat w)
              (if Thermostat.isFurnaceOn tstat
               then k_ceilingFanOnDelay else k_ceilingFanOffDelay)) as [Hgt|_].
  - match goal with |- context [CeilingFan.SetFanSpeed fan ?speed] =>
      destruct (SetFanSpeed_run fan speed w1) as (w2 & entry & Hset & _) end.
    rewrite (bind_run _ _ _ _ _ _ Hset). unfold ret.
    do 3 eexists. split; [reflexivity|]. split; [reflexivity|]. right.
    split; [|split; [reflexivity|split; [reflexivity|apply Z.lt_gt; exact Hgt]]].
    rewrite app_nil_l, app_nil_r. exists (next_answer w1), entry. reflexivity.
  - unfold ret. do 3 eexists. split; [reflexivity|]. split; [reflexivity|]. left. reflexivity.
Qed.

Lemma FurnaceBlower_events (fan : FurnaceBlower.t) (tstat : Thermostat.t) (w : World) :
  exists fan' w' evs,
    FurnaceBlower.Update fan tstat w = Done fan' w' evs
    /\ FurnaceBlower.curlInstance fan' = FurnaceBlower.curlInstance fan
    /\ (evs = []
        \/ (exists newState,
              one_command (FurnaceBlower.curlInstance fan) (FmodeFields newState) evs)).
Proof.
  destruct (FurnaceBlower_tick fan tstat w)
    as (Hwanted & fan0 & w0 & evs0 & Hrun0 & Hh0 & _).
  enough (Hshape : exists fan' w' evs,
             FurnaceBlower.Update fan tstat w = Done fan' w' evs
             /\ (evs = []
                 \/ (exists newState,
                       one_command (FurnaceBlower.curlInstance fan)
                                   (FmodeFields newState) evs))).
  { destruct Hshape as (fan' & w' & evs & Hrun & Hsh).
    exists fan', w', evs. split; [exact Hrun|]. split; [|exact Hsh].
    rewrite Hrun0 in Hrun. injection Hrun as <- _ _. exact Hh0. }
  clear fan0 w0 evs0 Hrun0 Hh0.
  unfold value_of in Hwanted.
  destruct (FurnaceBlower.override_wanted tstat w) as [|wanted w1 e1] eqn:Hw;
    [discriminate|].
  assert (He1 : e1 = []).
  { revert Hw. unfold FurnaceBlower.override_wanted.
    destruct (Thermostat.isFurnaceOn tstat); [intros H; injection H as _ _ <-; reflexivity|].
    destruct (Thermostat.StateChanged tstat); [intros H; injection H as _ _ <-; reflexivity|].
    destruct (GetTimeSinceTransition_run tstat w) as (w2 & Hrun & _).
    rewrite (bind_run _ _ _ _ _ _ Hrun). unfold ret.
    intros H; injection H as _ _ <-. reflexivity. }
  subst e1. clear Hwanted.
  unfold FurnaceBlower.Update. rewrite (bind_run _ _ _ _ _ _ Hw).
  destruct wanted.
  - destruct (negb (Thermostat.GetBlowerState tstat =? BLOWER_ON)).
    + match goal with |- context [FurnaceBlower.SetBlowerState ?f ?n] =>
        destruct (SetBlowerState_run f n w1) as (w2 & entry & Hset) end.
      rewrite (bind_run _ _ _ _ _ _ Hset). unfold ret.
      do 3 eexists. split; [reflexivity|]. right. exists BLOWER_ON.
      rewrite app_nil_l, app_nil_r. exists (next_answer w1), entry.
      destruct (FurnaceBlower.latchedState fan); [reflexivity|].
      destruct (negb (Thermostat.GetBlowerState tstat =? -1)); reflexivity.
    + unfold ret. do 3 eexists. split; [reflexivity|]. left. reflexivity.
  - destruct (FurnaceBlower.latchedState fan) as [latched|].
    + destruct (latched =? Thermostat.GetBlowerState tstat).
      * unfold ret. do 3 eexists. split; [reflexivity|]. left. reflexivity.
      * destruct (SetBlowerState_run fan latched w1) as (w2 & entry & Hset).
        rewrite (bind_run _ _ _ _ _ _ Hset). unfold ret.
        do 3 eexists. split; [reflexivity|]. right. exists latched.
        rewrite app_nil_l, app_nil_r. exists (next_answer w1), entry. reflexivity.
    + unfold ret. do 3 eexists. split; [reflexivity|]. left. reflexivity.
Qed.

(** ** The time of the last transition *)

(** X4.  A poll flags a transition only when it succeeds over an earlier
    reading; it then stamps the transition with the clock reading it takes
    and [isFurnaceOn] becomes the opposite of what it was.  A poll that
    flags nothing leaves the time of the last transition alone and, once a
    reading is held, leaves [isFurnaceOn] as it was. *)
Theorem Update_stamps_transition (tstat : Thermostat.t) (w : World) (ok : bool)
        (tstat' : Thermostat.t) (w' : World) (evs : list event) :
  Thermostat.Update tstat w = Done (ok, tstat') w' evs ->
  (Thermostat.StateChanged tstat' = true ->
   ok = true
   /\ Thermostat.previousState tstat <> None
   /\ Thermostat.lastTransitionTime tstat' = clock w (reads w)
   /\ Thermostat.isFurnaceOn tstat' = negb (Thermostat.isFurnaceOn tstat))
  /\ (Thermostat.StateChanged tstat' = false ->
      Thermostat.lastTransitionTime tstat' = Thermostat.lastTransitionTime tstat
      /\ (Thermostat.previousState tstat <> None ->
          Thermostat.isFurnaceOn tstat' = Thermostat.isFurnaceOn tstat)).
Proof.
  intros Hrun.
  destruct (faults (next_answer w)) eqn:Hf.
  { rewrite (Update_faults tstat w Hf) in Hrun. discriminate. }
  destruct (reading_of (next_answer w)) as [s|] eqn:Hr.
  - destruct (Update_decoded tstat w s Hr) as (w2 & Hrun' & _).
    rewrite Hrun in Hrun'. injection Hrun' as -> -> _ _.
    unfold Thermostat.StateChanged, Thermostat.isFurnaceOn, after_reading, differs_from.
    cbn [Thermostat.stateChanged Thermostat.lastTransitionTime Thermostat.previousState].
    destruct (Thermostat.previousState tstat) as [p|].
    + destruct (isHeatOn s), (isHeatOn p); cbn; split; intros H;
        try discriminate; repeat split; congruence.
    + split; [discriminate|]. intros _. split; [reflexivity|]. congruence.
  - destruct (Update_failed tstat w Hf Hr) as (w2 & Hrun' & _).
    rewrite Hrun in Hrun'. injection Hrun' as -> -> _ _.
    split; [discriminate|]. intros _. split; reflexivity.
Qed.

(** The poll that sees the heat go off at 130 s stamps that time. *)
Lemma Update_stamps_transition_witness :
  Thermostat.lastTransitionTime
    (after_reading heat_on_since_40 (a_reading false 0) (Chrono.seconds 130))
    = Chrono.seconds 130
  /\ Thermostat.isFurnaceOn
       (after_reading heat_on_since_40 (a_reading false 0) (Chrono.seconds 130)) = false.
Proof.
  destruct (Update_stamps_transition heat_on_since_40 poll_off true
              (after_reading heat_on_since_40 (a_reading false 0) (Chrono.seconds 130))
              (mkWorld (clock poll_off) (S (reads poll_off)) (wire poll_off)
                       (S (sent poll_off))
                       (fun h' => if Nat.eqb h' tstatCurl then HttpGet else curl poll_off h'))
              [Sent tstatCurl HttpGet (next_answer poll_off)] eq_refl)
    as [Hflagged _].
  destruct (Hflagged eq_refl) as (_ & _ & Htime & Hheat).
  split; [exact Htime|exact Hheat].
Defined.

(** X5.  At start-up the ceiling fans do not wait.  Until a transition is
    seen (and unless the clock showed exactly the tail window when the
    tracker was constructed), the time since the transition exceeds both
    settle delays, so a fan whose flag is unset sends the speed for the
    current heat state on its tick. *)
Theorem fans_settle_at_start (h : CURL) (w0 : World) (tstat0 tstat : Thermostat.t)
        (fan : CeilingFan.t) (w : World) :
  value_of (Thermostat.new h) w0 = Some tstat0 ->
  clock w0 (reads w0) <> k_runBlowerFanAfterHeatOff ->
  untransitioned tstat0 tstat ->
  clock w0 (reads w0) <= clock w (reads w) ->
  updated fan = false ->
  exists fan' w' evs,
    CeilingFan.Update fan tstat w = Done fan' w' evs
    /\ speed_commands evs = [(target_speed tstat, fst (next_answer w))]
    /\ updated fan' = (fst (next_answer w) =? 200).
Proof.
  intros Hnew Hepoch Hreach Hmono Hflag.
  rewrite new_run in Hnew. injection Hnew as <-.
  destruct (untransitioned_keeps _ _ Hreach) as [Htime Hquiet].
  cbn [Thermostat.lastTransitionTime Thermostat.StateChanged Thermostat.stateChanged]
    in Htime, Hquiet.
  specialize (Hquiet eq_refl).
  assert (Hsince : since_at tstat w
                   = k_runBlowerFanAfterHeatOff + (clock w (reads w) - clock w0 (reads w0))).
  { rewrite since_at_eq, Htime.
    destruct (Z.eqb_spec (clock w0 (reads w0) - k_runBlowerFanAfterHeatOff) 0); lia. }
  destruct (CeilingFan_tick fan tstat w) as (fan' & w' & evs & Hrun & _ & Hout).
  rewrite Hquiet, Hflag in Hout.
  assert (Hdelay : settle_delay tstat < since_at tstat w).
  { rewrite Hsince. unfold settle_delay.
    destruct (Thermostat.isFurnaceOn tstat);
      unfold k_runBlowerFanAfterHeatOff, k_ceilingFanOnDelay, k_ceilingFanOffDelay,
        Chrono.seconds; lia. }
  destruct (Z.gtb_spec (since_at tstat w) (settle_delay tstat)) as [_|Hle]; [|lia].
  exists fan', w', evs. split; [exact Hrun|].
  destruct Hout as (Hc & _ & Hf). split; assumption.
Qed.

(** Constructed at 1000 s, polled once, ticked at 1015 s: the fan is set
    to the heat-off speed at once. *)
Lemma fans_settle_at_start_witness :
  exists fan' w' evs,
    CeilingFan.Update (CeilingFan.new fan1Curl)
                      (after_reading booted (a_reading false 0) (Chrono.seconds 1001))
                      (world_answering (Chrono.seconds 1015) 200) = Done fan' w' evs
    /\ speed_commands evs = [(1, 200)]
    /\ updated fan' = true.
Proof.
  refine (fans_settle_at_start tstatCurl boot_world booted
            (after_reading booted (a_reading false 0) (Chrono.seconds 1001))
            (CeilingFan.new fan1Curl) (world_answering (Chrono.seconds 1015) 200)
            _ _ _ _ _).
  - reflexivity.
  - vm_compute. discriminate.
  - refine (untransitioned_poll booted booted
              (poll_answering (Chrono.seconds 1001) (200, tstat_json 70 68 0 0))
              true _ _ _ (untransitioned_start booted) _ _).
    + vm_compute. reflexivity.
    + reflexivity.
  - vm_compute. discriminate.
  - reflexivity.
Defined.

(** X6.  When the clock shows exactly the tail window at the moment the
    tracker is constructed, the time of the last transition is the clock's
    epoch, which [GetTimeSinceTransition] takes for "no transition yet": it
    answers zero however late it is asked.  Until a transition is seen no
    ceiling fan sends anything, and the override condition of the blower
    holds whenever heat is off. *)
Theorem epoch_start_freezes_the_timer (h : CURL) (w0 : World)
        (tstat0 tstat : Thermostat.t) (w : World) :
  value_of (Thermostat.new h) w0 = Some tstat0 ->
  clock w0 (reads w0) = k_runBlowerFanAfterHeatOff ->
  untransitioned tstat0 tstat ->
  value_of (Thermostat.GetTimeSinceTransition tstat) w = Some 0
  /\ (forall fan : CeilingFan.t,
        exists w', CeilingFan.Update fan tstat w = Done fan w' [])
  /\ (Thermostat.isFurnaceOn tstat = false ->
      value_of (FurnaceBlower.override_wanted tstat) w = Some true).
Proof.
  intros Hnew Hepoch Hreach.
  rewrite new_run in Hnew. injection Hnew as <-.
  destruct (untransitioned_keeps _ _ Hreach) as [Htime Hquiet].
  cbn [Thermostat.lastTransitionTime Thermostat.StateChanged Thermostat.stateChanged]
    in Htime, Hquiet.
  specialize (Hquiet eq_refl).
  rewrite Hepoch, Z.sub_diag in Htime.
  assert (Hsince : since_at tstat w = 0).
  { rewrite since_at_eq, Htime. reflexivity. }
  split; [rewrite value_of_since_at, Hsince; reflexivity|]. split.
  - intros fan.
    destruct (CeilingFan_tick fan tstat w) as (fan' & w' & evs & Hrun & _ & Hout).
    rewrite Hquiet, Hsince in Hout.
    assert (Hnot : (0 >? settle_delay tstat) = false).
    { unfold settle_delay. destruct (Thermostat.isFurnaceOn tstat); reflexivity. }
    rewrite Hnot in Hout.
    destruct (updated fan); destruct Hout as [-> ->]; exists w'; exact Hrun.
  - intros Hoff.
    destruct (FurnaceBlower_tick (FurnaceBlower.new h) tstat w) as (Hwanted & _).
    rewrite Hwanted, Hsince. unfold engage_condition. rewrite Hoff, Hquiet. reflexivity.
Qed.

(** Constructed when the clock shows 360 s and asked a day later. *)
Lemma epoch_start_freezes_the_timer_witness :
  value_of (Thermostat.GetTimeSinceTransition booted_at_epoch)
           (world_at (Chrono.seconds 86400)) = Some 0
  /\ (forall fan : CeilingFan.t,
        exists w', CeilingFan.Update fan booted_at_epoch
                                     (world_at (Chrono.seconds 86400)) = Done fan w' [])
  /\ (Thermostat.isFurnaceOn booted_at_epoch = false ->
      value_of (FurnaceBlower.override_wanted booted_at_epoch)
               (world_at (Chrono.seconds 86400)) = Some true).
Proof.
  apply (epoch_start_freezes_the_timer tstatCurl boot_at_tail_window booted_at_epoch
           booted_at_epoch (world_at (Chrono.seconds 86400))).
  - reflexivity.
  - reflexivity.
  - apply untransitioned_start.
Defined.

(** ** More on the ceiling fan *)

(** X7.  A ceiling fan that is ticked with a transition on every poll, as
    with a heat call that flaps, sends nothing at all, and its flag ends
    unset. *)
Theorem flapping_heat_sends_nothing (fan : CeilingFan.t)
        (ticks : list (Thermostat.t * World)) :
  Forall (fun tick => Thermostat.StateChanged (fst tick) = true) ticks ->
  snd (fan_ticks fan ticks) = []
  /\ (ticks <> [] -> updated (fst (fan_ticks fan ticks)) = false).
Proof.
  intros Hflap. revert fan.
  induction Hflap as [|[tstat w] ticks Hchg _ IH]; intros fan.
  { split; [reflexivity|congruence]. }
  cbn [fst] in Hchg.
  destruct (CeilingFan_tick fan tstat w) as (fan' & w' & evs & Hrun & _ & Hout).
  rewrite Hchg in Hout. destruct Hout as [Hflag ->].
  rewrite (fan_ticks_cons _ _ _ _ _ _ _ Hrun). cbn [fst snd app].
  destruct (IH fan') as [Hevs Hlast]. split; [exact Hevs|].
  intros _. destruct ticks as [|tick ticks]; [exact Hflag|].
  apply Hlast. discriminate.
Qed.

Lemma flapping_heat_sends_nothing_witness :
  snd (fan_ticks (CeilingFan.mk fan1Curl true)
         [ (heat_just_off, world_at (Chrono.seconds 1000));
           (heat_just_on, world_at (Chrono.seconds 1015));
           (heat_just_off, world_at (Chrono.seconds 1030)) ]) = []
  /\ updated (fst (fan_ticks (CeilingFan.mk fan1Curl true)
                     [ (heat_just_off, world_at (Chrono.seconds 1000));
                       (heat_just_on, world_at (Chrono.seconds 1015));
                       (heat_just_off, world_at (Chrono.seconds 1030)) ])) = false.
Proof.
  destruct (flapping_heat_sends_nothing (CeilingFan.mk fan1Curl true)
              [ (heat_just_off, world_at (Chrono.seconds 1000));
                (heat_just_on, world_at (Chrono.seconds 1015));
                (heat_just_off, world_at (Chrono.seconds 1030)) ]) as [Hevs Hflag].
  - repeat constructor.
  - split; [exact Hevs|]. apply Hflag. discriminate.
Defined.

(** While no transition is flagged and the settle delay of the current
    heat state is not exceeded, a fan whose flag is unset stays as it is and
    sends nothing. *)
Lemma fan_ticks_settling (early : list (Thermostat.t * World)) (fan : CeilingFan.t) :
  updated fan = false ->
  Forall (fun tick => Thermostat.StateChanged (fst tick) = false
                      /\ since_at (fst tick) (snd tick) <= settle_delay (fst tick)) early ->
  fan_ticks fan early = (fan, []).
Proof.
  intros Hflag. induction 1 as [|[tstat w] early [Hsame Hsince] _ IH]; [reflexivity|].
  cbn [fst snd] in *.
  destruct (CeilingFan_tick fan tstat w) as (fan' & w' & evs & Hrun & _ & Hout).
  rewrite (fan_ticks_cons _ _ _ _ _ _ _ Hrun).
  rewrite Hsame, Hflag in Hout.
  destruct (Z.gtb_spec (since_at tstat w) (settle_delay tstat)) as [Hgt|_]; [lia|].
  destruct Hout as [-> ->]. rewrite IH. reflexivity.
Qed.

(** X8.  After a transition in either direction a ceiling fan sends nothing
    until the settle delay of the heat state then current is exceeded: 60 s
    while heat is active, 180 s while it is not.  On the first tick past the
    delay it sends the speed of that heat state, 2 while heat is active. *)
Theorem fan_waits_for_settle_delay (fan : CeilingFan.t) (tchg : Thermostat.t) (w0 : World)
        (early : list (Thermostat.t * World)) (due : Thermostat.t * World) :
  Thermostat.StateChanged tchg = true ->
  Forall (fun tick => Thermostat.StateChanged (fst tick) = false
                      /\ since_at (fst tick) (snd tick) <= settle_delay (fst tick)) early ->
  Thermostat.StateChanged (fst due) = false ->
  since_at (fst due) (snd due) > settle_delay (fst due) ->
  snd (fan_ticks fan ((tchg, w0) :: early)) = []
  /\ speed_commands (snd (fan_ticks fan ((tchg, w0) :: early ++ [due])))
     = [(target_speed (fst due), fst (next_answer (snd due)))]
  /\ (Thermostat.isFurnaceOn (fst due) = true ->
      settle_delay (fst due) = Chrono.seconds 60 /\ target_speed (fst due) = 2)
  /\ (Thermostat.isFurnaceOn (fst due) = false ->
      settle_delay (fst due) = Chrono.seconds 180 /\ target_speed (fst due) = 1).
Proof.
  intros Hchg Hearly Hsame Hsince. destruct due as [tdue wdue]. cbn [fst snd] in *.
  destruct (CeilingFan_tick fan tchg w0) as (fan0 & w0' & evs0 & Hrun0 & _ & Hout0).
  rewrite Hchg in Hout0. destruct Hout0 as [Hflag0 ->].
  rewrite !(fan_ticks_cons _ _ _ _ _ _ _ Hrun0). cbn [fst snd app].
  pose proof (fan_ticks_settling early fan0 Hflag0 Hearly) as Hwait.
  split; [rewrite Hwait; reflexivity|]. split.
  - rewrite fan_ticks_app, Hwait. cbn [fst snd app].
    destruct (CeilingFan_tick fan0 tdue wdue) as (fan1 & w1 & evs1 & Hrun1 & _ & Hout1).
    rewrite (fan_ticks_cons _ _ _ _ _ _ _ Hrun1). cbn [fan_ticks fst snd].
    rewrite app_nil_r. rewrite Hsame, Hflag0 in Hout1.
    destruct (Z.gtb_spec (since_at tdue wdue) (settle_delay tdue)) as [_|Hle]; [|lia].
    exact (proj1 Hout1).
  - unfold settle_delay, target_speed.
    split; intros ->; split; reflexivity.
Qed.

(** The heat comes on at 1000 s: silence at 1015 s and at 1060 s, speed 2
    at 1075 s. *)
Lemma fan_waits_for_settle_delay_witness :
  speed_commands
    (snd (fan_ticks (CeilingFan.new fan1Curl)
            ((heat_just_on, world_at (Chrono.seconds 1000))
               :: [ (heat_on_auto, world_at (Chrono.seconds 1015));
                    (heat_on_auto, world_at (Chrono.seconds 1060)) ]
               ++ [ (heat_on_auto, world_answering (Chrono.seconds 1075) 200) ])))
    = [(2, 200)].
Proof.
  refine (proj1 (proj2 (fan_waits_for_settle_delay (CeilingFan.new fan1Curl)
                          heat_just_on (world_at (Chrono.seconds 1000))
                          [ (heat_on_auto, world_at (Chrono.seconds 1015));
                            (heat_on_auto, world_at (Chrono.seconds 1060)) ]
                          (heat_on_auto, world_answering (Chrono.seconds 1075) 200)
                          _ _ _ _))).
  - reflexivity.
  - repeat constructor; vm_compute; discriminate.
  - reflexivity.
  - vm_compute. reflexivity.
Defined.

Lemma requests_app (a b : list event) : requests (a ++ b) = requests a ++ requests b.
Proof.
  induction a as [|[] a IHa]; cbn; rewrite ?IHa; reflexivity.
Qed.

Lemma requests_one_command (h : CURL) (data : postfields) (evs : list event) :
  one_command h data evs -> requests evs = [(h, HttpPost data)].
Proof. intros (answer & entry & ->). reflexivity. Qed.

(** X9.  Whatever the thermostat reports and whatever is answered, the only
    requests a ceiling fan sends from its ticks are speed commands on its
    own handle, for speed 2 or speed 1, at most one per tick. *)
Theorem fan_sends_only_its_two_speeds (ticks : list (Thermostat.t * World))
        (fan : CeilingFan.t) :
  Forall (fun req => fst req = CeilingFan.curlInstance fan
                     /\ (snd req = HttpPost (FanSpeedFields k_heatOnFanSpeed)
                         \/ snd req = HttpPost (FanSpeedFields k_heatOffFanSpeed)))
         (requests (snd (fan_ticks fan ticks)))
  /\ (List.length (requests (snd (fan_ticks fan ticks))) <= List.length ticks)%nat.
Proof.
  revert fan. induction ticks as [|[tstat w] ticks IH]; intros fan.
  { split; [constructor|cbn; lia]. }
  destruct (CeilingFan_events fan tstat w) as (fan' & w' & evs & Hrun & Hh & Hshape).
  rewrite (fan_ticks_cons _ _ _ _ _ _ _ Hrun). cbn [fst snd].
  rewrite requests_app, length_app. destruct (IH fan') as [IHreq IHlen].
  rewrite Hh in IHreq.
  destruct Hshape as [->|[Hone _]].
  - cbn [requests app List.length]. split; [exact IHreq|lia].
  - rewrite (requests_one_command _ _ _ Hone). cbn [app List.length]. split; [|lia].
    constructor; [|exact IHreq]. cbn [fst snd]. split; [reflexivity|].
    unfold target_speed. destruct (Thermostat.isFurnaceOn tstat); [left|right]; reflexivity.
Qed.

(** ** More on the blower *)

Lemma blower_ticks_app (fan : FurnaceBlower.t) (a b : list (Thermostat.t * World)) :
  blower_ticks fan (a ++ b)
    = (fst (blower_ticks (fst (blower_ticks fan a)) b),
       snd (blower_ticks fan a) ++ snd (blower_ticks (fst (blower_ticks fan a)) b)).
Proof.
  revert fan. induction a as [|[tstat w] a IH]; intros fan.
  { cbn. destruct (blower_ticks fan b); reflexivity. }
  destruct (FurnaceBlower_tick fan tstat w) as (_ & fan' & w' & evs & Hrun & _).
  cbn [app]. rewrite !(blower_ticks_cons _ _ _ _ _ _ _ Hrun), IH.
  cbn [fst snd]. rewrite app_assoc. reflexivity.
Qed.

(** A blower that holds a latch keeps it, and posts what
    [posted_while_latched] says, over any ticks that are in the override
    branch or report another mode than the latched one. *)
Lemma blower_ticks_latched (middle : list (Thermostat.t * World)) (h : CURL) (mode : Z) :
  Forall (fun tick => engaged tick = true
                      \/ Thermostat.GetBlowerState (fst tick) <> mode) middle ->
  fst (blower_ticks (FurnaceBlower.mk h (Some mode)) middle)
    = FurnaceBlower.mk h (Some mode)
  /\ blower_commands (snd (blower_ticks (FurnaceBlower.mk h (Some mode)) middle))
     = flat_map (posted_while_latched mode) middle.
Proof.
  induction 1 as [|[tstat w] middle Hcase _ [IHfan IHcmd]]; [split; reflexivity|].
  destruct (FurnaceBlower_tick (FurnaceBlower.mk h (Some mode)) tstat w)
    as (_ & fan' & w' & evs & Hrun & Hh & Hout).
  rewrite (blower_ticks_cons _ _ _ _ _ _ _ Hrun). cbn [fst snd flat_map].
  rewrite blower_commands_app. unfold posted_while_latched at 1. unfold engaged in *.
  cbn [fst snd] in *.
  assert (Hkeep : fan' = FurnaceBlower.mk h (Some mode)
                  /\ blower_commands evs
                     = if engage_condition tstat (since_at tstat w)
                       then if Thermostat.GetBlowerState tstat =? BLOWER_ON
                            then [] else [BLOWER_ON]
                       else [mode]).
  { destruct (engage_condition tstat (since_at tstat w)).
    - unfold overrides in Hout. cbn [FurnaceBlower.latchedState] in Hout.
      destruct Hout as [Hl Hc]. split; [|exact Hc].
      destruct fan'; cbn in *; congruence.
    - destruct Hcase as [Hc|Hne]; [discriminate|].
      unfold restores in Hout. cbn [FurnaceBlower.latchedState] in Hout.
      destruct (Z.eqb_spec mode (Thermostat.GetBlowerState tstat)) as [E|_];
        [congruence|].
      destruct Hout as [Hl Hc]. split; [|exact Hc].
      destruct fan'; cbn in *; congruence. }
  destruct Hkeep as [-> ->]. rewrite IHfan, IHcmd. split; reflexivity.
Qed.

(** X10.  An override episode, from its first tick to the tick that ends it.
    A blower without latch that is ticked in the override branch while the
    thermostat reports the valid mode [mode] latches it.  It keeps that
    latch over any later ticks that are in the override branch or report
    another mode, heat calls that come and go included, posting ON on the
    ticks in the override branch that do not report ON and [mode] on the
    others.  The first tick outside the override branch that reports [mode]
    posts nothing and leaves the blower as it was constructed. *)
Theorem blower_episode (h : CURL) (tchg : Thermostat.t) (w0 : World)
        (middle : list (Thermostat.t * World)) (confirm : Thermostat.t * World)
        (mode : Z) :
  engaged (tchg, w0) = true ->
  Thermostat.GetBlowerState tchg = mode ->
  mode <> -1 ->
  Forall (fun tick => engaged tick = true
                      \/ Thermostat.GetBlowerState (fst tick) <> mode) middle ->
  engaged confirm = false ->
  Thermostat.GetBlowerState (fst confirm) = mode ->
  FurnaceBlower.latchedState
    (fst (blower_ticks (FurnaceBlower.new h) ((tchg, w0) :: middle))) = Some mode
  /\ blower_commands
       (snd (blower_ticks (FurnaceBlower.new h) ((tchg, w0) :: middle ++ [confirm])))
     = (if mode =? BLOWER_ON then [] else [BLOWER_ON])
         ++ flat_map (posted_while_latched mode) middle
  /\ fst (blower_ticks (FurnaceBlower.new h) ((tchg, w0) :: middle ++ [confirm]))
     = FurnaceBlower.new h.
Proof.
  intros Hfirst Hmode Hvalid Hmiddle Hend Hback.
  destruct confirm as [tend wend]. unfold engaged in Hfirst, Hend. cbn [fst snd] in *.
  destruct (FurnaceBlower_tick (FurnaceBlower.new h) tchg w0)
    as (_ & fan0 & w0' & evs0 & Hrun0 & Hh0 & Hout0).
  rewrite Hfirst in Hout0. unfold overrides in Hout0. rewrite Hmode in Hout0.
  cbn [FurnaceBlower.new FurnaceBlower.latchedState FurnaceBlower.curlInstance]
    in Hout0, Hh0.
  destruct (Z.eqb_spec mode (-1)) as [E|_]; [contradiction|].
  destruct Hout0 as [Hl0 Hc0].
  assert (Hfan0 : fan0 = FurnaceBlower.mk h (Some mode)).
  { destruct fan0; cbn in *; congruence. }
  subst fan0.
  destruct (blower_ticks_latched middle h mode Hmiddle) as [Hfan Hcmd].
  rewrite !(blower_ticks_cons _ _ _ _ _ _ _ Hrun0). cbn [fst snd].
  split; [rewrite Hfan; reflexivity|].
  rewrite blower_ticks_app, Hfan. cbn [fst snd].
  destruct (FurnaceBlower_tick (FurnaceBlower.mk h (Some mode)) tend wend)
    as (_ & fan1 & w1 & evs1 & Hrun1 & Hh1 & Hout1).
  rewrite Hend in Hout1. unfold restores in Hout1.
  cbn [FurnaceBlower.latchedState FurnaceBlower.curlInstance] in Hout1, Hh1.
  rewrite Hback, Z.eqb_refl in Hout1. destruct Hout1 as [Hl1 Hc1].
  rewrite (blower_ticks_cons _ _ _ _ _ _ _ Hrun1). cbn [blower_ticks fst snd].
  rewrite app_nil_r, !blower_commands_app, Hc0, Hcmd, Hc1, app_nil_r.
  split; [reflexivity|].
  destruct fan1; cbn in *. unfold FurnaceBlower.new. congruence.
Qed.

(** The episode of [episode_middle]: ON at 1000 s; nothing at 1015 s (ON is
    reported); CIRCULATE posted when the heat comes back at 1100 s; ON held
    when it goes off again at 1200 s; CIRCULATE posted at 1560 s; nothing,
    and no latch, at 1575 s. *)
Lemma blower_episode_witness :
  blower_commands
    (snd (blower_ticks (FurnaceBlower.new tstatCurl)
            ((heat_just_off_circulate, world_at (Chrono.seconds 1000))
               :: episode_middle ++ [episode_confirm])))
    = [2; 1; 1]
  /\ fst (blower_ticks (FurnaceBlower.new tstatCurl)
            ((heat_just_off_circulate, world_at (Chrono.seconds 1000))
               :: episode_middle ++ [episode_confirm]))
     = FurnaceBlower.new tstatCurl.
Proof.
  refine (proj2 (blower_episode tstatCurl heat_just_off_circulate
                   (world_at (Chrono.seconds 1000)) episode_middle episode_confirm 1
                   _ _ _ _ _ _)).
  - reflexivity.
  - reflexivity.
  - discriminate.
  - repeat (apply Forall_cons; [first [left; reflexivity | right; discriminate]|]).
    apply Forall_nil.
  - reflexivity.
  - reflexivity.
Defined.

(** X11.  A blower never latches the sentinel [-1] and never posts it: over
    any ticks, each tick posts at most one mode, and a mode posted is ON, or
    the latch held at the start, or a mode the thermostat reported on one of
    the ticks. *)
Theorem blower_never_posts_the_sentinel (ticks : list (Thermostat.t * World))
        (fan : FurnaceBlower.t) :
  FurnaceBlower.latchedState fan <> Some (-1) ->
  FurnaceBlower.latchedState (fst (blower_ticks fan ticks)) <> Some (-1)
  /\ Forall (fun c => c <> -1
                      /\ (c = BLOWER_ON
                          \/ Some c = FurnaceBlower.latchedState fan
                          \/ In c (map (fun tick => Thermostat.GetBlowerState (fst tick))
                                       ticks)))
            (blower_commands (snd (blower_ticks fan ticks)))
  /\ (List.length (blower_commands (snd (blower_ticks fan ticks)))
      <= List.length ticks)%nat.
Proof.
  revert fan. induction ticks as [|[tstat w] ticks IH]; intros fan Hvalid.
  { cbn. split; [exact Hvalid|]. split; [constructor|lia]. }
  destruct (FurnaceBlower_tick fan tstat w) as (_ & fan' & w' & evs & Hrun & _ & Hout).
  rewrite (blower_ticks_cons _ _ _ _ _ _ _ Hrun). cbn [fst snd map List.length].
  rewrite blower_commands_app, length_app.
  set (cur := Thermostat.GetBlowerState tstat) in *.
  assert (Hstep : FurnaceBlower.latchedState fan' <> Some (-1)
                  /\ (FurnaceBlower.latchedState fan' = FurnaceBlower.latchedState fan
                      \/ FurnaceBlower.latchedState fan' = Some cur
                      \/ FurnaceBlower.latchedState fan' = None)
                  /\ (blower_commands evs = []
                      \/ blower_commands evs = [BLOWER_ON]
                      \/ exists l, FurnaceBlower.latchedState fan = Some l
                                   /\ blower_commands evs = [l])).
  { destruct (engage_condition tstat (since_at tstat w)).
    - unfold overrides in Hout. destruct Hout as [Hl Hc].
      split; [|split].
      + rewrite Hl. destruct (FurnaceBlower.latchedState fan) as [l|]; [exact Hvalid|].
        destruct (Z.eqb_spec cur (-1)); congruence.
      + rewrite Hl. destruct (FurnaceBlower.latchedState fan) as [l|]; [left; reflexivity|].
        destruct (cur =? -1); [left|right; left]; reflexivity.
      + rewrite Hc. destruct (cur =? BLOWER_ON); [left|right; left]; reflexivity.
    - unfold restores in Hout.
      destruct (FurnaceBlower.latchedState fan) as [l|] eqn:Hlatch.
      + destruct (l =? cur); destruct Hout as [Hl Hc]; rewrite Hl, Hc.
        * split; [discriminate|]. split; [right; right; reflexivity|left; reflexivity].
        * split; [exact Hvalid|]. split; [left; reflexivity|].
          right; right. exists l. split; reflexivity.
      + destruct Hout as [Hl Hc]. rewrite Hl, Hc.
        split; [discriminate|]. split; [left; reflexivity|left; reflexivity]. }
  destruct Hstep as (Hvalid' & Hlatch' & Hcmds).
  destruct (IH fan' Hvalid') as (IHlatch & IHcmds & IHlen).
  split; [exact IHlatch|].
  assert (Hrest : Forall
            (fun c => c <> -1
                      /\ (c = BLOWER_ON
                          \/ Some c = FurnaceBlower.latchedState fan
                          \/ In c (cur :: map (fun tick => Thermostat.GetBlowerState (fst tick))
                                              ticks)))
            (blower_commands (snd (blower_ticks fan' ticks)))).
  { eapply Forall_impl; [|exact IHcmds]. cbn beta.
    intros c [Hc [Hon|[Hl|Hin]]]; (split; [exact Hc|]).
    - left. exact Hon.
    - destruct Hlatch' as [E|[E|E]].
      + right. left. congruence.
      + right. right. left. congruence.
      + congruence.
    - right. right. right. exact Hin. }
  destruct Hcmds as [->|[->|(l & Hl & ->)]]; cbn [app List.length].
  - split; [exact Hrest|lia].
  - split; [|lia]. constructor; [|exact Hrest].
    split; [discriminate|left; reflexivity].
  - split; [|lia]. constructor; [|exact Hrest].
    split; [congruence|right; left; congruence].
Qed.

Lemma blower_never_posts_the_sentinel_witness :
  Forall (fun c => c <> -1)
         (blower_commands
            (snd (blower_ticks (FurnaceBlower.new tstatCurl)
                    ((heat_just_off_circulate, world_at (Chrono.seconds 1000))
                       :: episode_middle ++ [episode_confirm])))).
Proof.
  destruct (blower_never_posts_the_sentinel
              ((heat_just_off_circulate, world_at (Chrono.seconds 1000))
                 :: episode_middle ++ [episode_confirm])
              (FurnaceBlower.new tstatCurl)) as (_ & Hcmds & _).
  - discriminate.
  - eapply Forall_impl; [|exact Hcmds]. cbn beta. intros c [Hc _]. exact Hc.
Defined.

(** ** Commands, answers and the log *)

Lemma refusals_app (a b : list event) : refusals (a ++ b) = refusals a ++ refusals b.
Proof.
  induction a as [|[h r answer| |] a IHa]; cbn [app refusals]; rewrite ?IHa;
    try reflexivity.
  destruct (is_command (h, r) && negb (fst answer =? 200)); reflexivity.
Qed.

Lemma one_command_reported (h : CURL) (data : postfields) (evs : list event) :
  (exists n, data = FanSpeedFields n) \/ (exists n, data = FmodeFields n) ->
  one_command h data evs ->
  List.length (error_reports evs) = List.length (refusals evs)
  /\ sleeps evs = [].
Proof.
  intros Hdata (answer & entry & ->).
  assert (Hcmd : is_command (h, HttpPost data) = true).
  { destruct Hdata as [[n ->]|[n ->]]; reflexivity. }
  cbn [refusals error_reports sleeps]. rewrite Hcmd. cbn [andb].
  destruct (fst answer =? 200); split; reflexivity.
Qed.

Lemma Fan_Update_events (fan : Fan) (tstat : Thermostat.t) (w : World) :
  exists fan' w' evs,
    Fan_Update fan tstat w = Done fan' w' evs
    /\ handle_of fan' = handle_of fan
    /\ (evs = []
        \/ exists data, one_command (handle_of fan) data evs
                        /\ ((exists n, data = FanSpeedFields n)
                            \/ (exists n, data = FmodeFields n))
                        /\ command_of fan (handle_of fan, HttpPost data)).
Proof.
  destruct fan as [f|f]; cbn [Fan_Update handle_of].
  - destruct (CeilingFan_events f tstat w) as (f' & w' & evs & Hrun & Hh & Hshape).
    rewrite (bind_run _ _ _ _ _ _ Hrun). unfold ret. rewrite app_nil_r.
    do 3 eexists. split; [reflexivity|]. split; [exact Hh|].
    destruct Hshape as [->|[Hone _]]; [left; reflexivity|right].
    eexists. split; [exact Hone|]. split; [left; eexists; reflexivity|].
    split; [reflexivity|]. eexists. reflexivity.
  - destruct (FurnaceBlower_events f tstat w) as (f' & w' & evs & Hrun & Hh & Hshape).
    rewrite (bind_run _ _ _ _ _ _ Hrun). unfold ret. rewrite app_nil_r.
    do 3 eexists. split; [reflexivity|]. split; [exact Hh|].
    destruct Hshape as [->|[n Hone]]; [left; reflexivity|right].
    eexists. split; [exact Hone|]. split; [right; eexists; reflexivity|].
    split; [reflexivity|]. eexists. reflexivity.
Qed.

(** What updating the fans sends and what it writes to the log. *)
Lemma update_fans_events (fans : list Fan) (tstat : Thermostat.t) (w : World) :
  exists fans' w' evs,
    update_fans fans tstat w = Done fans' w' evs
    /\ map handle_of fans' = map handle_of fans
    /\ (List.length (requests evs) <= List.length fans)%nat
    /\ Forall (fun req => is_command req = true /\ In (fst req) (map handle_of fans))
              (requests evs)
    /\ List.length (error_reports evs) = List.length (refusals evs)
    /\ Forall (fun req => exists fan, In fan fans /\ command_of fan req) (requests evs).
Proof.
  revert w. induction fans as [|fan fans IH]; intros w.
  { exists [], w, []. cbn. repeat split; [lia|constructor|constructor]. }
  destruct (Fan_Update_events fan tstat w) as (fan' & w1 & e1 & Hrun & Hh & Hshape).
  destruct (IH w1) as (fans' & w2 & e2 & Hrest & Hhs & Hlen & Hreq & Hrep & Hby).
  cbn [update_fans]. rewrite (bind_run _ _ _ _ _ _ Hrun), (bind_run _ _ _ _ _ _ Hrest).
  unfold ret. rewrite app_nil_r.
  do 3 eexists. split; [reflexivity|].
  cbn [map List.length]. rewrite Hh, Hhs.
  rewrite requests_app, error_reports_app, refusals_app, !length_app.
  assert (Hreq' : Forall (fun req => is_command req = true
                                     /\ In (fst req) (handle_of fan :: map handle_of fans))
                         (requests e2)).
  { eapply Forall_impl; [|exact Hreq]. cbn beta. intros req [Hc Hin].
    split; [exact Hc|right; exact Hin]. }
  assert (Hby' : Forall (fun req => exists fan0, In fan0 (fan :: fans) /\ command_of fan0 req)
                        (requests e2)).
  { eapply Forall_impl; [|exact Hby]. cbn beta. intros req (fan0 & Hin & Hcmd).
    exists fan0. split; [right; exact Hin|exact Hcmd]. }
  split; [reflexivity|].
  destruct Hshape as [->|(data & Hone & Hdata & Hcmd)].
  - cbn [requests error_reports refusals app List.length].
    repeat split; [lia|exact Hreq'|lia|exact Hby'].
  - destruct (one_command_reported _ _ _ Hdata Hone) as [Hrep1 _].
    rewrite (requests_one_command _ _ _ Hone), Hrep1. cbn [app List.length].
    repeat split; [lia| |lia|].
    + constructor; [|exact Hreq']. cbn [fst]. split; [|left; reflexivity].
      destruct Hdata as [[n ->]|[n ->]]; reflexivity.
    + constructor; [|exact Hby']. exists fan. split; [left; reflexivity|exact Hcmd].
Qed.

(** X13.  Updating the fans always completes and keeps each fan on its
    handle.  It sends at most one request per fan, and every request it
    sends is the command of one of the fans: on that fan's handle, a
    [fanSpeed] command when the fan is a ceiling fan and an [fmode] command
    when it is the furnace blower; so no request is a query or a reboot.
    It writes one [LOG_ERR] entry for each command that is answered with
    another status than 200, and none besides. *)
Theorem update_fans_traffic (fans : list Fan) (tstat : Thermostat.t) (w : World) :
  exists fans' w' evs,
    update_fans fans tstat w = Done fans' w' evs
    /\ map handle_of fans' = map handle_of fans
    /\ (List.length (requests evs) <= List.length fans)%nat
    /\ Forall (fun req => exists fan, In fan fans /\ command_of fan req) (requests evs)
    /\ Forall (fun req => (exists speed, snd req = HttpPost (FanSpeedFields speed))
                          \/ (exists newState, snd req = HttpPost (FmodeFields newState)))
              (requests evs)
    /\ Forall (fun req => is_command req = true /\ In (fst req) (map handle_of fans))
              (requests evs)
    /\ List.length (error_reports evs) = List.length (refusals evs).
Proof.
  destruct (update_fans_events fans tstat w)
    as (fans' & w' & evs & Hrun & Hh & Hlen & Hreq & Hrep & Hby).
  exists fans', w', evs.
  split; [exact Hrun|]. split; [exact Hh|]. split; [exact Hlen|].
  split; [exact Hby|]. split; [|split; [exact Hreq|exact Hrep]].
  eapply Forall_impl; [|exact Hby]. cbn beta.
  intros req ([f|f] & _ & _ & Hdata); [left|right]; exact Hdata.
Qed.

(** ** A pass of the loop, event by event *)

(** The events of a pass are those of the poll, then those of the fans when
    the poll succeeded, then the sleep. *)
Lemma loop_body_events (tstat : Thermostat.t) (fans : list Fan) (w : World) :
  faults (next_answer w) = false ->
  exists ok tstat' fans' w1 w2 w' evs_poll evs_fans evs_sleep,
    next_answer w1 = next_answer w
    /\ Thermostat.Update tstat w1 = Done (ok, tstat') w2 evs_poll
    /\ (if ok
        then exists w3, update_fans fans tstat' w2 = Done fans' w3 evs_fans
        else fans' = fans /\ evs_fans = [])
    /\ loop_body (tstat, fans) w
       = Done (tstat', fans') w' (evs_poll ++ evs_fans ++ evs_sleep)
    /\ requests evs_sleep = [] /\ error_reports evs_sleep = []
    /\ refusals evs_sleep = [].
Proof.
  intros Hok. unfold loop_body. cbn [fst snd].
  rewrite (bind_run _ _ _ _ _ _ (now_run w)).
  set (w1 := mkWorld (clock w) (S (reads w)) (wire w) (sent w) (curl w)).
  assert (Hans : next_answer w1 = next_answer w) by reflexivity.
  clearbody w1.
  assert (Hsleep : forall d w0, exists evs,
             sleep_for d w0 = Done tt w0 evs /\ requests evs = []
             /\ error_reports evs = [] /\ refusals evs = []).
  { intros d w0. unfold sleep_for. destruct (d <=? 0); eexists; repeat split. }
  destruct (reading_of (next_answer w)) as [s|] eqn:Hr.
  - rewrite <- Hans in Hr.
    destruct (Update_decoded tstat w1 s Hr) as (w2 & Hrun & _).
    rewrite (bind_run _ _ _ _ _ _ Hrun). cbn [fst snd].
    set (tstat' := after_reading tstat s (clock w1 (reads w1))) in *.
    destruct (update_fans_events fans tstat' w2) as (fans' & w3 & evs_f & Hfans & _).
    destruct (GetTimeSinceTransition_run tstat' w3) as (w4 & Hts & _).
    assert (Hblock :
              (fans' <- update_fans fans tstat' ;;
               _ <- Thermostat.GetTimeSinceTransition tstat' ;;
               ret fans') w2 = Done fans' w4 (evs_f ++ [])).
    { rewrite (bind_run _ _ _ _ _ _ Hfans), (bind_run _ _ _ _ _ _ Hts). reflexivity. }
    rewrite (bind_run _ _ _ _ _ _ Hblock).
    rewrite (bind_run _ _ _ _ _ _ (now_run w4)).
    match goal with |- context [bind (sleep_for ?d) _ ?w0] =>
      destruct (Hsleep d w0) as (evs_s & Hs & Hq1 & Hq2 & Hq3) end.
    rewrite (bind_run _ _ _ _ _ _ Hs). unfold ret.
    exists true, tstat', fans', w1, w2. eexists. eexists. exists evs_f, evs_s.
    split; [exact Hans|]. split; [exact Hrun|]. split; [exists w3; exact Hfans|].
    split; [|repeat split; assumption].
    rewrite !app_nil_l, !app_nil_r. reflexivity.
  - rewrite <- Hans in Hr, Hok.
    destruct (Update_failed tstat w1 Hok Hr) as (w2 & Hrun & _).
    rewrite (bind_run _ _ _ _ _ _ Hrun). cbn [fst snd].
    rewrite (bind_run (ret fans) _ w2 fans w2 [] eq_refl).
    rewrite (bind_run _ _ _ _ _ _ (now_run w2)).
    match goal with |- context [bind (sleep_for ?d) _ ?w0] =>
      destruct (Hsleep d w0) as (evs_s & Hs & Hq1 & Hq2 & Hq3) end.
    rewrite (bind_run _ _ _ _ _ _ Hs). unfold ret.
    exists false, (after_failure tstat), fans, w1, w2. eexists. eexists. exists [], evs_s.
    split; [exact Hans|]. split; [exact Hrun|]. split; [split; reflexivity|].
    split; [|repeat split; assumption].
    rewrite !app_nil_l, !app_nil_r. reflexivity.
Qed.

(** The requests and the error entries of a poll that does not stop the
    process. *)
Lemma Update_traffic (tstat : Thermostat.t) (w : World) (r : bool * Thermostat.t)
      (w' : World) (evs : list event) :
  Thermostat.Update tstat w = Done r w' evs ->
  requests evs = [(Thermostat.curlInstance tstat, HttpGet)]
  /\ refusals evs = []
  /\ (fst r = true -> error_reports evs = [])
  /\ (List.length (error_reports evs) <= 1)%nat.
Proof.
  intros Hrun.
  destruct (faults (next_answer w)) eqn:Hf.
  { rewrite (Update_faults tstat w Hf) in Hrun. discriminate. }
  destruct (reading_of (next_answer w)) as [s|] eqn:Hr.
  - destruct (Update_decoded tstat w s Hr) as (w2 & Hrun' & _).
    rewrite Hrun in Hrun'. injection Hrun' as -> _ ->. cbn. repeat split. lia.
  - destruct (Update_failed tstat w Hf Hr) as (w2 & Hrun' & _).
    rewrite Hrun in Hrun'. injection Hrun' as -> _ ->.
    cbn [requests refusals error_reports is_command snd andb fst].
    destruct (_ mod 6 =? 0); cbn; repeat split; try discriminate; lia.
Qed.

(** The requests and the error entries of a pass. *)
Lemma loop_body_traffic (tstat : Thermostat.t) (fans : list Fan) (w : World) :
  faults (next_answer w) = false ->
  exists st' w' evs commands,
    loop_body (tstat, fans) w = Done st' w' evs
    /\ requests evs = (Thermostat.curlInstance tstat, HttpGet) :: commands
    /\ (List.length commands <= List.length fans)%nat
    /\ Forall (fun req => is_command req = true /\ In (fst req) (map handle_of fans))
              commands
    /\ (reading_of (next_answer w) = None -> commands = [])
    /\ (List.length (refusals evs) <= List.length (error_reports evs)
        <= List.length (refusals evs) + 1)%nat.
Proof.
  intros Hok.
  destruct (loop_body_events tstat fans w Hok)
    as (ok & tstat' & fans' & w1 & w2 & w' & e_poll & e_fans & e_sleep
        & Hans & Hpoll & Hfans & Hrun & Hq1 & Hq2 & Hq3).
  destruct (Update_traffic _ _ _ _ _ Hpoll) as (Hreq & Href & Hokrep & Hlen).
  exists (tstat', fans'), w', (e_poll ++ e_fans ++ e_sleep), (requests e_fans).
  split; [exact Hrun|].
  rewrite !requests_app, !refusals_app, !error_reports_app, !length_app,
    Hreq, Href, Hq1, Hq2, Hq3, app_nil_r.
  cbn [app List.length]. rewrite !Nat.add_0_r.
  split; [reflexivity|].
  destruct ok.
  - destruct Hfans as (w3 & Hfans).
    destruct (update_fans_events fans tstat' w2)
      as (f2 & w4 & e2 & Hrun2 & _ & Hl & Hc & Hr & _).
    rewrite Hfans in Hrun2. injection Hrun2 as <- <- <-.
    split; [exact Hl|]. split; [exact Hc|]. split.
    + intros Hnone. exfalso.
      destruct (reading_of (next_answer w)) as [s|] eqn:Hr'; [discriminate|].
      rewrite <- Hans in Hr', Hok.
      destruct (Update_failed tstat w1 Hok Hr') as (w5 & Hrun5 & _). congruence.
    + rewrite Hr, (Hokrep eq_refl). cbn [List.length]. lia.
  - destruct Hfans as [-> ->]. cbn [requests refusals error_reports List.length].
    split; [lia|]. split; [constructor|]. split; [reflexivity|]. lia.
Qed.

(** X14.  Every pass begins with one GET on the thermostat's handle, whatever
    was last configured on that handle (the blower posts on the same one).
    After a failed poll nothing else is sent; after a decoded one at most
    one command goes to each fan.  The [LOG_ERR] entries of the pass are
    one for each refused command and at most one for the poll. *)
Theorem pass_traffic (tstat : Thermostat.t) (fans : list Fan) (w : World) :
  faults (next_answer w) = false ->
  exists st' w' evs commands,
    loop_body (tstat, fans) w = Done st' w' evs
    /\ requests evs = (Thermostat.curlInstance tstat, HttpGet) :: commands
    /\ (List.length commands <= List.length fans)%nat
    /\ Forall (fun req => is_command req = true /\ In (fst req) (map handle_of fans))
              commands
    /\ (reading_of (next_answer w) = None -> commands = [])
    /\ (List.length (refusals evs) <= List.length (error_reports evs)
        <= List.length (refusals evs) + 1)%nat.
Proof. exact (loop_body_traffic tstat fans w). Qed.

Lemma pass_traffic_witness :
  exists st' w' evs commands,
    loop_body fresh_state slow_pass = Done st' w' evs
    /\ requests evs = (tstatCurl, HttpGet) :: commands
    /\ (List.length commands <= 4)%nat
    /\ Forall (fun req => is_command req = true
                          /\ In (fst req) (map handle_of fans_of_main)) commands
    /\ (reading_of (next_answer slow_pass) = None -> commands = [])
    /\ (List.length (refusals evs) <= List.length (error_reports evs)
        <= List.length (refusals evs) + 1)%nat.
Proof.
  apply (pass_traffic (fst fresh_state) (snd fresh_state) slow_pass). reflexivity.
Defined.

(** X15.  No answer to a speed or mode command, whatever its status and
    body, can stop the process: updating the fans always completes, and a
    pass of the loop stops exactly when the answer to its poll is one on
    which the decoder asserts. *)
Theorem pass_stops_only_on_the_poll :
  (forall (fans : list Fan) (tstat : Thermostat.t) (w : World),
     update_fans fans tstat w <> Abort)
  /\ (forall (st : Thermostat.t * list Fan) (w : World),
        loop_body st w = Abort <-> faults (next_answer w) = true).
Proof.
  split; [exact total_update_fans|].
  intros [tstat fans] w. split.
  - intros Habort. destruct (faults (next_answer w)) eqn:Hf; [reflexivity|].
    destruct (loop_body_run tstat fans w Hf) as (st' & w' & evs & Hrun & _).
    congruence.
  - apply loop_body_faults.
Qed.

(** ** The diagnostic mode *)

Lemma debug_fans_run (fans : list Fan) (w : World) :
  exists w' evs,
    debug_fans fans w = Done tt w' evs
    /\ requests evs = map debug_request fans
    /\ sleeps evs = [] /\ error_reports evs = [].
Proof.
  revert w. induction fans as [|fan fans IH]; intros w.
  { exists w, []. repeat split. }
  assert (Hfan : exists w1,
             Fan_Debug fan w = Done tt w1 [Sent (fst (debug_request fan))
                                                (snd (debug_request fan))
                                                (next_answer w)]).
  { destruct fan as [f|f]; cbn [Fan_Debug debug_request fst snd].
    - unfold CeilingFan.Debug, bind, curl_easy_setopt, doHttpRequest, ret, next_answer.
      cbn. rewrite Nat.eqb_refl. eexists. reflexivity.
    - unfold FurnaceBlower.Debug, Thermostat.new, Thermostat.Debug, bind, now,
        curl_easy_setopt, doHttpRequest, ret, next_answer.
      cbn. rewrite Nat.eqb_refl. eexists. reflexivity. }
  destruct Hfan as (w1 & Hfan). destruct (IH w1) as (w' & evs & Hrest & Hreq & Hsl & Her).
  cbn [debug_fans]. rewrite (bind_run _ _ _ _ _ _ Hfan), Hrest.
  do 2 eexists. split; [reflexivity|].
  cbn [app requests sleeps error_reports map]. rewrite Hreq, Hsl, Her.
  destruct (debug_request fan). repeat split.
Qed.

(** X16.  Started with a first argument that begins with [-d], the program
    makes one query per device, first the three ceiling fans (a POST of the
    shadow-data query each), then the thermostat (a GET), sends no command,
    does not sleep, and returns without entering the loop, whatever is
    answered.  With any other arguments it runs as with none. *)
Theorem diagnostic_mode :
  (forall (prog first : string) (others : list string) (n : nat) (w : World),
     String.prefix "-d" first = true ->
     exists w' evs,
       main_argv (prog :: first :: others) n w = Done None w' evs
       /\ requests evs = [ (fan1Curl, HttpPost QueryDynamicShadowData);
                           (fan2Curl, HttpPost QueryDynamicShadowData);
                           (fan3Curl, HttpPost QueryDynamicShadowData);
                           (tstatCurl, HttpGet) ]
       /\ sleeps evs = [] /\ error_reports evs = [])
  /\ (forall (argv : list string) (n : nat),
        wants_debug argv = false -> main_argv argv n = main_argv [] n).
Proof.
  split.
  - intros prog first others n w Hd.
    unfold main_argv, wants_debug. rewrite Hd. unfold main.
    assert (Hnew : Thermostat.new tstatCurl w
                   = Done (Thermostat.mk tstatCurl None
                             (clock w (reads w) - k_runBlowerFanAfterHeatOff) false 0)
                          (mkWorld (clock w) (S (reads w)) (wire w) (sent w) (curl w)) [])
      by reflexivity.
    rewrite (bind_run _ _ _ _ _ _ Hnew).
    match goal with |- context [bind (debug_fans fans_of_main) _ ?w1] =>
      destruct (debug_fans_run fans_of_main w1) as (w' & evs & Hrun & Hreq & Hsl & Her) end.
    rewrite (bind_run _ _ _ _ _ _ Hrun). unfold ret.
    do 2 eexists. split; [reflexivity|].
    rewrite app_nil_l, app_nil_r. split; [exact Hreq|]. split; assumption.
  - intros argv n Hno. unfold main_argv. rewrite Hno. reflexivity.
Qed.

Lemma diagnostic_mode_witness :
  exists w' evs,
    main_argv ["fancontrol"%string; "-debug"%string] 5 (world_at (Chrono.seconds 100))
      = Done None w' evs
    /\ requests evs = [ (fan1Curl, HttpPost QueryDynamicShadowData);
                        (fan2Curl, HttpPost QueryDynamicShadowData);
                        (fan3Curl, HttpPost QueryDynamicShadowData);
                        (tstatCurl, HttpGet) ]
    /\ sleeps evs = [] /\ error_reports evs = [].
Proof.
  apply (proj1 diagnostic_mode "fancontrol"%string "-debug"%string [] 5%nat
           (world_at (Chrono.seconds 100))).
  reflexivity.
Defined.

(** ** The write function and the fan's query *)

Lemma deliver_replaces (cur piece : list Byte.byte) :
  Z.of_nat (List.length piece) < 2 ^ 64 ->
  deliver (Some cur) piece = Some piece.
Proof.
  intros Hlen. unfold deliver, callback. cbn [fst].
  rewrite Z.mul_1_l, Z.mod_small by lia.
  rewrite Nat2Z.id, firstn_all. reflexivity.
Qed.

Lemma last_of_nonempty {A} (a : A) (l : list A) (d d' : A) :
  last (a :: l) d = last (a :: l) d'.
Proof.
  revert a. induction l as [|b l IH]; intros a; [reflexivity|].
  change (last (b :: l) d = last (b :: l) d'). apply IH.
Qed.

(** X17.  [callback] replaces the string it is given instead of extending
    it: of a body that libcurl hands over in several pieces, the string
    that [doHttpRequest] returns holds the last piece only.  Each call
    reports all of its bytes as taken, also with no string to write to. *)
Theorem collected_is_the_last_piece :
  (forall pieces : list (list Byte.byte),
     Forall (fun piece => Z.of_nat (List.length piece) < 2 ^ 64) pieces ->
     collected pieces = Some (last pieces []))
  /\ (forall (input : list Byte.byte) (size num : Z) (out : option (list Byte.byte)),
        0 <= size * num < 2 ^ 64 ->
        snd (callback input size num out) = size * num).
Proof.
  split.
  - intros pieces Hlen. unfold collected. generalize (@nil Byte.byte) as cur.
    induction Hlen as [|piece pieces Hpiece _ IH]; intros cur; [reflexivity|].
    cbn [fold_left]. rewrite (deliver_replaces cur piece Hpiece), IH.
    destruct pieces as [|next pieces]; [reflexivity|].
    change (last (piece :: next :: pieces) cur) with (last (next :: pieces) cur).
    f_equal. apply last_of_nonempty.
  - intros input size num out Hrange. unfold callback. cbn [snd].
    apply Z.mod_small. exact Hrange.
Qed.

(** A body handed over as [{"temp":70,] and then ["fmode":0}] is kept as
    the second piece. *)
Lemma collected_is_the_last_piece_witness :
  collected [ [Byte.x7b; Byte.x22; Byte.x74; Byte.x65; Byte.x6d; Byte.x70; Byte.x22;
               Byte.x3a; Byte.x37; Byte.x30; Byte.x2c];
              [Byte.x22; Byte.x66; Byte.x6d; Byte.x6f; Byte.x64; Byte.x65; Byte.x22;
               Byte.x3a; Byte.x30; Byte.x7d] ]
    = Some [Byte.x22; Byte.x66; Byte.x6d; Byte.x6f; Byte.x64; Byte.x65; Byte.x22;
            Byte.x3a; Byte.x30; Byte.x7d].
Proof.
  apply (proj1 collected_is_the_last_piece
           [ [Byte.x7b; Byte.x22; Byte.x74; Byte.x65; Byte.x6d; Byte.x70; Byte.x22;
              Byte.x3a; Byte.x37; Byte.x30; Byte.x2c];
             [Byte.x22; Byte.x66; Byte.x6d; Byte.x6f; Byte.x64; Byte.x65; Byte.x22;
              Byte.x3a; Byte.x30; Byte.x7d] ]).
  repeat constructor.
Defined.

(** X18.  [GetFanSpeed] sends the shadow-data query and returns [-1] for any
    status other than 200 and the integer [fanSpeed] of a 200 answer that
    carries one.  It checks neither that the body parsed nor that the
    member is there: a 200 answer whose body is empty, is not JSON, is not
    an object or lacks [fanSpeed] stops the process. *)
Theorem GetFanSpeed_answers (fan : CeilingFan.t) (w : World) :
  (fst (next_answer w) <> 200 ->
   exists w', CeilingFan_GetFanSpeed fan w
              = Done (-1) w' [Sent (CeilingFan.curlInstance fan)
                                   (HttpPost QueryDynamicShadowData) (next_answer w)])
  /\ (forall (members : list (string * Json.value)) (speed : Z),
        fst (next_answer w) = 200 ->
        snd (next_answer w) = BodyJson (Json.Object members) ->
        Json.FindMember members "fanSpeed" = Some (Json.Int speed) ->
        - 2 ^ 31 <= speed < 2 ^ 31 ->
        value_of (CeilingFan_GetFanSpeed fan) w = Some speed)
  /\ (fst (next_answer w) = 200 ->
      match snd (next_answer w) with
      | BodyJson (Json.Object members) => Json.FindMember members "fanSpeed" = None
      | _ => True
      end ->
      CeilingFan_GetFanSpeed fan w = Abort).
Proof.
  unfold CeilingFan_GetFanSpeed, value_of, next_answer, bind, curl_easy_setopt,
    doHttpRequest, asserting, ret.
  cbn [clock reads wire sent curl fst snd]. rewrite Nat.eqb_refl.
  split; [|split].
  - intros Hcode. destruct (Z.eqb_spec (fst (wire w (sent w))) 200); [contradiction|].
    cbn [negb]. eexists. reflexivity.
  - intros members speed Hcode Hbody Hmember Hint. rewrite Hcode, Hbody.
    rewrite Z.eqb_refl. cbn [negb parsed Json.member Json.and_then].
    rewrite Hmember. cbn [Json.and_then Json.GetInt Json.IsInt].
    replace ((- 2 ^ 31 <=? speed) && (speed <? 2 ^ 31)) with true by lia.
    reflexivity.
  - intros Hcode Hbody. rewrite Hcode, Z.eqb_refl. cbn [negb].
    destruct (snd (wire w (sent w))) as [| |doc]; try reflexivity.
    destruct doc; try reflexivity.
    cbn [parsed Json.member Json.and_then]. rewrite Hbody. reflexivity.
Qed.

(** A fan that answers [{"fanSpeed": 3}] is read as 3; one that answers
    200 with nothing stops the process. *)
Lemma GetFanSpeed_answers_witness :
  value_of (CeilingFan_GetFanSpeed (CeilingFan.new fan1Curl))
           (world_of [] [(200, BodyJson (Json.Object [("fanSpeed"%string, Json.Int 3)]))])
    = Some 3
  /\ CeilingFan_GetFanSpeed (CeilingFan.new fan1Curl) (world_of [] [(200, BodyEmpty)])
     = Abort.
Proof.
  split.
  - apply (proj1 (proj2 (GetFanSpeed_answers (CeilingFan.new fan1Curl)
                           (world_of [] [(200, BodyJson (Json.Object
                                                 [("fanSpeed"%string, Json.Int 3)]))])))
                 [("fanSpeed"%string, Json.Int 3)] 3);
      [reflexivity | reflexivity | reflexivity | lia].
  - apply (proj2 (proj2 (GetFanSpeed_answers (CeilingFan.new fan1Curl)
                           (world_of [] [(200, BodyEmpty)]))));
      [reflexivity | exact I].
Defined.

(** ** Two more facts about answers *)

(** X3.  The members are looked for before any of them is read: a 200
    answer whose object lacks one of the four is a failed poll like any
    other, even when a member that is there has the wrong type. *)
Theorem missing_member_is_a_failed_poll (tstat : Thermostat.t) (w : World)
        (members : list (string * Json.value)) :
  next_answer w = (200, BodyJson (Json.Object members)) ->
  has_all_members members = false ->
  exists w' evs,
    Thermostat.Update tstat w = Done (false, after_failure tstat) w' evs
    /\ error_reports evs
       = (if Thermostat.failCount (after_failure tstat) mod 6 =? 0
          then [FailedToParseData (Thermostat.curlInstance tstat)
                  (Thermostat.failCount (after_failure tstat)) 200
                  (BodyJson (Json.Object members))]
          else []).
Proof.
  intros Hanswer Hmissing.
  pose proof (ParseState_object members) as Hparse. rewrite Hmissing in Hparse.
  assert (Hfail : poll_fails (next_answer w)).
  { right. rewrite Hanswer. exact Hparse. }
  destruct (failed_poll tstat w Hfail) as (w' & evs & Hrun & Hrep & _).
  exists w', evs. split; [exact Hrun|]. rewrite Hrep.
  unfold failure_report. rewrite Hanswer. reflexivity.
Qed.

(** No [fmode], and a [tstate] that is a string: the fifth failure in a
    row is counted, the sixth would be reported. *)
Lemma missing_member_is_a_failed_poll_witness :
  exists w' evs,
    Thermostat.Update (Thermostat.mk tstatCurl None 0 false 4)
      (poll_answering (Chrono.seconds 100)
         (200, BodyJson (Json.Object [ ("temp"%string, Json.Int 70);
                                       ("t_heat"%string, Json.Int 68);
                                       ("tstate"%string, Json.String "heat") ])))
      = Done (false, after_failure (Thermostat.mk tstatCurl None 0 false 4)) w' evs
    /\ error_reports evs = [].
Proof.
  apply (missing_member_is_a_failed_poll (Thermostat.mk tstatCurl None 0 false 4)
           (poll_answering (Chrono.seconds 100)
              (200, BodyJson (Json.Object [ ("temp"%string, Json.Int 70);
                                            ("t_heat"%string, Json.Int 68);
                                            ("tstate"%string, Json.String "heat") ])))
           [ ("temp"%string, Json.Int 70);
             ("t_heat"%string, Json.Int 68);
             ("tstate"%string, Json.String "heat") ]);
    reflexivity.
Defined.

(** X12.  The blower does not learn whether its command was accepted: the
    value [SetBlowerState] returns is dropped.  What the blower holds after
    a tick and what it posts depend on the tracker and on the time since
    the transition only, not on what the network answers. *)
Theorem blower_ignores_answers (fan : FurnaceBlower.t) (tstat : Thermostat.t)
        (w1 w2 : World) :
  since_at tstat w1 = since_at tstat w2 ->
  exists fan' w1' w2' evs1 evs2,
    FurnaceBlower.Update fan tstat w1 = Done fan' w1' evs1
    /\ FurnaceBlower.Update fan tstat w2 = Done fan' w2' evs2
    /\ blower_commands evs1 = blower_commands evs2.
Proof.
  intros Hsame.
  destruct (FurnaceBlower_tick fan tstat w1) as (_ & f1 & w1' & e1 & Hrun1 & Hh1 & Hout1).
  destruct (FurnaceBlower_tick fan tstat w2) as (_ & f2 & w2' & e2 & Hrun2 & Hh2 & Hout2).
  rewrite Hsame in Hout1.
  assert (Heq : FurnaceBlower.latchedState f1 = FurnaceBlower.latchedState f2
                /\ blower_commands e1 = blower_commands e2).
  { destruct (engage_condition tstat (since_at tstat w2)).
    - unfold overrides in *. destruct Hout1 as [-> ->], Hout2 as [-> ->].
      split; reflexivity.
    - unfold restores in *. destruct (FurnaceBlower.latchedState fan) as [l|].
      + destruct (l =? Thermostat.GetBlowerState tstat);
          destruct Hout1 as [-> ->], Hout2 as [-> ->]; split; reflexivity.
      + destruct Hout1 as [-> ->], Hout2 as [-> ->]. split; reflexivity. }
  destruct Heq as [Hl Hc].
  assert (Hf : f1 = f2).
  { destruct f1, f2; cbn in *; congruence. }
  subst f2. exists f1, w1', w2', e1, e2. repeat split; assumption.
Qed.

(** The same tick answered with 200 and with a time-out. *)
Lemma blower_ignores_answers_witness :
  exists fan' w1' w2' evs1 evs2,
    FurnaceBlower.Update (FurnaceBlower.new tstatCurl) heat_just_off
                         (world_answering (Chrono.seconds 1000) 200) = Done fan' w1' evs1
    /\ FurnaceBlower.Update (FurnaceBlower.new tstatCurl) heat_just_off
                            (world_answering (Chrono.seconds 1000) 0) = Done fan' w2' evs2
    /\ blower_commands evs1 = blower_commands evs2.
Proof.
  apply (blower_ignores_answers (FurnaceBlower.new tstatCurl) heat_just_off
           (world_answering (Chrono.seconds 1000) 200)
           (world_answering (Chrono.seconds 1000) 0)).
  reflexivity.
Defined.

(** ** The loop over many passes *)

Lemma commands_are_not_gets (commands : list (CURL * request)) :
  Forall (fun req => is_command req = true) commands -> filter is_get commands = [].
Proof.
  induction 1 as [|[h r] commands Hcmd _ IH]; [reflexivity|].
  cbn [filter]. rewrite IH.
  destruct r as [|data]; [discriminate|reflexivity].
Qed.

(** One pass: a single poll, at most one sleep, the same devices. *)
Lemma pass_summary (tstat : Thermostat.t) (fans : list Fan) (w : World) :
  faults (next_answer w) = false ->
  exists st' w' evs,
    loop_body (tstat, fans) w = Done st' w' evs
    /\ wire w' = wire w
    /\ List.length (filter is_get (requests evs)) = 1%nat
    /\ (List.length (sleeps evs) <= 1)%nat
    /\ map handle_of (snd st') = map handle_of fans.
Proof.
  intros Hok.
  destruct (loop_body_run tstat fans w Hok)
    as (st' & w' & evs & Hrun & (_ & Hwire & _) & _ & Hsleeps & _).
  exists st', w', evs. split; [exact Hrun|]. split; [exact Hwire|].
  destruct (loop_body_traffic tstat fans w Hok)
    as (st2 & w2 & evs2 & commands & Hrun2 & Hreq & _ & Hcmds & _).
  rewrite Hrun in Hrun2. injection Hrun2 as <- <- <-.
  split; [|split].
  - rewrite Hreq. cbn [filter is_get snd].
    rewrite commands_are_not_gets; [reflexivity|].
    eapply Forall_impl; [|exact Hcmds]. cbn beta. intros req [H _]. exact H.
  - rewrite Hsleeps. cbv zeta. destruct (_ <=? 0); cbn; lia.
  - destruct (loop_body_events tstat fans w Hok)
      as (ok & tstat' & fans' & w1 & w3 & w4 & e1 & e2 & e3 & _ & _ & Hfans & Hrun3 & _).
    rewrite Hrun in Hrun3. injection Hrun3 as -> _ _. cbn [snd].
    destruct ok.
    + destruct Hfans as (w5 & Hfans).
      destruct (update_fans_events fans tstat' w3) as (f & w6 & e & Hrun4 & Hh & _).
      rewrite Hfans in Hrun4. injection Hrun4 as <- _ _. exact Hh.
    + destruct Hfans as [-> _]. reflexivity.
Qed.

(** X19.  When no answer on the network is one on which the decoder
    asserts, any number of passes completes: [n] passes make exactly [n]
    polls, one GET each, sleep at most [n] times, and leave every fan of the
    vector on its handle. *)
Theorem loop_polls_once_per_pass (n : nat) (st : Thermostat.t * list Fan) (w : World) :
  (forall i, faults (wire w i) = false) ->
  exists st' w' evs,
    loop n st w = Done st' w' evs
    /\ List.length (filter is_get (requests evs)) = n
    /\ (List.length (sleeps evs) <= n)%nat
    /\ map handle_of (snd st') = map handle_of (snd st).
Proof.
  revert st w. induction n as [|n IH]; intros [tstat fans] w Hok.
  { exists (tstat, fans), w, []. cbn. repeat split. lia. }
  destruct (pass_summary tstat fans w (Hok (sent w)))
    as (st1 & w1 & evs1 & Hrun & Hwire & Hget & Hsleep & Hh).
  destruct (IH st1 w1) as (st' & w' & evs & Hloop & Hgets & Hsleeps & Hhs).
  { intros i. rewrite Hwire. apply Hok. }
  cbn [loop]. rewrite (bind_run _ _ _ _ _ _ Hrun), Hloop.
  exists st', w', (evs1 ++ evs). split; [reflexivity|].
  rewrite requests_app, filter_app, sleeps_app, !length_app, Hget, Hgets.
  split; [reflexivity|]. split; [lia|]. cbn [snd]. congruence.
Qed.

(** Ten passes on a network where every second answer is a time-out. *)
Lemma loop_polls_once_per_pass_witness :
  exists st' w' evs,
    loop 10 fresh_state patchy_world = Done st' w' evs
    /\ List.length (filter is_get (requests evs)) = 10%nat
    /\ (List.length (sleeps evs) <= 10)%nat
    /\ map handle_of (snd st') = map handle_of (snd fresh_state).
Proof.
  apply (loop_polls_once_per_pass 10 fresh_state patchy_world).
  intros i. cbn [patchy_world wire]. destruct (Nat.even i); reflexivity.
Defined.
